(** * GhostChat backend ([backend/server.py]): presence registry, relay
    protocol, contact CRUD and Telegram init-data validation.

    A shallow embedding of the Python module.  Conventions:
    - a Python [str] is a Rocq [string] whose characters are the code
      points 0..255; [encode_utf8] gives its UTF-8 bytes;
    - a decoded JSON payload is a value of [json]; JSON numbers are the
      integers (floats are not modelled);
    - a [dict] whose iteration order is observable ([active_connections],
      the users and contacts tables) is an insertion-ordered association
      list; [typing_users] is a [gmap] from hashed keys to [gset]s;
    - [await ws.send_json(..)] and [datetime.now(..)] talk to the outside
      world: their results are read from an environment [Env], and every
      attempted send is recorded in the world's trace;
    - exceptions are threaded by a state-and-error monad [M]. *)

From Stdlib Require Import ZArith List String Ascii Bool Lia Sorted Permutation.
From stdpp Require Import base gmap sets list strings.
Import ListNotations.

Local Open Scope Z_scope.
Local Open Scope string_scope.
Local Open Scope list_scope.

(* ===================================================================== *)
(** ** Python values *)
(* ===================================================================== *)

Module Py.

(** [str.isspace] on one character, for code points below 256:
    TAB..CR, FS..US, space, NEL (0x85) and NBSP (0xA0). *)
Definition isspace (c : ascii) : bool :=
  let n := N_of_ascii c in
  ((9 <=? n) && (n <=? 13) || (28 <=? n) && (n <=? 32)
   || (n =? 133) || (n =? 160))%N.

Fixpoint lstrip (s : string) : string :=
  match s with
  | EmptyString => EmptyString
  | String c s' => if isspace c then lstrip s' else s
  end.

Fixpoint rstrip (s : string) : string :=
  match s with
  | EmptyString => EmptyString
  | String c s' =>
      match rstrip s' with
      | EmptyString => if isspace c then EmptyString else String c EmptyString
      | r => String c r
      end
  end.

(** [s.strip()] *)
Definition strip (s : string) : string := rstrip (lstrip s).

(** every character of [s] is whitespace *)
Fixpoint all_space (s : string) : bool :=
  match s with
  | EmptyString => true
  | String c s' => isspace c && all_space s'
  end.

(** A value produced by [json.loads] / [receive_json]. *)
#[local] Set Warnings "-register-all".
Inductive json : Type :=
  | JNull
  | JBool (b : bool)
  | JNum (n : Z)
  | JStr (s : string)
  | JArr (items : list json)
  | JObj (fields : list (string * json)).

(** Python truthiness, as used by [if x:] and [not x]. *)
Definition truthy (v : json) : bool :=
  match v with
  | JNull => false
  | JBool b => b
  | JNum n => negb (n =? 0)%Z
  | JStr s => negb (s =? "")%string
  | JArr l => match l with [] => false | _ => true end
  | JObj l => match l with [] => false | _ => true end
  end.

(** Keys of a dict or members of a set, up to Python's [==]/[hash]:
    [True == 1] and [False == 0]. *)
Inductive pykey : Type :=
  | KNone
  | KInt (n : Z)
  | KStr (s : string).

(** [hash(v)]: lists and dicts are unhashable ([TypeError]). *)
Definition py_hash (v : json) : option pykey :=
  match v with
  | JNull => Some KNone
  | JBool b => Some (KInt (if b then 1 else 0))
  | JNum n => Some (KInt n)
  | JStr s => Some (KStr s)
  | JArr _ | JObj _ => None
  end.

(** Lookup in the items of a decoded JSON object. *)
Fixpoint items_get (k : string) (fields : list (string * json)) : option json :=
  match fields with
  | [] => None
  | (k', v) :: rest => if (k' =? k)%string then Some v else items_get k rest
  end.

Inductive exn : Type :=
  | WebSocketDisconnect
  | AttributeError
  | TypeError
  | JSONDecodeError
  | RuntimeError.

End Py.
Export Py.

Global Instance pykey_eq_dec : EqDecision pykey.
Proof. solve_decision. Defined.

Global Instance pykey_countable : Countable pykey.
Proof.
  refine (inj_countable'
    (fun k => match k with
              | KNone => inl tt
              | KInt n => inr (inl n)
              | KStr s => inr (inr s)
              end)
    (fun x => match x with
              | inl _ => KNone
              | inr (inl n) => KInt n
              | inr (inr s) => KStr s
              end) _).
  intros []; reflexivity.
Defined.

(* ===================================================================== *)
(** ** Insertion-ordered dictionaries with [str] keys *)
(* ===================================================================== *)

Module Dict.
Section Dict.
Context {V : Type}.

(** [k in d] *)
Fixpoint mem (k : string) (d : list (string * V)) : bool :=
  match d with
  | [] => false
  | (k', _) :: d' => (k' =? k)%string || mem k d'
  end.

(** [d[k]] when present *)
Fixpoint get (k : string) (d : list (string * V)) : option V :=
  match d with
  | [] => None
  | (k', v) :: d' => if (k' =? k)%string then Some v else get k d'
  end.

(** [d[k] = v]: an existing key keeps its position, a new one goes last *)
Fixpoint set (k : string) (v : V) (d : list (string * V)) : list (string * V) :=
  match d with
  | [] => [(k, v)]
  | (k', v') :: d' =>
      if (k' =? k)%string then (k', v) :: d' else (k', v') :: set k v d'
  end.

(** [del d[k]] *)
Fixpoint del (k : string) (d : list (string * V)) : list (string * V) :=
  match d with
  | [] => []
  | (k', v') :: d' =>
      if (k' =? k)%string then del k d' else (k', v') :: del k d'
  end.

(** [list(d.keys())] *)
Definition keys (d : list (string * V)) : list string := map fst d.
End Dict.
End Dict.

(* ===================================================================== *)
(** ** The world: manager state, transport trace, log *)
(* ===================================================================== *)

(** A [WebSocket] object, by identity. *)
Definition handle := nat.

(** What the outside world answers: the outcome of the [n]-th
    [send_json] attempt when made on handle [h] ([None]: it returns,
    [Some e]: it raises [e]), and the ISO-8601 reading of the UTC clock
    at that point. *)
Record Env : Type := {
  send_outcome : nat -> handle -> option exn;
  utcnow : nat -> string
}.

(** One attempted [send_json]. *)
Record send_rec : Type := {
  sr_to : handle;
  sr_msg : json;
  sr_result : option exn
}.

Inductive log_entry : Type :=
  | Log_connected (user_id : string) (total : nat)
  | Log_disconnected (user_id : string) (total : nat)
  | Log_send_failed (user_id : json) (e : exn)
  | Log_ws_error (e : exn).

(** [class ConnectionManager] *)
Record ConnectionManager : Type := {
  active_connections : list (string * handle);
  typing_users : gmap pykey (gset string)
}.

Record World : Type := {
  manager : ConnectionManager;
  sent : list send_rec;
  log : list log_entry
}.

(** [ConnectionManager.__init__] *)
Definition manager_init : ConnectionManager :=
  {| active_connections := []; typing_users := ∅ |}.

Definition world_init : World :=
  {| manager := manager_init; sent := []; log := [] |}.

(* ===================================================================== *)
(** ** State-and-exception monad *)
(* ===================================================================== *)

Inductive result (A : Type) : Type :=
  | Ok (a : A)
  | Raise (e : exn).
Arguments Ok {A} a.
Arguments Raise {A} e.

Definition M (A : Type) : Type := World -> result A * World.

Definition ret {A} (a : A) : M A := fun w => (Ok a, w).

Definition bind {A B} (m : M A) (k : A -> M B) : M B :=
  fun w => match m w with
           | (Ok a, w') => k a w'
           | (Raise e, w') => (Raise e, w')
           end.

Definition raise {A} (e : exn) : M A := fun w => (Raise e, w).

(** [try: m  except <any>: h e] *)
Definition try_except {A} (m : M A) (h : exn -> M A) : M A :=
  fun w => match m w with
           | (Ok a, w') => (Ok a, w')
           | (Raise e, w') => h e w'
           end.

Definition get_manager : M ConnectionManager := fun w => (Ok (manager w), w).

Definition put_manager (m : ConnectionManager) : M unit :=
  fun w => (Ok tt, {| manager := m; sent := sent w; log := log w |}).

Definition logger (e : log_entry) : M unit :=
  fun w => (Ok tt, {| manager := manager w; sent := sent w; log := log w ++ [e] |}).

Declare Scope py_scope.
Delimit Scope py_scope with py.
Notation "x <- m ;; k" := (bind m (fun x => k))
  (at level 100, m at next level, right associativity) : py_scope.
Notation "m ;;; k" := (bind m (fun _ => k))
  (at level 100, right associativity) : py_scope.
Local Open Scope py_scope.

(* ===================================================================== *)
(** ** [ConnectionManager] methods and the websocket endpoint *)
(* ===================================================================== *)

Section Server.
Variable env : Env.

(** [await ws.send_json(message)] *)
Definition send_json (ws : handle) (message : json) : M unit :=
  fun w =>
    let r := send_outcome env (length (sent w)) ws in
    let w' := {| manager := manager w;
                 sent := sent w ++ [{| sr_to := ws; sr_msg := message; sr_result := r |}];
                 log := log w |} in
    match r with
    | None => (Ok tt, w')
    | Some e => (Raise e, w')
    end.

(** [datetime.now(timezone.utc).isoformat()] *)
Definition now_iso : M string :=
  fun w => (Ok (utcnow env (length (sent w))), w).

Definition status_message (user_id status : string) : json :=
  JObj [("type", JStr "status"); ("user_id", JStr user_id); ("status", JStr status)].

(** The loop of [broadcast_status] over [active_connections.items()]. *)
Fixpoint broadcast_items (items : list (string * handle))
         (user_id : string) (message : json) : M unit :=
  match items with
  | [] => ret tt
  | (uid, ws) :: rest =>
      (if negb (uid =? user_id)%string
       then try_except (send_json ws message) (fun _ => ret tt)
       else ret tt) ;;;
      broadcast_items rest user_id message
  end.

Definition broadcast_status (user_id status : string) : M unit :=
  m <- get_manager ;;
  broadcast_items (active_connections m) user_id (status_message user_id status).

(** [connect]: [websocket.accept()] is taken to succeed. *)
Definition connect (user_id : string) (websocket : handle) : M unit :=
  m <- get_manager ;;
  let conns := Dict.set user_id websocket (active_connections m) in
  put_manager {| active_connections := conns; typing_users := typing_users m |} ;;;
  logger (Log_connected user_id (length conns)) ;;;
  broadcast_status user_id "online".

Definition disconnect (user_id : string) : M unit :=
  m <- get_manager ;;
  if Dict.mem user_id (active_connections m) then
    let conns := Dict.del user_id (active_connections m) in
    put_manager {| active_connections := conns;
                   typing_users := (fun recipients => recipients ∖ {[user_id]})
                                     <$> typing_users m |} ;;;
    logger (Log_disconnected user_id (length conns))
  else ret tt.

Definition is_online (m : ConnectionManager) (user_id : string) : bool :=
  Dict.mem user_id (active_connections m).

Definition get_online_users (m : ConnectionManager) : list string :=
  Dict.keys (active_connections m).

(** [active_connections] is keyed by [str]; a key of another type
    is never found. *)
Definition find_connection (k : pykey) (conns : list (string * handle)) : option handle :=
  match k with
  | KStr s => Dict.get s conns
  | _ => None
  end.

Definition send_to_user (user_id : json) (message : json) : M bool :=
  match py_hash user_id with
  | None => raise TypeError
  | Some k =>
      m <- get_manager ;;
      match find_connection k (active_connections m) with
      | Some ws =>
          try_except (send_json ws message ;;; ret true)
                     (fun e => logger (Log_send_failed user_id e) ;;; ret false)
      | None => ret false
      end
  end.

(** The two statements of [set_typing] on the dict itself. *)
Definition typing_set (sender_id : string) (k : pykey) (is_typing : bool)
           (t0 : gmap pykey (gset string)) : gmap pykey (gset string) :=
  let t1 := match t0 !! k with
            | None => <[k := ∅]> t0
            | Some _ => t0
            end in
  if is_typing
  then alter (fun s => s ∪ {[sender_id]}) k t1
  else alter (fun s => s ∖ {[sender_id]}) k t1.

Definition set_typing (sender_id : string) (recipient_id : json) (is_typing : json) : M unit :=
  match py_hash recipient_id with
  | None => raise TypeError
  | Some k =>
      m <- get_manager ;;
      put_manager {| active_connections := active_connections m;
                     typing_users := typing_set sender_id k (truthy is_typing) (typing_users m) |}
  end.

(** [d.get(key, default)] on the items of a dict. *)
Definition get_or (fields : list (string * json)) (key : string) (default : json) : json :=
  match items_get key fields with
  | Some v => v
  | None => default
  end.

(** [data.get(key, default)] on whatever [receive_json] returned. *)
Definition data_get (data : json) (key : string) (default : json) : M json :=
  match data with
  | JObj fields => ret (get_or fields key default)
  | _ => raise AttributeError
  end.

(** [v.strip()] *)
Definition str_strip (v : json) : M string :=
  match v with
  | JStr s => ret (strip s)
  | _ => raise AttributeError
  end.

(** [x == 'literal'] for a decoded JSON value [x] *)
Definition eq_str (v : json) (s : string) : bool :=
  match v with
  | JStr s' => (s' =? s)%string
  | _ => false
  end.

Definition message_envelope (sender_id text timestamp : string) : json :=
  JObj [("type", JStr "message"); ("sender_id", JStr sender_id);
        ("text", JStr text); ("timestamp", JStr timestamp)].

Definition receipt_envelope (recipient_id : json) (delivered : bool) (timestamp : string) : json :=
  JObj [("type", JStr "message_sent"); ("recipient_id", recipient_id);
        ("delivered", JBool delivered); ("timestamp", JStr timestamp)].

Definition typing_envelope (sender_id : string) (is_typing : json) : json :=
  JObj [("type", JStr "typing"); ("sender_id", JStr sender_id); ("is_typing", is_typing)].

Definition pong : json := JObj [("type", JStr "pong")].

(** The body of the [while True] loop after [receive_json]. *)
Definition handle_event (websocket : handle) (anonymous_id : string) (data : json) : M unit :=
  ty <- data_get data "type" JNull ;;
  if eq_str ty "message" then
    recipient_id <- data_get data "recipient_id" JNull ;;
    raw <- data_get data "text" (JStr "") ;;
    text <- str_strip raw ;;
    if truthy recipient_id && negb (text =? "")%string then
      set_typing anonymous_id recipient_id (JBool false) ;;;
      timestamp <- now_iso ;;
      let message := message_envelope anonymous_id text timestamp in
      delivered <- send_to_user recipient_id message ;;
      send_json websocket (receipt_envelope recipient_id delivered timestamp)
    else ret tt
  else
    ty <- data_get data "type" JNull ;;
    if eq_str ty "typing" then
      recipient_id <- data_get data "recipient_id" JNull ;;
      is_typing <- data_get data "is_typing" (JBool true) ;;
      if truthy recipient_id then
        set_typing anonymous_id recipient_id is_typing ;;;
        send_to_user recipient_id (typing_envelope anonymous_id is_typing) ;;;
        ret tt
      else ret tt
    else
      ty <- data_get data "type" JNull ;;
      if eq_str ty "ping" then send_json websocket pong
      else ret tt.

(** What the transport hands to [receive_json]: a text frame holding
    JSON, a frame that does not decode, or the peer's close. *)
Inductive frame : Type :=
  | FrameJson (data : json)
  | FrameUndecodable
  | FrameDisconnect.

Definition receive_json (f : frame) : M json :=
  match f with
  | FrameJson data => ret data
  | FrameUndecodable => raise JSONDecodeError
  | FrameDisconnect => raise WebSocketDisconnect
  end.

(** The [while True] loop run on the frames that arrive; it returns
    when they are used up, the connection then waiting in
    [receive_json]. *)
Fixpoint receive_loop (websocket : handle) (anonymous_id : string)
         (frames : list frame) : M unit :=
  match frames with
  | [] => ret tt
  | f :: rest =>
      data <- receive_json f ;;
      handle_event websocket anonymous_id data ;;;
      receive_loop websocket anonymous_id rest
  end.

Inductive conn_state : Type := CONNECTING | OPEN | CLOSED.

(** The two [except] clauses of [websocket_endpoint]. *)
Definition on_exception (anonymous_id : string) (e : exn) : M conn_state :=
  match e with
  | WebSocketDisconnect =>
      disconnect anonymous_id ;;;
      broadcast_status anonymous_id "offline" ;;;
      ret CLOSED
  | _ =>
      logger (Log_ws_error e) ;;;
      disconnect anonymous_id ;;;
      ret CLOSED
  end.

(** The [try] statement of [websocket_endpoint], for a connection that
    is already registered. *)
Definition session (websocket : handle) (anonymous_id : string)
           (frames : list frame) : M conn_state :=
  try_except (receive_loop websocket anonymous_id frames ;;; ret OPEN)
             (on_exception anonymous_id).

Definition websocket_endpoint (websocket : handle) (anonymous_id : string)
           (frames : list frame) : M conn_state :=
  connect anonymous_id websocket ;;;
  session websocket anonymous_id frames.

End Server.

(* ===================================================================== *)
(** ** [hashlib.sha256] and [hmac.new(.., hashlib.sha256)] (FIPS 180-4,
       RFC 2104) over bytes given as integers 0..255 *)
(* ===================================================================== *)

Module Sha256.
Local Open Scope Z_scope.

Definition mask32 : Z := 0xFFFFFFFF.
Definition add32 (a b : Z) : Z := Z.land (a + b) mask32.
Definition rotr (n x : Z) : Z :=
  Z.lor (Z.shiftr x n) (Z.land (Z.shiftl x (32 - n)) mask32).
Definition Ch (x y z : Z) : Z :=
  Z.lxor (Z.land x y) (Z.land (Z.lxor x mask32) z).
Definition Maj (x y z : Z) : Z :=
  Z.lxor (Z.lxor (Z.land x y) (Z.land x z)) (Z.land y z).
Definition Sigma0 (x : Z) : Z := Z.lxor (Z.lxor (rotr 2 x) (rotr 13 x)) (rotr 22 x).
Definition Sigma1 (x : Z) : Z := Z.lxor (Z.lxor (rotr 6 x) (rotr 11 x)) (rotr 25 x).
Definition sigma0 (x : Z) : Z := Z.lxor (Z.lxor (rotr 7 x) (rotr 18 x)) (Z.shiftr x 3).
Definition sigma1 (x : Z) : Z := Z.lxor (Z.lxor (rotr 17 x) (rotr 19 x)) (Z.shiftr x 10).

(** The eight working variables / chaining values. *)
Record state : Type := St { sa : Z; sb : Z; sc : Z; sd : Z; se : Z; sf : Z; sg : Z; sh : Z }.

Definition is_prime (n : Z) : bool :=
  forallb (fun d => negb (n mod d =? 0)) (map Z.of_nat (seq 2 (Z.to_nat n - 2))).

(** The first sixty-four primes, 2 to 311. *)
Definition primes : list Z := List.filter is_prime (map Z.of_nat (seq 2 310)).

(** Integer cube root, one bit at a time from bit [bits - 1] down. *)
Fixpoint cube_root_from (bits : nat) (n r : Z) : Z :=
  match bits with
  | O => r
  | S b =>
      let r' := Z.lor r (Z.shiftl 1 (Z.of_nat b)) in
      cube_root_from b n (if r' * r' * r' <=? n then r' else r)
  end.

(** Round constants: the first 32 bits of the fractional part of the cube
    root of each prime. *)
Definition K : list Z :=
  Eval vm_compute in
    map (fun p => Z.land (cube_root_from 40 (p * 2 ^ 96) 0) mask32) primes.

(** Initial hash value: the same of the square roots of the first eight. *)
Definition H0 : state :=
  Eval vm_compute in
    match map (fun p => Z.land (Z.sqrt (p * 2 ^ 64)) mask32) (firstn 8 primes) with
    | [a; b; c; d; e; f; g; h] => St a b c d e f g h
    | _ => St 0 0 0 0 0 0 0 0
    end.

Definition round (s : state) (kw : Z) : state :=
  let t1 := add32 (add32 (add32 (sh s) (Sigma1 (se s))) (Ch (se s) (sf s) (sg s))) kw in
  let t2 := add32 (Sigma0 (sa s)) (Maj (sa s) (sb s) (sc s)) in
  St (add32 t1 t2) (sa s) (sb s) (sc s) (add32 (sd s) t1) (se s) (sf s) (sg s).

(** Message schedule: [win] holds the last sixteen words, oldest first;
    [n] more words are produced. *)
Fixpoint schedule (n : nat) (win : list Z) : list Z :=
  match n with
  | O => []
  | S n' =>
      let w := add32 (add32 (add32 (sigma1 (nth 14 win 0)) (nth 9 win 0))
                            (sigma0 (nth 1 win 0))) (nth 0 win 0) in
      w :: schedule n' (tl win ++ [w])
  end.

Fixpoint words_of_bytes (bs : list Z) : list Z :=
  match bs with
  | b0 :: b1 :: b2 :: b3 :: rest =>
      (Z.lor (Z.lor (Z.lor (Z.shiftl b0 24) (Z.shiftl b1 16)) (Z.shiftl b2 8)) b3)
        :: words_of_bytes rest
  | _ => []
  end.

Definition bytes_of_word (w : Z) : list Z :=
  [Z.land (Z.shiftr w 24) 255; Z.land (Z.shiftr w 16) 255;
   Z.land (Z.shiftr w 8) 255; Z.land w 255].

Definition compress (s : state) (block : list Z) : state :=
  let w16 := words_of_bytes block in
  let w := w16 ++ schedule 48 w16 in
  let s' := fold_left round (map (fun kw => add32 (fst kw) (snd kw)) (combine K w)) s in
  St (add32 (sa s) (sa s')) (add32 (sb s) (sb s')) (add32 (sc s) (sc s')) (add32 (sd s) (sd s'))
     (add32 (se s) (se s')) (add32 (sf s) (sf s')) (add32 (sg s) (sg s')) (add32 (sh s) (sh s')).

(** Padding: 0x80, zeros up to 56 mod 64, the bit length on 64 bits. *)
Definition pad (msg : list Z) : list Z :=
  let len := Z.of_nat (length msg) in
  let zeros := Z.to_nat ((55 - len) mod 64) in
  let bits := 8 * len in
  msg ++ [128] ++ repeat 0 zeros
      ++ bytes_of_word (Z.land (Z.shiftr bits 32) mask32)
      ++ bytes_of_word (Z.land bits mask32).

(** Absorb [nblocks] consecutive 64-byte blocks. *)
Fixpoint absorb (nblocks : nat) (s : state) (bs : list Z) : state :=
  match nblocks with
  | O => s
  | S n => absorb n (compress s (firstn 64 bs)) (skipn 64 bs)
  end.

(** [hashlib.sha256(msg).digest()] *)
Definition digest (msg : list Z) : list Z :=
  let p := pad msg in
  let s := absorb (Nat.div (length p) 64) H0 p in
  bytes_of_word (sa s) ++ bytes_of_word (sb s) ++ bytes_of_word (sc s) ++ bytes_of_word (sd s)
    ++ bytes_of_word (se s) ++ bytes_of_word (sf s) ++ bytes_of_word (sg s) ++ bytes_of_word (sh s).

Definition hex_digit (n : Z) : ascii :=
  ascii_of_N (Z.to_N (if n <? 10 then 48 + n else 87 + n)).

(** [bytes.hex()]: two lowercase hexadecimal digits per byte. *)
Fixpoint hex (bs : list Z) : string :=
  match bs with
  | [] => EmptyString
  | b :: rest => String (hex_digit (Z.shiftr b 4)) (String (hex_digit (Z.land b 15)) (hex rest))
  end.

(** [hashlib.sha256(msg).hexdigest()] *)
Definition hexdigest (msg : list Z) : string := hex (digest msg).

(** [hmac.new(key, msg, hashlib.sha256).digest()] *)
Definition hmac (key msg : list Z) : list Z :=
  let k0 := if (64 <? length key)%nat then digest key else key in
  let k := k0 ++ repeat 0 (64 - length k0)%nat in
  let ipad := map (fun b => Z.lxor b 0x36) k in
  let opad := map (fun b => Z.lxor b 0x5c) k in
  digest (opad ++ digest (ipad ++ msg)).

(** [s.encode()]: UTF-8, for code points below 256. *)
Fixpoint encode_utf8 (s : string) : list Z :=
  match s with
  | EmptyString => []
  | String c rest =>
      let n := Z.of_N (N_of_ascii c) in
      (if n <? 128 then [n]
       else [Z.lor 192 (Z.shiftr n 6); Z.lor 128 (Z.land n 63)])
        ++ encode_utf8 rest
  end.

End Sha256.

(* ===================================================================== *)
(** ** [validate_telegram_data] *)
(* ===================================================================== *)

Module Telegram.
Section Validate.

(** [json.loads]; [None] when it raises. *)
Variable json_loads : string -> option json.

(** [dict(pairs)]: a later pair overwrites the value of an earlier one. *)
Definition dict_of (pairs : list (string * string)) : list (string * string) :=
  fold_left (fun d kv => Dict.set (fst kv) (snd kv) d) pairs [].

(** Order of [(k, v)] tuples of [str], by code points. *)
Definition item_le (a b : string * string) : bool :=
  match String.compare (fst a) (fst b) with
  | Lt => true
  | Gt => false
  | Eq => match String.compare (snd a) (snd b) with Gt => false | _ => true end
  end.

Fixpoint insert_sorted (x : string * string) (l : list (string * string)) :=
  match l with
  | [] => [x]
  | y :: l' => if item_le x y then x :: l else y :: insert_sorted x l'
  end.

(** [sorted(parsed.items())] *)
Definition sorted (l : list (string * string)) : list (string * string) :=
  fold_right insert_sorted [] l.

(** [sep.join(l)] *)
Fixpoint join (sep : string) (l : list string) : string :=
  match l with
  | [] => EmptyString
  | x :: rest =>
      match rest with
      | [] => x
      | _ => String.append x (String.append sep (join sep rest))
      end
  end.

Definition newline : string := String (ascii_of_N 10) EmptyString.

(** ['\n'.join(f'{k}={v}' for k, v in sorted(parsed.items()))] *)
Definition data_check_string (parsed : list (string * string)) : string :=
  join newline
       (map (fun kv => String.append (fst kv) (String.append "=" (snd kv))) (sorted parsed)).

(** The digest the supplied hash is compared with. *)
Definition calculated_hash (TELEGRAM_BOT_TOKEN : string) (parsed : list (string * string)) : string :=
  let secret_key :=
    Sha256.hmac (Sha256.encode_utf8 "WebAppData") (Sha256.encode_utf8 TELEGRAM_BOT_TOKEN) in
  Sha256.hex (Sha256.hmac secret_key (Sha256.encode_utf8 (data_check_string parsed))).

Definition test_identity : json := JObj [("user", JObj [("id", JStr "test_user")])].

(** [validate_telegram_data], from the pairs that
    [parse_qsl(init_data, keep_blank_values=True)] returns. *)
Definition validate_telegram_data (TELEGRAM_BOT_TOKEN : string)
           (qsl : list (string * string)) : option json :=
  if (TELEGRAM_BOT_TOKEN =? "")%string then Some test_identity
  else
    let parsed0 := dict_of qsl in
    let hash_value := Dict.get "hash" parsed0 in
    let parsed := Dict.del "hash" parsed0 in
    match hash_value with
    | None => None
    | Some h =>
        if (h =? "")%string then None
        else if (calculated_hash TELEGRAM_BOT_TOKEN parsed =? h)%string then
          match json_loads (match Dict.get "user" parsed with
                            | Some u => u
                            | None => "{}"
                            end) with
          | Some user_data => Some (JObj [("user", user_data)])
          | None => None
          end
        else None
    end.

End Validate.

(** ASCII upper- and lower-casing, to state comparisons up to letter case. *)
Definition upper_char (c : ascii) : ascii :=
  let n := N_of_ascii c in
  if ((97 <=? n) && (n <=? 122))%N then ascii_of_N (n - 32) else c.

Definition lower_char (c : ascii) : ascii :=
  let n := N_of_ascii c in
  if ((65 <=? n) && (n <=? 90))%N then ascii_of_N (n + 32) else c.

Fixpoint upper (s : string) : string :=
  match s with
  | EmptyString => EmptyString
  | String c s' => String (upper_char c) (upper s')
  end.

Fixpoint lower (s : string) : string :=
  match s with
  | EmptyString => EmptyString
  | String c s' => String (lower_char c) (lower s')
  end.

(** Equality of two hexadecimal strings up to letter case. *)
Definition eq_ignoring_case (a b : string) : bool := (lower a =? lower b)%string.

End Telegram.

(* ===================================================================== *)
(** ** The relational store and [add_contact] *)
(* ===================================================================== *)

Module Store.

(** A row of table [users]. *)
Record user_row : Type := {
  u_id : string;
  u_telegram_id : string;
  u_anonymous_id : string;
  u_name : option string;
  u_status : option string;
  u_gender : option string;
  u_avatar_url : option string;
  u_notifications_enabled : bool;
  u_created_at : string
}.

(** A row of table [contacts]. *)
Record contact_row : Type := {
  c_id : string;
  c_user_id : string;
  c_contact_anonymous_id : string;
  c_added_at : string
}.

Record Db : Type := {
  users : list user_row;
  contacts : list contact_row
}.

(** [SELECT .. FROM users WHERE telegram_id = ?] then [fetchone()] *)
Definition user_by_telegram_id (db : Db) (telegram_id : string) : option user_row :=
  find (fun u => (u_telegram_id u =? telegram_id)%string) (users db).

(** [SELECT id FROM users WHERE anonymous_id = ?] then [fetchone()] *)
Definition user_by_anonymous_id (db : Db) (anonymous_id : string) : option user_row :=
  find (fun u => (u_anonymous_id u =? anonymous_id)%string) (users db).

(** [SELECT id FROM contacts WHERE user_id = ? AND contact_anonymous_id = ?] *)
Definition contact_of (db : Db) (user_id contact_anonymous_id : string) : option contact_row :=
  find (fun c => (c_user_id c =? user_id)%string
                 && (c_contact_anonymous_id c =? contact_anonymous_id)%string)
       (contacts db).

(** What the endpoint answers: its JSON body, an [HTTPException], or the
    [sqlite3.IntegrityError] of an insert that breaks a table constraint. *)
Inductive response : Type :=
  | Contact_added (contact_id : string)
  | HTTPException (status_code : nat) (detail : string)
  | IntegrityError.

(** [INSERT INTO contacts ..] under [PRIMARY KEY(id)] and
    [UNIQUE(user_id, contact_anonymous_id)]. *)
Definition insert_contact (db : Db) (row : contact_row) : option Db :=
  if existsb (fun c => (c_id c =? c_id row)%string) (contacts db) then None
  else match contact_of db (c_user_id row) (c_contact_anonymous_id row) with
       | Some _ => None
       | None => Some {| users := users db; contacts := contacts db ++ [row] |}
       end.

(** [add_contact]; [now_local] and [now_utc] are the two clock readings
    [datetime.now().isoformat()] and [datetime.now(timezone.utc).isoformat()]. *)
Definition add_contact (db : Db) (telegram_id target_anonymous_id : string)
           (now_local now_utc : string) : response * Db :=
  match user_by_telegram_id db telegram_id with
  | None => (HTTPException 404 "User not found", db)
  | Some user =>
      match user_by_anonymous_id db target_anonymous_id with
      | None => (HTTPException 404 "Target user not found", db)
      | Some _ =>
          if (u_anonymous_id user =? target_anonymous_id)%string
          then (HTTPException 400 "Cannot add yourself", db)
          else
            match contact_of db (u_id user) target_anonymous_id with
            | Some _ => (HTTPException 400 "Contact already added", db)
            | None =>
                let contact_id :=
                  substring 0 16
                    (Sha256.hexdigest
                       (Sha256.encode_utf8
                          (String.append (u_id user)
                             (String.append target_anonymous_id now_local)))) in
                match insert_contact db {| c_id := contact_id;
                                           c_user_id := u_id user;
                                           c_contact_anonymous_id := target_anonymous_id;
                                           c_added_at := now_utc |} with
                | Some db' => (Contact_added contact_id, db')
                | None => (IntegrityError, db)
                end
            end
      end
  end.

End Store.

(* ===================================================================== *)
(** ** Runs of the whole server *)
(* ===================================================================== *)

(** One call into the manager or one connection's activity. *)
Inductive op : Type :=
  | Op_connect (user_id : string) (websocket : handle)
  | Op_disconnect (user_id : string)
  | Op_broadcast_status (user_id status : string)
  | Op_send_to_user (user_id : json) (message : json)
  | Op_set_typing (sender_id : string) (recipient_id : json) (is_typing : json)
  | Op_session (websocket : handle) (anonymous_id : string) (frames : list frame)
  | Op_endpoint (websocket : handle) (anonymous_id : string) (frames : list frame).

Definition run_op (env : Env) (o : op) (w : World) : World :=
  match o with
  | Op_connect u ws => snd (connect env u ws w)
  | Op_disconnect u => snd (disconnect u w)
  | Op_broadcast_status u s => snd (broadcast_status env u s w)
  | Op_send_to_user u m => snd (send_to_user env u m w)
  | Op_set_typing s r b => snd (set_typing s r b w)
  | Op_session ws a fs => snd (session env ws a fs w)
  | Op_endpoint ws a fs => snd (websocket_endpoint env ws a fs w)
  end.

Definition run_ops (env : Env) (ops : list op) (w : World) : World :=
  fold_left (fun w o => run_op env o w) ops w.

(** In this environment every send succeeds and the clock stands still. *)
Definition calm : Env :=
  {| send_outcome := fun _ _ => None; utcnow := fun _ => "2024-01-01T00:00:00+00:00" |}.

(* ===================================================================== *)
(** ** [str(..)] of the values the endpoints print *)
(* ===================================================================== *)

Module PyStr.
Local Open Scope Z_scope.

Definition digit_char (d : Z) : ascii := ascii_of_N (Z.to_N (48 + d)).

(** The decimal digits of [n >= 0], put in front of [acc]; [fuel] bounds
    their number. *)
Fixpoint str_digits (fuel : nat) (n : Z) (acc : string) : string :=
  match fuel with
  | O => acc
  | S fuel' =>
      let acc' := String (digit_char (n mod 10)) acc in
      if n <? 10 then acc' else str_digits fuel' (n / 10) acc'
  end.

(** [str(n)] for an [int]: a number has no more decimal digits than bits. *)
Definition str_int (n : Z) : string :=
  if n <? 0
  then String "-"%char (str_digits (S (Z.to_nat (Z.log2 (- n)))) (- n) EmptyString)
  else str_digits (S (Z.to_nat (Z.log2 n))) n EmptyString.

(** [str(v)] for a decoded JSON value; [py_repr] stands for Python's
    rendering of lists and dicts. *)
Definition py_str (py_repr : json -> string) (v : json) : string :=
  match v with
  | JNull => "None"
  | JBool true => "True"
  | JBool false => "False"
  | JNum n => str_int n
  | JStr s => s
  | JArr _ | JObj _ => py_repr v
  end.

End PyStr.

(* ===================================================================== *)
(** ** The user and contact endpoints *)
(* ===================================================================== *)

Module Api.

(** What an endpoint does: it returns a body, raises [HTTPException],
    dies of an exception nobody catches (a 500), breaks a constraint of
    the schema on insert (an uncaught [sqlite3.IntegrityError], a 500
    too), or is still drawing anonymous ids when the draws run out. *)
Inductive response (A : Type) : Type :=
  | Returns (body : A)
  | HTTPException (status_code : nat) (detail : string)
  | Uncaught (e : exn)
  | IntegrityError
  | Drawing.
Arguments Returns {A} body.
Arguments HTTPException {A} status_code detail.
Arguments Uncaught {A} e.
Arguments IntegrityError {A}.
Arguments Drawing {A}.

(** [INSERT INTO users ..] under [PRIMARY KEY(id)], [UNIQUE(telegram_id)]
    and [UNIQUE(anonymous_id)]. *)
Definition insert_user (db : Store.Db) (row : Store.user_row) : option Store.Db :=
  if existsb (fun u => (Store.u_id u =? Store.u_id row)%string
                       || (Store.u_telegram_id u =? Store.u_telegram_id row)%string
                       || (Store.u_anonymous_id u =? Store.u_anonymous_id row)%string)
             (Store.users db)
  then None
  else Some {| Store.users := Store.users db ++ [row];
               Store.contacts := Store.contacts db |}.

(** [generate_anonymous_id]: [draws] are the successive results of
    [random.randint(1000000, 9999999)]; [None] when they run out before
    a free id is drawn (the loop is still going). *)
Fixpoint generate_anonymous_id (db : Store.Db) (draws : list Z) : option string :=
  match draws with
  | [] => None
  | n :: rest =>
      let anonymous_id := PyStr.str_int n in
      match Store.user_by_anonymous_id db anonymous_id with
      | Some _ => generate_anonymous_id db rest
      | None => Some anonymous_id
      end
  end.

(** The row [auth_telegram] inserts: the other columns are NULL, and
    [notifications_enabled] takes its default 1. *)
Definition new_user (id telegram_id anonymous_id created_at : string) : Store.user_row :=
  {| Store.u_id := id; Store.u_telegram_id := telegram_id;
     Store.u_anonymous_id := anonymous_id;
     Store.u_name := None; Store.u_status := None; Store.u_gender := None;
     Store.u_avatar_url := None; Store.u_notifications_enabled := true;
     Store.u_created_at := created_at |}.

Section Auth.
Variable json_loads : string -> option json.
Variable py_repr : json -> string.
Variable TELEGRAM_BOT_TOKEN : string.

(** The first lines of [auth_telegram]: the [telegram_id] of the body
    when it is a non-empty string ([None]: absent or null), otherwise
    [str(validated['user'].get('id'))] of the init data, given as the
    pairs [parse_qsl] returns. *)
Definition resolve_telegram_id (body_telegram_id : option string)
           (qsl : list (string * string)) : response string :=
  match body_telegram_id with
  | Some t =>
      if negb (t =? "")%string then Returns t
      else
        match Telegram.validate_telegram_data json_loads TELEGRAM_BOT_TOKEN qsl with
        | None => HTTPException 401 "Invalid Telegram data"
        | Some validated =>
            match (match validated with JObj vf => get_or vf "user" JNull | _ => JNull end) with
            | JObj uf => Returns (PyStr.py_str py_repr (get_or uf "id" JNull))
            | _ => Uncaught AttributeError
            end
        end
  | None =>
      match Telegram.validate_telegram_data json_loads TELEGRAM_BOT_TOKEN qsl with
      | None => HTTPException 401 "Invalid Telegram data"
      | Some validated =>
          match (match validated with JObj vf => get_or vf "user" JNull | _ => JNull end) with
          | JObj uf => Returns (PyStr.py_str py_repr (get_or uf "id" JNull))
          | _ => Uncaught AttributeError
          end
      end
  end.

(** [auth_telegram]; [now_local] and [now_utc] are the two clock
    readings, [draws] the random draws of [generate_anonymous_id]. *)
Definition auth_telegram (db : Store.Db) (body_telegram_id : option string)
           (qsl : list (string * string)) (now_local now_utc : string)
           (draws : list Z) : response Store.user_row * Store.Db :=
  match resolve_telegram_id body_telegram_id qsl with
  | Returns telegram_id =>
      if (telegram_id =? "")%string then (HTTPException 400 "Missing telegram_id", db)
      else
        match Store.user_by_telegram_id db telegram_id with
        | Some user => (Returns user, db)
        | None =>
            let user_id :=
              substring 0 16
                (Sha256.hexdigest
                   (Sha256.encode_utf8 (String.append telegram_id now_local))) in
            match generate_anonymous_id db draws with
            | None => (Drawing, db)
            | Some anonymous_id =>
                let row := new_user user_id telegram_id anonymous_id now_utc in
                match insert_user db row with
                | Some db' => (Returns row, db')
                | None => (IntegrityError, db)
                end
            end
        end
  | HTTPException c d => (HTTPException c d, db)
  | Uncaught e => (Uncaught e, db)
  | IntegrityError => (IntegrityError, db)
  | Drawing => (Drawing, db)
  end.

End Auth.

(** [get_current_user] *)
Definition get_current_user (db : Store.Db) (telegram_id : string) : response Store.user_row :=
  match Store.user_by_telegram_id db telegram_id with
  | Some user => Returns user
  | None => HTTPException 404 "User not found"
  end.

(** [class UserUpdate] *)
Record UserUpdate : Type := {
  upd_name : option string;
  upd_status : option string;
  upd_gender : option string;
  upd_avatar_url : option string;
  upd_notifications_enabled : option bool
}.

(** The [updates] list of [update_user] is not empty. *)
Definition has_updates (update : UserUpdate) : bool :=
  match upd_name update, upd_status update, upd_gender update,
        upd_avatar_url update, upd_notifications_enabled update with
  | None, None, None, None, None => false
  | _, _, _, _, _ => true
  end.

(** The [SET] clause applied to one row. *)
Definition apply_update (update : UserUpdate) (u : Store.user_row) : Store.user_row :=
  {| Store.u_id := Store.u_id u;
     Store.u_telegram_id := Store.u_telegram_id u;
     Store.u_anonymous_id := Store.u_anonymous_id u;
     Store.u_name := match upd_name update with Some x => Some x | None => Store.u_name u end;
     Store.u_status :=
       match upd_status update with Some x => Some x | None => Store.u_status u end;
     Store.u_gender :=
       match upd_gender update with Some x => Some x | None => Store.u_gender u end;
     Store.u_avatar_url :=
       match upd_avatar_url update with Some x => Some x | None => Store.u_avatar_url u end;
     Store.u_notifications_enabled :=
       match upd_notifications_enabled update with
       | Some b => b
       | None => Store.u_notifications_enabled u
       end;
     Store.u_created_at := Store.u_created_at u |}.

(** [UPDATE users SET .. WHERE telegram_id = ?] *)
Definition update_rows (update : UserUpdate) (telegram_id : string)
           (rows : list Store.user_row) : list Store.user_row :=
  map (fun u => if (Store.u_telegram_id u =? telegram_id)%string
                then apply_update update u else u) rows.

(** [update_user] *)
Definition update_user (db : Store.Db) (telegram_id : string) (update : UserUpdate)
  : response Store.user_row * Store.Db :=
  match Store.user_by_telegram_id db telegram_id with
  | None => (HTTPException 404 "User not found", db)
  | Some _ =>
      let db' := if has_updates update
                 then {| Store.users := update_rows update telegram_id (Store.users db);
                         Store.contacts := Store.contacts db |}
                 else db in
      match Store.user_by_telegram_id db' telegram_id with
      | Some user => (Returns user, db')
      | None => (Uncaught TypeError, db')
      end
  end.

(** The body of [search_user]. *)
Record public_user : Type := {
  p_anonymous_id : string;
  p_name : option string;
  p_status : option string;
  p_gender : option string;
  p_avatar_url : option string;
  p_is_online : bool
}.

(** [search_user] *)
Definition search_user (db : Store.Db) (m : ConnectionManager) (anonymous_id : string)
  : response public_user :=
  match Store.user_by_anonymous_id db anonymous_id with
  | None => HTTPException 404 "User not found"
  | Some user =>
      Returns {| p_anonymous_id := Store.u_anonymous_id user;
                 p_name := Store.u_name user;
                 p_status := Store.u_status user;
                 p_gender := Store.u_gender user;
                 p_avatar_url := Store.u_avatar_url user;
                 p_is_online := is_online m (Store.u_anonymous_id user) |}
  end.

(** The row is the contact [contact_anonymous_id] of the user [user_id]. *)
Definition is_contact (user_id contact_anonymous_id : string) (c : Store.contact_row) : bool :=
  (Store.c_user_id c =? user_id)%string
  && (Store.c_contact_anonymous_id c =? contact_anonymous_id)%string.

(** [remove_contact] *)
Definition remove_contact (db : Store.Db) (telegram_id contact_anonymous_id : string)
  : response string * Store.Db :=
  match Store.user_by_telegram_id db telegram_id with
  | None => (HTTPException 404 "User not found", db)
  | Some user =>
      (Returns "Contact removed",
       {| Store.users := Store.users db;
          Store.contacts :=
            List.filter (fun c => negb (is_contact (Store.u_id user) contact_anonymous_id c))
                        (Store.contacts db) |})
  end.

(** One element of the list [get_contacts] returns. *)
Record contact_view : Type := {
  v_anonymous_id : string;
  v_name : option string;
  v_status : option string;
  v_gender : option string;
  v_avatar_url : option string;
  v_added_at : string;
  v_is_online : bool
}.

(** [contacts c LEFT JOIN users u ON c.contact_anonymous_id = u.anonymous_id],
    for one contact row: a row per matching user, or one row of NULLs. *)
Definition join_users (db : Store.Db) (c : Store.contact_row)
  : list (Store.contact_row * option Store.user_row) :=
  match List.filter (fun u => (Store.c_contact_anonymous_id c =? Store.u_anonymous_id u)%string)
                    (Store.users db) with
  | [] => [(c, None)]
  | matches => map (fun u => (c, Some u)) matches
  end.

(** [ORDER BY c.added_at DESC]; rows with equal [added_at] stay in table
    order. *)
Fixpoint insert_by_added_at (x : Store.contact_row * option Store.user_row)
         (l : list (Store.contact_row * option Store.user_row)) :=
  match l with
  | [] => [x]
  | y :: l' =>
      match String.compare (Store.c_added_at (fst y)) (Store.c_added_at (fst x)) with
      | Gt => y :: insert_by_added_at x l'
      | _ => x :: l
      end
  end.

Definition order_by_added_at_desc (l : list (Store.contact_row * option Store.user_row)) :=
  fold_right insert_by_added_at [] l.

Definition view_of (m : ConnectionManager)
           (r : Store.contact_row * option Store.user_row) : contact_view :=
  let c := fst r in
  {| v_anonymous_id := Store.c_contact_anonymous_id c;
     v_name := match snd r with Some u => Store.u_name u | None => None end;
     v_status := match snd r with Some u => Store.u_status u | None => None end;
     v_gender := match snd r with Some u => Store.u_gender u | None => None end;
     v_avatar_url := match snd r with Some u => Store.u_avatar_url u | None => None end;
     v_added_at := Store.c_added_at c;
     v_is_online := is_online m (Store.c_contact_anonymous_id c) |}.

(** [get_contacts] *)
Definition get_contacts (db : Store.Db) (m : ConnectionManager) (telegram_id : string)
  : response (list contact_view) :=
  match Store.user_by_telegram_id db telegram_id with
  | None => HTTPException 404 "User not found"
  | Some user =>
      let rows :=
        flat_map (join_users db)
                 (List.filter (fun c => (Store.c_user_id c =? Store.u_id user)%string)
                              (Store.contacts db)) in
      Returns (map (view_of m) (order_by_added_at_desc rows))
  end.

(** A request that writes to the store. *)
Inductive request : Type :=
  | Auth (body_telegram_id : option string) (qsl : list (string * string))
         (now_local now_utc : string) (draws : list Z)
  | Update (telegram_id : string) (update : UserUpdate)
  | AddContact (telegram_id target_anonymous_id now_local now_utc : string)
  | RemoveContact (telegram_id contact_anonymous_id : string).

Definition serve (json_loads : string -> option json) (py_repr : json -> string)
           (token : string) (db : Store.Db) (r : request) : Store.Db :=
  match r with
  | Auth t qsl nl nu draws => snd (auth_telegram json_loads py_repr token db t qsl nl nu draws)
  | Update t u => snd (update_user db t u)
  | AddContact t a nl nu => snd (Store.add_contact db t a nl nu)
  | RemoveContact t a => snd (remove_contact db t a)
  end.

Definition serve_all (json_loads : string -> option json) (py_repr : json -> string)
           (token : string) (db : Store.Db) (rs : list request) : Store.Db :=
  fold_left (serve json_loads py_repr token) rs db.

(** The store after [init_db] on a fresh file. *)
Definition empty_db : Store.Db := {| Store.users := []; Store.contacts := [] |}.

End Api.

(* ===================================================================== *)
(** ** [telegram_webhook] *)
(* ===================================================================== *)

Module Webhook.

(** What [request.json()] gives. *)
Inductive request_body : Type :=
  | Body_json (update : json)
  | Body_undecodable.

(** One [client.post] to the bot platform: the URL, and the parts of the
    JSON body that vary (the text and the button label are constants). *)
Record post : Type := {
  post_url : string;
  post_chat_id : json;
  post_webapp_url : string
}.

(** [v.get(key, default)]; [None] when [v] has no [get] ([AttributeError]). *)
Definition dict_get (v : json) (key : string) (default : json) : option json :=
  match v with
  | JObj fields => Some (get_or fields key default)
  | _ => None
  end.

(** [telegram_webhook]: [WEBAPP_URL] is the environment variable,
    [post_returns] says whether [client.post] returns or raises; the
    result is the [ok] of the answer and the posts made. *)
Definition telegram_webhook (TELEGRAM_BOT_TOKEN : string) (WEBAPP_URL : option string)
           (post_returns : bool) (body : request_body) : bool * list post :=
  if (TELEGRAM_BOT_TOKEN =? "")%string then (true, [])
  else
    match body with
    | Body_undecodable => (false, [])
    | Body_json update =>
        match dict_get update "message" (JObj []) with
        | None => (false, [])
        | Some message =>
            match dict_get message "chat" (JObj []) with
            | None => (false, [])
            | Some chat =>
                match dict_get chat "id" JNull with
                | None => (false, [])
                | Some chat_id =>
                    match dict_get message "text" (JStr "") with
                    | None => (false, [])
                    | Some text =>
                        if eq_str text "/start" then
                          let webapp_url :=
                            match WEBAPP_URL with
                            | Some url => url
                            | None => "https://massagertg.tw1.su"
                            end in
                          (post_returns,
                           [{| post_url :=
                                 String.append "https://api.telegram.org/bot"
                                   (String.append TELEGRAM_BOT_TOKEN "/sendMessage");
                               post_chat_id := chat_id;
                               post_webapp_url := webapp_url |}])
                        else (true, [])
                    end
                end
            end
        end
    end.

End Webhook.

(* ===================================================================== *)
(** ** Vocabulary of the statements *)
(* ===================================================================== *)

(** A decoded JSON object that lacks a field its event needs: no [type]
    at all; a [message] without a (truthy) [recipient_id] or whose [text]
    is absent or blank; a [typing] without a (truthy) [recipient_id]. *)
Definition missing_required_field (fields : list (string * json)) : bool :=
  match get_or fields "type" JNull with
  | JNull => true
  | JStr ty =>
      if (ty =? "message")%string then
        match get_or fields "text" (JStr "") with
        | JStr t => negb (truthy (get_or fields "recipient_id" JNull))
                    || (strip t =? "")%string
        | _ => false
        end
      else if (ty =? "typing")%string then
        negb (truthy (get_or fields "recipient_id" JNull))
      else false
  | _ => false
  end.

(** A sent record that carries a [message_sent] receipt. *)
Definition is_receipt (r : send_rec) : bool :=
  match sr_msg r with
  | JObj fields => eq_str (get_or fields "type" JNull) "message_sent"
  | _ => false
  end.

(** A sent record that carries a [status] event saying [status]. *)
Definition is_status (status : string) (r : send_rec) : bool :=
  match sr_msg r with
  | JObj fields => eq_str (get_or fields "type" JNull) "status"
                   && eq_str (get_or fields "status" JNull) status
  | _ => false
  end.

(** The world after a call, whatever it returned or raised. *)
Definition after {A} (c : M A) (w : World) : World := snd (c w).

(** [sender] is recorded as typing to the recipient hashed as [k]. *)
Definition is_typing_to (m : ConnectionManager) (sender : string) (k : pykey) : Prop :=
  exists recipients, typing_users m !! k = Some recipients /\ sender ∈ recipients.

(** The registry lists no id twice after, if it listed none twice before. *)
Definition registry_nodup (m m' : ConnectionManager) : Prop :=
  NoDup (get_online_users m) -> NoDup (get_online_users m').

(** Every recipient key of the typing map is still one afterwards. *)
Definition typing_keys_kept (m m' : ConnectionManager) : Prop :=
  dom (typing_users m) ⊆ dom (typing_users m').

(** A call keeps relation [R] between the manager before and after it. *)
Definition keeps (R : ConnectionManager -> ConnectionManager -> Prop)
           {A} (c : M A) : Prop :=
  forall w, R (manager w) (manager (snd (c w))).

(** ** Concrete data for the examples *)

Definition alice : string := "1234567".
Definition bob : string := "7654321".

(** Both clients connected, [alice] on handle 1 and then [bob] on handle 2,
    every send succeeding. *)
Definition two_online : World :=
  run_ops calm [Op_connect alice 1%nat; Op_connect bob 2%nat] world_init.

Definition message_to (recipient_id : json) (text : string) : list (string * json) :=
  [("type", JStr "message"); ("recipient_id", recipient_id); ("text", JStr text)].

Definition typing_to (recipient_id : json) : list (string * json) :=
  [("type", JStr "typing"); ("recipient_id", recipient_id); ("is_typing", JBool true)].

Definition ping : json := JObj [("type", JStr "ping")].

(** [alice] connects twice (handles 1 and 2); the first connection is
    closed by its peer; the second then signals typing to [bob]. *)
Definition reconnected_and_typing : World :=
  run_ops calm
    [Op_connect alice 1%nat; Op_connect alice 2%nat;
     Op_session 1%nat alice [FrameDisconnect];
     Op_session 2%nat alice [FrameJson (JObj (typing_to (JStr bob)))]]
    world_init.

(** Init data signed for the bot token ["TOKEN"], as [parse_qsl] returns
    it, the hash in lowercase and in uppercase. *)
Definition signed_fields (hash : string) : list (string * string) :=
  [("auth_date", "1"); ("hash", hash); ("user", "{}")].

Definition good_hash : string :=
  "8a258ea01612965f169101ba3c32c61bb5c393b76cd53d72fa6cf56f4beb1516".

Definition shouted_hash : string :=
  "8A258EA01612965F169101BA3C32C61BB5C393B76CD53D72FA6CF56F4BEB1516".

(** A store with two users and no contact. *)
Definition user_of (id telegram_id anonymous_id : string) : Store.user_row :=
  {| Store.u_id := id; Store.u_telegram_id := telegram_id;
     Store.u_anonymous_id := anonymous_id;
     Store.u_name := None; Store.u_status := None; Store.u_gender := None;
     Store.u_avatar_url := None; Store.u_notifications_enabled := true;
     Store.u_created_at := "2024-01-01T00:00:00+00:00" |}.

Definition two_users : Store.Db :=
  {| Store.users := [user_of "u1" "tg1" alice; user_of "u2" "tg2" bob];
     Store.contacts := [] |}.

(** ** Vocabulary of the further statements *)

(** The constraints the schema of [init_db] puts on the two tables:
    [PRIMARY KEY(id)], [UNIQUE(telegram_id)] and [UNIQUE(anonymous_id)] on
    [users]; [PRIMARY KEY(id)] and [UNIQUE(user_id, contact_anonymous_id)]
    on [contacts]. *)
Definition store_ok (db : Store.Db) : Prop :=
  NoDup (map Store.u_id (Store.users db))
  /\ NoDup (map Store.u_telegram_id (Store.users db))
  /\ NoDup (map Store.u_anonymous_id (Store.users db))
  /\ NoDup (map Store.c_id (Store.contacts db))
  /\ NoDup (map (fun c => (Store.c_user_id c, Store.c_contact_anonymous_id c))
                (Store.contacts db)).

Definition is_digit (c : ascii) : bool :=
  ((48 <=? N_of_ascii c) && (N_of_ascii c <=? 57))%N.

Fixpoint all_digits (s : string) : bool :=
  match s with
  | EmptyString => true
  | String c s' => is_digit c && all_digits s'
  end.

(** A pair of the init data other than the [hash] field. *)
Definition non_hash (kv : string * string) : bool := negb (fst kv =? "hash")%string.

(** Timestamps from the most recent down. *)
Definition newest_first (l : list string) : Prop :=
  Sorted (fun a b => String.compare a b <> Lt) l.

(** An update that supplies nothing. *)
Definition no_update : Api.UserUpdate :=
  {| Api.upd_name := None; Api.upd_status := None; Api.upd_gender := None;
     Api.upd_avatar_url := None; Api.upd_notifications_enabled := None |}.

(** [json.loads] on the one text the examples need. *)
Definition loads_empty_object (s : string) : option json :=
  if (s =? "{}")%string then Some (JObj []) else None.

(** ** Concrete data for the further examples *)

(** Every send on handle 1 fails with [RuntimeError]; the other handles
    take what is sent. *)
Definition handle_one_broken : Env :=
  {| send_outcome := fun _ h => if Nat.eqb h 1 then Some RuntimeError else None;
     utcnow := utcnow calm |}.

(** The row a first sign-in of ["tg3"] creates when the local clock reads
    ["t0"], the UTC clock ["t1"] and the first free draw is 5555555. *)
Definition carol : Store.user_row :=
  Api.new_user "ceeaab646d8751d6" "tg3" "5555555" "t1".

Definition with_carol : Store.Db :=
  {| Store.users := Store.users two_users ++ [carol]; Store.contacts := [] |}.

(** [two_users] once [alice] has added [bob], the local clock reading
    ["t0"] and the UTC clock ["t1"]. *)
Definition alice_knows_bob : Store.Db :=
  {| Store.users := Store.users two_users;
     Store.contacts :=
       [{| Store.c_id := "91762fe2f5e14f39"; Store.c_user_id := "u1";
           Store.c_contact_anonymous_id := bob; Store.c_added_at := "t1" |}] |}.

(** An update that supplies a name and nothing else. *)
Definition set_name (name : string) : Api.UserUpdate :=
  {| Api.upd_name := Some name; Api.upd_status := None; Api.upd_gender := None;
     Api.upd_avatar_url := None; Api.upd_notifications_enabled := None |}.

(** The update the bot platform sends for the command [/start] typed in
    chat 42. *)
Definition start_update : json :=
  JObj [("message", JObj [("chat", JObj [("id", JNum 42)]); ("text", JStr "/start")])].

(** Init data without a [hash] field. *)
Definition unsigned_fields : list (string * string) := [("auth_date", "1"); ("user", "{}")].

(* ===================================================================== *)
(** * Properties *)
(* ===================================================================== *)

(** ** Strings *)

Lemma lstrip_all_space (s : string) : all_space s = true -> lstrip s = EmptyString.
Proof.
  induction s as [|c s IH]; simpl; [reflexivity|].
  intros [Hc Hs]%andb_true_iff. rewrite Hc. auto.
Qed.

Lemma strip_all_space (s : string) : all_space s = true -> strip s = EmptyString.
Proof. intros H. unfold strip. rewrite (lstrip_all_space s H). reflexivity. Qed.

Lemma eqb_empty_false (s : string) : s <> EmptyString -> (s =? "")%string = false.
Proof. intros H. apply String.eqb_neq. exact H. Qed.

(** ** Dictionaries *)

Section DictFacts.
Context {V : Type}.
Implicit Types (d : list (string * V)) (k : string) (v : V).

Lemma mem_In k d : Dict.mem k d = true <-> In k (Dict.keys d).
Proof.
  induction d as [|[k' v'] d IH]; simpl.
  - split; [discriminate | tauto].
  - rewrite orb_true_iff, IH, String.eqb_eq. tauto.
Qed.

Lemma mem_get k d : Dict.mem k d = true <-> is_Some (Dict.get k d).
Proof.
  induction d as [|[k' v'] d IH]; simpl.
  - split; [discriminate | intros [x Hx]; discriminate].
  - destruct (k' =? k)%string; simpl; [|exact IH].
    split; [eauto | reflexivity].
Qed.

Lemma keys_set_mem k v d : Dict.mem k d = true -> Dict.keys (Dict.set k v d) = Dict.keys d.
Proof.
  induction d as [|[k' v'] d IH]; simpl; [discriminate|].
  destruct (k' =? k)%string eqn:E; simpl; [reflexivity|].
  intros H. unfold Dict.keys in *. simpl. f_equal. auto.
Qed.

Lemma keys_set_new k v d : Dict.mem k d = false -> Dict.keys (Dict.set k v d) = Dict.keys d ++ [k].
Proof.
  induction d as [|[k' v'] d IH]; simpl; [reflexivity|].
  destruct (k' =? k)%string eqn:E; simpl; [discriminate|].
  intros H. unfold Dict.keys in *. simpl. f_equal. auto.
Qed.

Lemma mem_set k v d : Dict.mem k (Dict.set k v d) = true.
Proof.
  induction d as [|[k' v'] d IH]; simpl.
  - rewrite String.eqb_refl. reflexivity.
  - destruct (k' =? k)%string eqn:E; simpl; rewrite E; simpl; auto.
Qed.

Lemma get_set k v d : Dict.get k (Dict.set k v d) = Some v.
Proof.
  induction d as [|[k' v'] d IH]; simpl.
  - rewrite String.eqb_refl. reflexivity.
  - destruct (k' =? k)%string eqn:E; simpl; rewrite E; auto.
Qed.

Lemma mem_del k d : Dict.mem k (Dict.del k d) = false.
Proof.
  induction d as [|[k' v'] d IH]; simpl; [reflexivity|].
  destruct (k' =? k)%string eqn:E; simpl; [exact IH|].
  rewrite E. exact IH.
Qed.

Lemma keys_del_In k k0 d : In k0 (Dict.keys (Dict.del k d)) -> In k0 (Dict.keys d).
Proof.
  induction d as [|[k' v'] d IH]; simpl; [tauto|].
  destruct (k' =? k)%string; simpl; tauto.
Qed.

Lemma NoDup_keys_set k v d : NoDup (Dict.keys d) -> NoDup (Dict.keys (Dict.set k v d)).
Proof.
  intros Hd. destruct (Dict.mem k d) eqn:E.
  - rewrite keys_set_mem by exact E. exact Hd.
  - rewrite keys_set_new by exact E.
    apply NoDup_app. split; [exact Hd|]. split.
    + intros x Hx Hk. apply list_elem_of_In in Hx.
      apply list_elem_of_singleton in Hk. subst x.
      apply mem_In in Hx. congruence.
    + apply NoDup_singleton.
Qed.

Lemma NoDup_keys_del k d : NoDup (Dict.keys d) -> NoDup (Dict.keys (Dict.del k d)).
Proof.
  induction d as [|[k' v'] d IH]; simpl; [auto|].
  intros Hd. apply NoDup_cons in Hd as [Hk Hd].
  destruct (k' =? k)%string; simpl; [auto|].
  apply NoDup_cons. split; [|auto].
  intros Hin. apply Hk. apply list_elem_of_In. apply list_elem_of_In in Hin.
  eapply keys_del_In; eauto.
Qed.

End DictFacts.

(** ** Relations on the manager kept by every operation

    Every change of the manager goes through one of three assignments:
    the registration in [connect], the removal and purge in [disconnect],
    and the update in [set_typing].  A reflexive and transitive relation
    that holds across these three holds across every run of the server. *)

Section Keeps.
Variable R : ConnectionManager -> ConnectionManager -> Prop.
Hypothesis R_refl : forall m, R m m.
Hypothesis R_trans : forall a b c, R a b -> R b c -> R a c.
Hypothesis R_register : forall m u ws,
  R m {| active_connections := Dict.set u ws (active_connections m);
         typing_users := typing_users m |}.
Hypothesis R_unregister : forall m u,
  R m {| active_connections := Dict.del u (active_connections m);
         typing_users := (fun recipients => recipients ∖ {[u]}) <$> typing_users m |}.
Hypothesis R_typing : forall m s k b,
  R m {| active_connections := active_connections m;
         typing_users := typing_set s k b (typing_users m) |}.
Variable env : Env.

Local Abbreviation keeps := (keeps R).

Lemma keeps_ret {A} (a : A) : keeps (ret a).
Proof. intros w. apply R_refl. Qed.

Lemma keeps_raise {A} (e : exn) : keeps (@raise A e).
Proof. intros w. apply R_refl. Qed.

Lemma keeps_bind {A B} (c : M A) (k : A -> M B) :
  keeps c -> (forall a, keeps (k a)) -> keeps (bind c k).
Proof.
  intros Hc Hk w. unfold bind. specialize (Hc w).
  destruct (c w) as [[a|e] w']; simpl in *.
  - eapply R_trans; [exact Hc | apply Hk].
  - exact Hc.
Qed.

Lemma keeps_try {A} (c : M A) (h : exn -> M A) :
  keeps c -> (forall e, keeps (h e)) -> keeps (try_except c h).
Proof.
  intros Hc Hh w. unfold try_except. specialize (Hc w).
  destruct (c w) as [[a|e] w']; simpl in *.
  - exact Hc.
  - eapply R_trans; [exact Hc | apply Hh].
Qed.

Lemma keeps_get_manager : keeps get_manager.
Proof. intros w. apply R_refl. Qed.

Lemma keeps_logger (e : log_entry) : keeps (logger e).
Proof. intros w. apply R_refl. Qed.

Lemma keeps_send_json (ws : handle) (msg : json) : keeps (send_json env ws msg).
Proof.
  intros w. unfold send_json.
  destruct (send_outcome env (length (sent w)) ws); apply R_refl.
Qed.

Lemma keeps_now_iso : keeps (now_iso env).
Proof. intros w. apply R_refl. Qed.

Ltac keeps_step :=
  first
    [ apply keeps_ret | apply keeps_raise | apply keeps_get_manager
    | apply keeps_logger | apply keeps_send_json | apply keeps_now_iso
    | apply keeps_bind; [|intros ?] | apply keeps_try; [|intros ?] ].

Lemma keeps_broadcast_items (items : list (string * handle)) (u : string) (msg : json) :
  keeps (broadcast_items env items u msg).
Proof.
  induction items as [|[uid ws] rest IH]; simpl.
  - apply keeps_ret.
  - apply keeps_bind; [|intros _; exact IH].
    destruct (negb (uid =? u)%string); repeat keeps_step.
Qed.

Lemma keeps_broadcast_status (u s : string) : keeps (broadcast_status env u s).
Proof.
  intros w. unfold broadcast_status, bind, get_manager. apply keeps_broadcast_items.
Qed.

Lemma keeps_connect (u : string) (ws : handle) : keeps (connect env u ws).
Proof.
  intros w. unfold connect, bind, get_manager, put_manager, logger.
  eapply R_trans; [apply R_register|].
  match goal with |- R _ (manager (snd (broadcast_status env u _ ?w'))) =>
    apply (keeps_broadcast_status u _ w') end.
Qed.

Lemma keeps_disconnect (u : string) : keeps (disconnect u).
Proof.
  intros w. unfold disconnect, bind, get_manager, put_manager, logger, ret.
  destruct (Dict.mem u (active_connections (manager w))); simpl.
  - apply R_unregister.
  - apply R_refl.
Qed.

Lemma keeps_send_to_user (u msg : json) : keeps (send_to_user env u msg).
Proof.
  unfold send_to_user. destruct (py_hash u) as [k|]; [|apply keeps_raise].
  intros w. unfold bind, get_manager.
  destruct (find_connection k (active_connections (manager w))) as [ws|].
  - match goal with |- R _ (manager (snd (?c w))) => assert (keeps c) as Hc end.
    { repeat keeps_step. }
    apply Hc.
  - apply R_refl.
Qed.

Lemma keeps_set_typing (s : string) (r b : json) : keeps (set_typing s r b).
Proof.
  unfold set_typing. destruct (py_hash r) as [k|]; [|apply keeps_raise].
  intros w. unfold bind, get_manager, put_manager. simpl. apply R_typing.
Qed.

Lemma keeps_data_get (data : json) (key : string) (default : json) :
  keeps (data_get data key default).
Proof. destruct data; simpl; first [apply keeps_ret | apply keeps_raise]. Qed.

Lemma keeps_str_strip (v : json) : keeps (str_strip v).
Proof. destruct v; simpl; first [apply keeps_ret | apply keeps_raise]. Qed.

Ltac keeps_call :=
  first
    [ apply keeps_data_get | apply keeps_str_strip
    | apply keeps_set_typing | apply keeps_send_to_user
    | apply keeps_disconnect | apply keeps_broadcast_status | apply keeps_connect
    | keeps_step
    | match goal with |- keeps (if ?b then _ else _) => destruct b end ].

Lemma keeps_handle_event (ws : handle) (a : string) (data : json) :
  keeps (handle_event env ws a data).
Proof. unfold handle_event. repeat keeps_call. Qed.

Lemma keeps_receive_loop (ws : handle) (a : string) (frames : list frame) :
  keeps (receive_loop env ws a frames).
Proof.
  induction frames as [|f rest IH]; simpl; [apply keeps_ret|].
  apply keeps_bind; [destruct f; simpl; keeps_step|intros data].
  apply keeps_bind; [apply keeps_handle_event|intros _; exact IH].
Qed.

Lemma keeps_on_exception (a : string) (e : exn) : keeps (on_exception env a e).
Proof. destruct e; unfold on_exception; repeat keeps_call. Qed.

Lemma keeps_session (ws : handle) (a : string) (frames : list frame) :
  keeps (session env ws a frames).
Proof.
  unfold session. apply keeps_try; [|intros e; apply keeps_on_exception].
  apply keeps_bind; [apply keeps_receive_loop|intros _; apply keeps_ret].
Qed.

Lemma keeps_websocket_endpoint (ws : handle) (a : string) (frames : list frame) :
  keeps (websocket_endpoint env ws a frames).
Proof.
  unfold websocket_endpoint.
  apply keeps_bind; [apply keeps_connect|intros _; apply keeps_session].
Qed.

Lemma keeps_run_op (o : op) (w : World) : R (manager w) (manager (run_op env o w)).
Proof.
  destruct o; simpl.
  - apply keeps_connect.
  - apply keeps_disconnect.
  - apply keeps_broadcast_status.
  - apply keeps_send_to_user.
  - apply keeps_set_typing.
  - apply keeps_session.
  - apply keeps_websocket_endpoint.
Qed.

Lemma keeps_run_ops (ops : list op) (w : World) :
  R (manager w) (manager (run_ops env ops w)).
Proof.
  revert w. induction ops as [|o ops IH]; intros w; simpl.
  - apply R_refl.
  - eapply R_trans; [apply keeps_run_op | apply IH].
Qed.

End Keeps.

(** ** What each manager method does to the manager *)

Lemma guarded_send (env : Env) (ws : handle) (msg : json) (w : World) :
  try_except (send_json env ws msg) (fun _ => ret tt) w
  = (Ok tt, {| manager := manager w;
               sent := sent w ++ [{| sr_to := ws; sr_msg := msg;
                                     sr_result := send_outcome env (length (sent w)) ws |}];
               log := log w |}).
Proof.
  unfold try_except, send_json, ret.
  destruct (send_outcome env (length (sent w)) ws); reflexivity.
Qed.

Lemma broadcast_items_manager (env : Env) (items : list (string * handle))
      (u : string) (msg : json) (w : World) :
  manager (snd (broadcast_items env items u msg w)) = manager w
  /\ log (snd (broadcast_items env items u msg w)) = log w
  /\ fst (broadcast_items env items u msg w) = Ok tt.
Proof.
  revert w. induction items as [|[uid ws] rest IH]; intros w; simpl; [auto|].
  unfold bind.
  destruct (negb (uid =? u)%string).
  - rewrite guarded_send. exact (IH _).
  - unfold ret. apply IH.
Qed.

Lemma connect_manager (env : Env) (u : string) (ws : handle) (w : World) :
  manager (snd (connect env u ws w))
  = {| active_connections := Dict.set u ws (active_connections (manager w));
       typing_users := typing_users (manager w) |}.
Proof.
  unfold connect, broadcast_status, bind, get_manager, put_manager, logger.
  cbv zeta. cbn [manager sent log].
  match goal with |- context [broadcast_items env ?it u ?msg ?w'] =>
    destruct (broadcast_items_manager env it u msg w') as (Hm & _ & _); rewrite Hm end.
  reflexivity.
Qed.

Lemma disconnect_manager (u : string) (w : World) :
  manager (snd (disconnect u w))
  = if Dict.mem u (active_connections (manager w))
    then {| active_connections := Dict.del u (active_connections (manager w));
            typing_users := (fun recipients => recipients ∖ {[u]})
                              <$> typing_users (manager w) |}
    else manager w.
Proof.
  unfold disconnect, bind, get_manager, put_manager, logger, ret.
  destruct (Dict.mem u (active_connections (manager w))); reflexivity.
Qed.

Lemma dom_typing_set (s : string) (k : pykey) (b : bool) (t : gmap pykey (gset string)) :
  dom t ⊆ dom (typing_set s k b t).
Proof.
  unfold typing_set. destruct b; rewrite dom_alter_L;
    destruct (t !! k); try rewrite dom_insert_L; set_solver.
Qed.

(** ** The presence registry holds one entry per id *)

Lemma registry_nodup_run_ops (env : Env) (ops : list op) (w : World) :
  registry_nodup (manager w) (manager (run_ops env ops w)).
Proof.
  apply keeps_run_ops; unfold registry_nodup, get_online_users; simpl; auto.
  - intros m u ws. apply NoDup_keys_set.
  - intros m u. apply NoDup_keys_del.
Qed.

Lemma run_ops_app (env : Env) (ops1 ops2 : list op) (w : World) :
  run_ops env (ops1 ++ ops2) w = run_ops env ops2 (run_ops env ops1 w).
Proof. unfold run_ops. apply fold_left_app. Qed.

(** C6. For every sequence of operations on the server run from the
    initial state (registrations, unregistrations, and everything else
    the manager and the connections do), the list of live ids has no
    duplicate; and registering an id [A] twice in a row, with any two
    handles, leaves [A] exactly once in [get_online_users()], online, and
    bound to the second handle (the second registration replaces the
    first). *)
Theorem registry_one_entry_per_id (env : Env) (ops : list op) (A : string) (h1 h2 : handle) :
  let m := manager (run_ops env ops world_init) in
  let m2 := manager (run_ops env (ops ++ [Op_connect A h1; Op_connect A h2]) world_init) in
  NoDup (get_online_users m)
  /\ count_occ string_dec (get_online_users m2) A = 1%nat
  /\ is_online m2 A = true
  /\ Dict.get A (active_connections m2) = Some h2.
Proof.
  intros m m2.
  assert (Hinit : NoDup (get_online_users (manager world_init))) by constructor.
  assert (Hm : NoDup (get_online_users m)).
  { apply (registry_nodup_run_ops env ops world_init). exact Hinit. }
  assert (Hm2 : NoDup (get_online_users m2)).
  { apply (registry_nodup_run_ops env _ world_init). exact Hinit. }
  assert (Hact : active_connections m2
                 = Dict.set A h2 (Dict.set A h1 (active_connections m))).
  { unfold m2. rewrite run_ops_app. simpl. rewrite !connect_manager. reflexivity. }
  assert (Hmem : is_online m2 A = true).
  { unfold is_online. rewrite Hact. apply mem_set. }
  split; [exact Hm|]. split; [|split].
  - apply NoDup_ListNoDup in Hm2.
    apply (proj1 (NoDup_count_occ' string_dec _) Hm2).
    apply mem_In. exact Hmem.
  - exact Hmem.
  - rewrite Hact. apply get_set.
Qed.

(** ** Recipient keys of the typing map *)

(** C10. [set_typing(S, R, False)] on a map with no entry for [R] leaves
    [R] mapped to the empty set; and no manager method, no event of a
    connection and no run of them removes a key of [typing_users]. *)
Theorem typing_keys_persist (env : Env) :
  (forall (S : string) (R : json) (k : pykey) (w : World),
      py_hash R = Some k ->
      typing_users (manager w) !! k = None ->
      typing_users (manager (snd (set_typing S R (JBool false) w))) !! k = Some ∅)
  /\ (forall (o : op) (w : World),
         typing_keys_kept (manager w) (manager (run_op env o w)))
  /\ (forall (ops : list op) (w : World),
         typing_keys_kept (manager w) (manager (run_ops env ops w))).
Proof.
  assert (Hall : forall ops w, typing_keys_kept (manager w) (manager (run_ops env ops w))).
  { intros ops w. apply keeps_run_ops; unfold typing_keys_kept; simpl.
    - set_solver.
    - set_solver.
    - set_solver.
    - intros m u. rewrite dom_fmap_L. set_solver.
    - intros m s k b. apply dom_typing_set. }
  split; [|split].
  - intros S R k w Hk Hnone. unfold set_typing. rewrite Hk.
    unfold bind, get_manager, put_manager, typing_set. simpl.
    rewrite Hnone. rewrite lookup_alter_eq, lookup_insert_eq. simpl.
    f_equal. apply set_eq. intros x. rewrite elem_of_difference.
    split; [tauto|]. intros Hx%not_elem_of_empty. tauto.
  - intros o w. apply (Hall [o] w).
  - exact Hall.
Qed.

(** ** Running the monad *)

Lemma bind_ok {A B} (c : M A) (k : A -> M B) (w w' : World) (a : A) :
  c w = (Ok a, w') -> bind c k w = k a w'.
Proof. intros H. unfold bind. rewrite H. reflexivity. Qed.

Lemma bind_raise {A B} (c : M A) (k : A -> M B) (w w' : World) (e : exn) :
  c w = (Raise e, w') -> bind c k w = (Raise e, w').
Proof. intros H. unfold bind. rewrite H. reflexivity. Qed.

Lemma disconnect_returns (u : string) (w : World) :
  disconnect u w = (Ok tt, after (disconnect u) w).
Proof.
  unfold after, disconnect. unfold bind at 1 3. simpl.
  destruct (Dict.mem u (active_connections (manager w))); reflexivity.
Qed.

Lemma broadcast_status_returns (env : Env) (u s : string) (w : World) :
  broadcast_status env u s w = (Ok tt, after (broadcast_status env u s) w).
Proof.
  unfold after, broadcast_status, bind, get_manager.
  destruct (broadcast_items_manager env (active_connections (manager w)) u
              (status_message u s) w) as (_ & _ & Hr).
  destruct (broadcast_items env _ u _ w) as [r w']. simpl in *. congruence.
Qed.

Lemma on_exception_closed (env : Env) (a : string) (e : exn) (w : World) :
  fst (on_exception env a e w) = Ok CLOSED.
Proof.
  destruct e; unfold on_exception;
    repeat first
      [ rewrite (bind_ok _ _ _ _ _ (disconnect_returns _ _))
      | rewrite (bind_ok _ _ _ _ _ (broadcast_status_returns _ _ _ _))
      | unfold bind at 1; unfold logger at 1 ];
    reflexivity.
Qed.

Lemma session_undecodable (env : Env) (ws : handle) (a : string)
      (rest : list frame) (w : World) :
  session env ws a (FrameUndecodable :: rest) w = on_exception env a JSONDecodeError w.
Proof. reflexivity. Qed.


(** ** One event of the relay protocol *)

Lemma truthy_eq_str_get (fields : list (string * json)) (key s : string) :
  get_or fields key JNull = JStr s -> eq_str (get_or fields key JNull) s = true.
Proof. intros ->. simpl. apply String.eqb_refl. Qed.

Lemma get_or_present (fields : list (string * json)) (key : string) (v d : json) :
  items_get key fields = Some v -> get_or fields key d = v.
Proof. unfold get_or. intros ->. reflexivity. Qed.

(** A dropped event leaves the loop as if the frame had not arrived. *)
Lemma session_skip (env : Env) (ws : handle) (S : string) (data : json)
      (rest : list frame) (w : World) :
  handle_event env ws S data w = (Ok tt, w) ->
  session env ws S (FrameJson data :: rest) w = session env ws S rest w.
Proof.
  intros H. unfold session, try_except. simpl.
  unfold bind at 1. unfold bind at 1. simpl. unfold ret at 1.
  unfold bind at 1. rewrite H. reflexivity.
Qed.

(** C8. A [message] event whose text is made of whitespace only is
    dropped: the handler returns normally and the world is the one
    before it (nothing was sent to anyone, the typing map is untouched),
    and the loop goes on with the next frame. *)
Theorem whitespace_message_dropped (env : Env) (ws : handle) (S : string)
        (fields : list (string * json)) (t : string) (rest : list frame) (w : World) :
  get_or fields "type" JNull = JStr "message" ->
  items_get "text" fields = Some (JStr t) ->
  all_space t = true ->
  handle_event env ws S (JObj fields) w = (Ok tt, w)
  /\ sent (after (handle_event env ws S (JObj fields)) w) = sent w
  /\ typing_users (manager (after (handle_event env ws S (JObj fields)) w))
     = typing_users (manager w)
  /\ session env ws S (FrameJson (JObj fields) :: rest) w = session env ws S rest w.
Proof.
  intros Hty Htext Hspace.
  assert (H : handle_event env ws S (JObj fields) w = (Ok tt, w)).
  { unfold handle_event, data_get, bind, ret.
    rewrite Hty. simpl.
    rewrite (get_or_present _ _ _ _ Htext). simpl. unfold ret.
    rewrite (strip_all_space t Hspace). simpl.
    rewrite andb_false_r. reflexivity. }
  unfold after. rewrite H. simpl.
  repeat split; try reflexivity.
  apply session_skip. exact H.
Qed.

(** C3 (amended). An event that decodes to a JSON object but lacks a
    required field (see [missing_required_field]) is dropped and nothing
    else happens: the handler
    returns normally, the world is unchanged, the loop goes on with the
    next frame.  A frame that does not decode is not dropped: it ends the
    connection. *)
Theorem incomplete_event_dropped (env : Env) (ws : handle) (S : string)
        (fields : list (string * json)) (rest : list frame) (w : World) :
  missing_required_field fields = true ->
  handle_event env ws S (JObj fields) w = (Ok tt, w)
  /\ session env ws S (FrameJson (JObj fields) :: rest) w = session env ws S rest w
  /\ fst (session env ws S (FrameUndecodable :: rest) w) = Ok CLOSED.
Proof.
  intros Hmiss.
  assert (H : handle_event env ws S (JObj fields) w = (Ok tt, w)).
  { unfold missing_required_field in Hmiss.
    unfold handle_event, data_get, bind, ret.
    destruct (get_or fields "type" JNull) as [| | |ty| |] eqn:Hty; try discriminate;
      [reflexivity|].
    simpl.
    destruct (ty =? "message")%string eqn:Em.
    - destruct (get_or fields "text" (JStr "")) as [| | |t| |] eqn:Ht; try discriminate.
      simpl. unfold ret.
      apply orb_true_iff in Hmiss as [Hr|Hs].
      + apply negb_true_iff in Hr. rewrite Hr. reflexivity.
      + rewrite Hs. simpl. rewrite andb_false_r. reflexivity.
    - destruct (ty =? "typing")%string eqn:Et; [|discriminate].
      apply negb_true_iff in Hmiss. rewrite Hmiss. reflexivity. }
  split; [exact H|]. split; [apply session_skip; exact H|].
  rewrite session_undecodable. apply on_exception_closed.
Qed.

(** ** The message and typing paths *)

Lemma set_typing_eval (S : string) (R : json) (k : pykey) (b : json) (w : World) :
  py_hash R = Some k ->
  set_typing S R b w
  = (Ok tt, {| manager := {| active_connections := active_connections (manager w);
                             typing_users := typing_set S k (truthy b)
                                                        (typing_users (manager w)) |};
               sent := sent w; log := log w |}).
Proof. intros Hk. unfold set_typing. rewrite Hk. reflexivity. Qed.

Lemma send_to_user_eval (env : Env) (R : json) (k : pykey) (msg : json) (w : World) :
  py_hash R = Some k ->
  send_to_user env R msg w
  = match find_connection k (active_connections (manager w)) with
    | Some h =>
        let o := send_outcome env (length (sent w)) h in
        (Ok (match o with None => true | Some _ => false end),
         {| manager := manager w;
            sent := sent w ++ [{| sr_to := h; sr_msg := msg; sr_result := o |}];
            log := match o with
                   | None => log w
                   | Some e => log w ++ [Log_send_failed R e]
                   end |})
    | None => (Ok false, w)
    end.
Proof.
  intros Hk. unfold send_to_user. rewrite Hk.
  unfold bind at 1. unfold get_manager at 1.
  destruct (find_connection k (active_connections (manager w))) as [h|]; [|reflexivity].
  unfold try_except, bind, send_json, logger, ret. simpl.
  destruct (send_outcome env (length (sent w)) h); reflexivity.
Qed.

Lemma bind_ret {A B} (a : A) (k : A -> M B) : bind (ret a) k = k a.
Proof. reflexivity. Qed.

Lemma handle_message_eval (env : Env) (ws : handle) (S : string)
      (fields : list (string * json)) (R : json) (t : string) (k : pykey) (w : World) :
  get_or fields "type" JNull = JStr "message" ->
  items_get "recipient_id" fields = Some R ->
  items_get "text" fields = Some (JStr t) ->
  strip t <> EmptyString ->
  truthy R = true ->
  py_hash R = Some k ->
  handle_event env ws S (JObj fields) w
  = bind (send_to_user env R (message_envelope S (strip t) (utcnow env (length (sent w)))))
         (fun delivered =>
            send_json env ws (receipt_envelope R delivered (utcnow env (length (sent w)))))
         {| manager := {| active_connections := active_connections (manager w);
                          typing_users := typing_set S k false (typing_users (manager w)) |};
            sent := sent w; log := log w |}.
Proof.
  intros Hty HR Ht Hne Htr Hk.
  unfold handle_event, data_get.
  rewrite Hty, (get_or_present _ _ _ _ HR), (get_or_present _ _ _ _ Ht).
  rewrite bind_ret.
  change (eq_str (JStr "message") "message") with true. cbv iota.
  rewrite !bind_ret. unfold str_strip. rewrite bind_ret.
  rewrite Htr, (eqb_empty_false _ Hne). cbn [andb negb].
  rewrite (bind_ok _ _ _ _ _ (set_typing_eval S R k (JBool false) w Hk)).
  reflexivity.
Qed.

Lemma handle_typing_eval (env : Env) (ws : handle) (S : string)
      (fields : list (string * json)) (R : json) (k : pykey) (w : World) :
  get_or fields "type" JNull = JStr "typing" ->
  items_get "recipient_id" fields = Some R ->
  truthy R = true ->
  py_hash R = Some k ->
  let is_typing := get_or fields "is_typing" (JBool true) in
  handle_event env ws S (JObj fields) w
  = bind (send_to_user env R (typing_envelope S is_typing))
         (fun _ => ret tt)
         {| manager := {| active_connections := active_connections (manager w);
                          typing_users := typing_set S k (truthy is_typing)
                                                     (typing_users (manager w)) |};
            sent := sent w; log := log w |}.
Proof.
  intros Hty HR Htr Hk is_typing.
  unfold handle_event, data_get.
  rewrite Hty, (get_or_present _ _ _ _ HR).
  rewrite bind_ret.
  change (eq_str (JStr "typing") "message") with false. cbv iota.
  rewrite bind_ret.
  change (eq_str (JStr "typing") "typing") with true. cbv iota.
  rewrite !bind_ret. rewrite Htr.
  rewrite (bind_ok _ _ _ _ _ (set_typing_eval S R k _ w Hk)).
  reflexivity.
Qed.

Lemma typing_set_true (S : string) (k : pykey) (t : gmap pykey (gset string)) :
  exists recipients, typing_set S k true t !! k = Some recipients /\ S ∈ recipients.
Proof.
  unfold typing_set. rewrite lookup_alter_eq.
  destruct (t !! k) as [s|] eqn:E.
  - rewrite E. simpl. eexists. split; [reflexivity|]. apply elem_of_union_r, elem_of_singleton. reflexivity.
  - rewrite lookup_insert_eq. simpl. eexists. split; [reflexivity|].
    apply elem_of_union_r, elem_of_singleton. reflexivity.
Qed.

Lemma typing_set_false (S : string) (k : pykey) (t : gmap pykey (gset string)) :
  exists recipients, typing_set S k false t !! k = Some recipients /\ S ∉ recipients.
Proof.
  unfold typing_set. rewrite lookup_alter_eq.
  destruct (t !! k) as [s|] eqn:E.
  - rewrite E. simpl. eexists. split; [reflexivity|].
    rewrite elem_of_difference, elem_of_singleton. tauto.
  - rewrite lookup_insert_eq. simpl. eexists. split; [reflexivity|].
    rewrite elem_of_difference, elem_of_singleton. tauto.
Qed.

(** C1 (amended). A [message] event whose [recipient_id] is truthy and
    hashable (a non-empty string, a non-zero number, [true]) and whose
    text is non-empty once stripped makes the handler attempt exactly
    these sends, in this order: the envelope to the recipient's handle
    when the recipient is registered, then one [message_sent] receipt on
    the connection the event came from.  The receipt is the only
    [message_sent] among them, it carries the envelope's timestamp, and
    its [delivered] field is true exactly when the recipient was
    registered and the send on its handle returned. *)
Theorem message_yields_one_receipt (env : Env) (ws : handle) (S : string)
        (fields : list (string * json)) (R : json) (t : string) (k : pykey) (w : World) :
  get_or fields "type" JNull = JStr "message" ->
  items_get "recipient_id" fields = Some R ->
  items_get "text" fields = Some (JStr t) ->
  strip t <> EmptyString ->
  truthy R = true ->
  py_hash R = Some k ->
  let n := length (sent w) in
  let ts := utcnow env n in
  let target := find_connection k (active_connections (manager w)) in
  let attempt :=
    match target with
    | Some h => [{| sr_to := h; sr_msg := message_envelope S (strip t) ts;
                    sr_result := send_outcome env n h |}]
    | None => []
    end in
  let delivered :=
    match target with
    | Some h => match send_outcome env n h with None => true | Some _ => false end
    | None => false
    end in
  let receipt :=
    {| sr_to := ws; sr_msg := receipt_envelope R delivered ts;
       sr_result := send_outcome env (n + length attempt) ws |} in
  sent (after (handle_event env ws S (JObj fields)) w) = sent w ++ attempt ++ [receipt]
  /\ List.filter is_receipt (attempt ++ [receipt]) = [receipt]
  /\ (delivered = true <-> exists h, target = Some h /\ send_outcome env n h = None).
Proof.
  intros Hty HR Ht Hne Htr Hk. cbv zeta.
  unfold after.
  rewrite (handle_message_eval env ws S fields R t k w Hty HR Ht Hne Htr Hk).
  unfold bind. rewrite (send_to_user_eval env R k _ _ Hk).
  cbn [manager sent log active_connections].
  set (n := length (sent w)). set (ts := utcnow env n).
  destruct (find_connection k (active_connections (manager w))) as [h|].
  - cbv zeta. unfold send_json. cbn [manager sent log fst snd].
    rewrite length_app. cbn [length]. fold n.
    split; [|split].
    + destruct (send_outcome env n h);
        destruct (send_outcome env (n + 1) ws); cbn [snd sent];
        rewrite <- app_assoc; reflexivity.
    + reflexivity.
    + destruct (send_outcome env n h) as [e|] eqn:Eo.
      * split; [discriminate|]. intros (h' & Hh & Ho). congruence.
      * split; [eauto|reflexivity].
  - unfold send_json. cbn [manager sent log fst snd length].
    rewrite Nat.add_0_r. fold n.
    split; [|split].
    + destruct (send_outcome env n ws); reflexivity.
    + reflexivity.
    + split; [discriminate|]. intros (h' & Hh & _). discriminate.
Qed.

(** C7. A [typing] event with a truthy [is_typing] (or none, the default
    being true) from [S] to [R] records [S] as typing to [R]; a valid
    [message] event from [S] to [R] processed next leaves [S] out of
    [R]'s typing set.  The clearing is the first thing the message path
    does: the rest of the handler, which builds and sends the envelope,
    runs in the world where the flag is already cleared, and does not
    touch the typing map. *)
Theorem message_clears_typing (env : Env) (ws : handle) (S : string)
        (typing_fields message_fields : list (string * json))
        (R : json) (t : string) (k : pykey) (w : World) :
  get_or typing_fields "type" JNull = JStr "typing" ->
  items_get "recipient_id" typing_fields = Some R ->
  truthy (get_or typing_fields "is_typing" (JBool true)) = true ->
  get_or message_fields "type" JNull = JStr "message" ->
  items_get "recipient_id" message_fields = Some R ->
  items_get "text" message_fields = Some (JStr t) ->
  strip t <> EmptyString ->
  truthy R = true ->
  py_hash R = Some k ->
  let w1 := after (handle_event env ws S (JObj typing_fields)) w in
  let w2 := after (handle_event env ws S (JObj message_fields)) w1 in
  is_typing_to (manager w1) S k
  /\ (exists recipients,
         typing_users (manager w2) !! k = Some recipients /\ S ∉ recipients)
  /\ typing_users (manager w2) = typing_set S k false (typing_users (manager w1)).
Proof.
  intros Hty1 HR1 Hflag Hty2 HR2 Ht Hne Htr Hk w1 w2.
  assert (H1 : typing_users (manager w1)
               = typing_set S k true (typing_users (manager w))).
  { unfold w1, after.
    rewrite (handle_typing_eval env ws S typing_fields R k w Hty1 HR1 Htr Hk).
    rewrite Hflag. unfold bind. rewrite (send_to_user_eval env R k _ _ Hk).
    cbn [manager sent log active_connections].
    destruct (find_connection k (active_connections (manager w))); reflexivity. }
  assert (H2 : typing_users (manager w2)
               = typing_set S k false (typing_users (manager w1))).
  { unfold w2, after.
    rewrite (handle_message_eval env ws S message_fields R t k w1 Hty2 HR2 Ht Hne Htr Hk).
    unfold bind. rewrite (send_to_user_eval env R k _ _ Hk).
    cbn [manager sent log active_connections].
    destruct (find_connection k (active_connections (manager w1))) as [h|];
      cbv zeta; unfold send_json; cbn [manager sent log];
      match goal with |- context [send_outcome env ?n ws] =>
        destruct (send_outcome env n ws) end; reflexivity. }
  split; [|split].
  - unfold is_typing_to. rewrite H1. apply typing_set_true.
  - rewrite H2. apply typing_set_false.
  - exact H2.
Qed.

(** ** Unregistration *)

Lemma disconnect_absent (id : string) (w : World) :
  is_online (manager w) id = false -> after (disconnect id) w = w.
Proof.
  unfold is_online. intros Hoff. unfold after, disconnect, bind, get_manager.
  rewrite Hoff. reflexivity.
Qed.

(** C4 (amended). For an id that is registered, [disconnect] removes the
    presence entry and takes the id out of every typing set: afterwards
    the id is in no set, for any recipient.  For an id that is not
    registered, [disconnect] changes nothing at all, the typing map
    included. *)
Theorem unregister_purges_registered (id : string) (w : World) :
  (is_online (manager w) id = true ->
     is_online (manager (after (disconnect id) w)) id = false
     /\ (forall k, typing_users (manager (after (disconnect id) w)) !! k
                   = (fun recipients => recipients ∖ {[id]})
                       <$> typing_users (manager w) !! k)
     /\ (forall k recipients,
            typing_users (manager (after (disconnect id) w)) !! k = Some recipients ->
            id ∉ recipients))
  /\ (is_online (manager w) id = false -> after (disconnect id) w = w).
Proof.
  unfold is_online. split.
  - intros Hon.
    assert (Hm := disconnect_manager id w). rewrite Hon in Hm.
    unfold after. rewrite Hm. cbn [active_connections typing_users].
    split; [apply mem_del|].
    assert (Hlk : forall k,
               ((fun recipients : gset string => recipients ∖ {[id]})
                  <$> typing_users (manager w)) !! k
               = (fun recipients => recipients ∖ {[id]})
                   <$> typing_users (manager w) !! k).
    { intros k. apply lookup_fmap. }
    split; [exact Hlk|].
    intros k recipients Hk. rewrite Hlk in Hk.
    destruct (typing_users (manager w) !! k) as [s|]; simpl in Hk; [|discriminate].
    injection Hk as <-. rewrite elem_of_difference, elem_of_singleton. tauto.
  - apply disconnect_absent.
Qed.

(** ** The two exits of [websocket_endpoint] *)

(** X1. The handler of any exception but [WebSocketDisconnect] attempts
    no send at all: no peer is told that the id went offline. *)
Lemma error_path_sends_nothing (env : Env) (a : string) (e : exn) (w : World) :
  e <> WebSocketDisconnect ->
  sent (after (on_exception env a e) w) = sent w.
Proof.
  intros He. unfold after.
  destruct e; [congruence| | | |]; unfold on_exception;
    unfold bind at 1; unfold logger at 1;
    rewrite (bind_ok _ _ _ _ _ (disconnect_returns _ _));
    unfold ret, after, disconnect, bind, get_manager; cbn [manager sent log snd];
    destruct (Dict.mem a (active_connections (manager w))); reflexivity.
Qed.

Lemma filter_other_keys {V} (u : string) (d : list (string * V)) :
  List.filter (fun it => negb (fst it =? u)%string) d = Dict.del u d.
Proof.
  induction d as [|[k v] d IH]; simpl; [reflexivity|].
  destruct (k =? u)%string; simpl; [exact IH|]. f_equal. exact IH.
Qed.





(** ** Validation of Telegram init data *)

Lemma hex_digest_nonempty (msg : list Z) : Sha256.hex (Sha256.digest msg) <> EmptyString.
Proof.
  unfold Sha256.digest. cbv zeta. unfold Sha256.bytes_of_word at 1.
  cbn [app Sha256.hex]. discriminate.
Qed.

Lemma calculated_hash_nonempty (token : string) (parsed : list (string * string)) :
  Telegram.calculated_hash token parsed <> EmptyString.
Proof.
  unfold Telegram.calculated_hash. cbv zeta. unfold Sha256.hmac. cbv zeta.
  apply hex_digest_nonempty.
Qed.

Opaque Telegram.calculated_hash.

(** C5 (amended). With a shared secret configured, the payload is
    accepted exactly when the supplied hash is, character for character,
    the lowercase hexadecimal two-stage HMAC-SHA256 digest of the sorted
    [key=value] lines of the other fields, and the [user] field (["{}"]
    when absent) is valid JSON.  Any other supplied hash is rejected, one
    that differs from the digest in letter case only included. *)
Theorem validate_accepts_exact_digest (json_loads : string -> option json)
        (token : string) (qsl : list (string * string)) :
  token <> EmptyString ->
  let parsed := Dict.del "hash" (Telegram.dict_of qsl) in
  let digest := Telegram.calculated_hash token parsed in
  let user_text := match Dict.get "user" parsed with Some u => u | None => "{}" end in
  (forall user_data,
      Telegram.validate_telegram_data json_loads token qsl
      = Some (JObj [("user", user_data)])
      <-> Dict.get "hash" (Telegram.dict_of qsl) = Some digest
          /\ json_loads user_text = Some user_data)
  /\ (is_Some (Telegram.validate_telegram_data json_loads token qsl)
      <-> Dict.get "hash" (Telegram.dict_of qsl) = Some digest
          /\ is_Some (json_loads user_text))
  /\ (forall h, Dict.get "hash" (Telegram.dict_of qsl) = Some h ->
                h <> digest ->
                Telegram.validate_telegram_data json_loads token qsl = None)
  /\ (forall h, Dict.get "hash" (Telegram.dict_of qsl) = Some h ->
                Telegram.eq_ignoring_case h digest = true ->
                h <> digest ->
                Telegram.validate_telegram_data json_loads token qsl = None).
Proof.
  intros Htok parsed digest user_text.
  assert (Hv : Telegram.validate_telegram_data json_loads token qsl
               = match Dict.get "hash" (Telegram.dict_of qsl) with
                 | Some h =>
                     if (digest =? h)%string
                     then match json_loads user_text with
                          | Some user_data => Some (JObj [("user", user_data)])
                          | None => None
                          end
                     else None
                 | None => None
                 end).
  { unfold Telegram.validate_telegram_data.
    rewrite (eqb_empty_false _ Htok). cbv zeta.
    destruct (Dict.get "hash" (Telegram.dict_of qsl)) as [h|]; [|reflexivity].
    fold parsed. fold digest. fold user_text.
    destruct (h =? "")%string eqn:Eh; [|reflexivity].
    apply String.eqb_eq in Eh. subst h.
    rewrite (eqb_empty_false digest (calculated_hash_nonempty token parsed)).
    reflexivity. }
  rewrite Hv. clear Hv. clearbody digest user_text.
  destruct (Dict.get "hash" (Telegram.dict_of qsl)) as [h|];
    [destruct (digest =? h)%string eqn:E;
     [apply String.eqb_eq in E; subst h; destruct (json_loads user_text) as [u|]
     |apply String.eqb_neq in E]|].
  all: split; [intros user_data; split|split; [split|split]].
  all: try (intros [x Hx]; discriminate).
  all: try (intros [H1 H2]; congruence).
  all: try (intros [H1 [x H2]]; congruence).
  all: try (intros; congruence).
  all: try (intros H; injection H as <-; split; reflexivity).
  all: try (intros; split; [reflexivity|eexists; reflexivity]).
  all: try (intros; eexists; reflexivity).
Qed.

(** ** Contacts *)

Lemma find_snoc {A} (p : A -> bool) (l : list A) (x : A) :
  find p (l ++ [x])
  = match find p l with
    | Some y => Some y
    | None => if p x then Some x else None
    end.
Proof.
  induction l as [|y l IH]; simpl; [reflexivity|].
  destruct (p y); [reflexivity|exact IH].
Qed.

Lemma find_is_Some {A} (p : A -> bool) (l : list A) (x : A) :
  In x l -> p x = true -> is_Some (find p l).
Proof.
  intros Hin Hp. destruct (find p l) as [y|] eqn:E; [eauto|].
  pose proof (find_none p l E x Hin). congruence.
Qed.

(** C9. [add_contact] answers 400 "Cannot add yourself" when the target
    is the caller's own anonymous id, 404 when no user has the target
    anonymous id, and 400 "Contact already added" when the caller already
    holds that contact, so in particular on a second add after a first
    one went through; in each case the store is left as it was.  A
    contact row is inserted only when the caller exists, the target
    exists, is not the caller, and is not yet a contact; the inserted row
    is the last of the table, and every other answer leaves the store
    unchanged. *)
Theorem add_contact_rejections (db : Store.Db)
        (telegram_id target now_local now_utc : string) :
  let r := Store.add_contact db telegram_id target now_local now_utc in
  (forall u, Store.user_by_telegram_id db telegram_id = Some u ->
             Store.u_anonymous_id u = target ->
             r = (Store.HTTPException 400 "Cannot add yourself", db))
  /\ (Store.user_by_anonymous_id db target = None ->
      exists detail, r = (Store.HTTPException 404 detail, db))
  /\ (forall u c, Store.user_by_telegram_id db telegram_id = Some u ->
                  is_Some (Store.user_by_anonymous_id db target) ->
                  Store.u_anonymous_id u <> target ->
                  Store.contact_of db (Store.u_id u) target = Some c ->
                  r = (Store.HTTPException 400 "Contact already added", db))
  /\ (forall contact_id db',
         r = (Store.Contact_added contact_id, db') ->
         (exists u row,
             Store.user_by_telegram_id db telegram_id = Some u
             /\ is_Some (Store.user_by_anonymous_id db target)
             /\ Store.u_anonymous_id u <> target
             /\ Store.contact_of db (Store.u_id u) target = None
             /\ Store.c_id row = contact_id
             /\ Store.c_user_id row = Store.u_id u
             /\ Store.c_contact_anonymous_id row = target
             /\ db' = {| Store.users := Store.users db;
                         Store.contacts := Store.contacts db ++ [row] |})
         /\ forall now_local' now_utc',
             Store.add_contact db' telegram_id target now_local' now_utc'
             = (Store.HTTPException 400 "Contact already added", db'))
  /\ ((forall contact_id, fst r <> Store.Contact_added contact_id) -> snd r = db).
Proof.
  intros r. subst r. unfold Store.add_contact.
  split; [|split; [|split; [|split]]].
  - intros u Hu Hself. rewrite Hu.
    assert (Ht : is_Some (Store.user_by_anonymous_id db target)).
    { unfold Store.user_by_telegram_id in Hu. apply find_some in Hu as [Hin _].
      apply (find_is_Some _ _ u Hin). apply String.eqb_eq. exact Hself. }
    destruct Ht as [x ->].
    apply String.eqb_eq in Hself. rewrite Hself. reflexivity.
  - intros Hnone. rewrite Hnone.
    destruct (Store.user_by_telegram_id db telegram_id); eauto.
  - intros u c Hu [x Hx] Hne Hc. rewrite Hu, Hx.
    apply String.eqb_neq in Hne. rewrite Hne, Hc. reflexivity.
  - intros contact_id db'.
    destruct (Store.user_by_telegram_id db telegram_id) as [u|] eqn:Hu; [|discriminate].
    destruct (Store.user_by_anonymous_id db target) as [x|] eqn:Hx; [|discriminate].
    destruct (Store.u_anonymous_id u =? target)%string eqn:Hself; [discriminate|].
    destruct (Store.contact_of db (Store.u_id u) target) as [c|] eqn:Hc; [discriminate|].
    unfold Store.insert_contact. cbn [Store.c_id Store.c_user_id Store.c_contact_anonymous_id].
    destruct (existsb _ (Store.contacts db)); [discriminate|].
    rewrite Hc. intros Heq. injection Heq as Hid Hdb. subst db'.
    split.
    + eexists u, _. repeat split; eauto.
      apply String.eqb_neq. exact Hself.
    + intros nl nu.
      unfold Store.user_by_telegram_id, Store.user_by_anonymous_id, Store.contact_of in *.
      cbn [Store.users Store.contacts].
      rewrite Hu, Hx, Hself. rewrite find_snoc, Hc.
      cbn [Store.c_user_id Store.c_contact_anonymous_id].
      rewrite !String.eqb_refl. reflexivity.
  - intros Hnot.
    destruct (Store.user_by_telegram_id db telegram_id) as [u|]; [|reflexivity].
    destruct (Store.user_by_anonymous_id db target) as [x|]; [|reflexivity].
    destruct (Store.u_anonymous_id u =? target)%string; [reflexivity|].
    destruct (Store.contact_of db (Store.u_id u) target) as [c|]; [reflexivity|].
    destruct (Store.insert_contact db _) as [db'|]; [|reflexivity].
    exfalso. eapply Hnot. reflexivity.
Qed.

(* ===================================================================== *)
(** * Examples, witnesses and counterexamples *)
(* ===================================================================== *)

(** The scenario of two clients: [bob]'s arrival is announced to [alice];
    [alice]'s message reaches [bob] stripped, and [alice] gets the receipt
    with the same timestamp. *)
Example two_clients_scenario :
  sent two_online
  = [{| sr_to := 1%nat; sr_msg := status_message bob "online"; sr_result := None |}]
  /\ sent (after (handle_event calm 1%nat alice (JObj (message_to (JStr bob) "  hi  ")))
                 two_online)
     = sent two_online
       ++ [{| sr_to := 2%nat;
              sr_msg := message_envelope alice "hi" "2024-01-01T00:00:00+00:00";
              sr_result := None |};
           {| sr_to := 1%nat;
              sr_msg := receipt_envelope (JStr bob) true "2024-01-01T00:00:00+00:00";
              sr_result := None |}].
Proof. split; reflexivity. Qed.

(** Registering [alice] twice lists her once, on the second handle. *)
Example register_twice_listed_once :
  get_online_users (manager (run_ops calm [Op_connect alice 1%nat; Op_connect alice 2%nat]
                                     world_init)) = [alice]
  /\ active_connections (manager (run_ops calm [Op_connect alice 1%nat; Op_connect alice 2%nat]
                                          world_init)) = [(alice, 2%nat)].
Proof. split; reflexivity. Qed.

(** C1, counterexample. The [recipient_id] field is present and the text
    is non-empty once stripped, yet no receipt is sent: an empty-string
    recipient is dropped by the guard, and a recipient that is a list
    raises [TypeError] before anything is sent. *)
Lemma present_recipient_without_receipt :
  items_get "recipient_id" (message_to (JStr "") "hi") = Some (JStr "")
  /\ strip "hi" = "hi"
  /\ handle_event calm 1%nat alice (JObj (message_to (JStr "") "hi")) two_online
     = (Ok tt, two_online)
  /\ handle_event calm 1%nat alice (JObj (message_to (JArr [JNum 1]) "hi")) two_online
     = (Raise TypeError, two_online).
Proof. repeat split; reflexivity. Qed.

(** C1, witness: the message of the scenario. *)
Lemma message_yields_one_receipt_witness :
  sent (after (handle_event calm 1%nat alice (JObj (message_to (JStr bob) "  hi  ")))
              two_online)
  = sent two_online
    ++ [{| sr_to := 2%nat;
           sr_msg := message_envelope alice "hi" "2024-01-01T00:00:00+00:00";
           sr_result := None |}]
    ++ [{| sr_to := 1%nat;
           sr_msg := receipt_envelope (JStr bob) true "2024-01-01T00:00:00+00:00";
           sr_result := None |}].
Proof.
  apply (message_yields_one_receipt calm 1%nat alice (message_to (JStr bob) "  hi  ")
           (JStr bob) "  hi  " (KStr bob) two_online);
    first [reflexivity | discriminate].
Defined.

(** C2, evaluated at the failing input. With [alice] and [bob] online, a
    frame that does not decode on [alice]'s connection closes it, logs
    the error and unregisters [alice], but sends nothing: [bob] gets no
    [offline] status.  The peer's close, from the same state, does send
    it. *)
Lemma decode_error_skips_offline_broadcast :
  session calm 1%nat alice [FrameUndecodable] two_online
  = (Ok CLOSED,
     {| manager := {| active_connections := [(bob, 2%nat)]; typing_users := ∅ |};
        sent := sent two_online;
        log := log two_online
               ++ [Log_ws_error JSONDecodeError; Log_disconnected alice 1] |})
  /\ List.filter (is_status "offline")
       (sent (after (session calm 1%nat alice [FrameUndecodable]) two_online)) = []
  /\ List.filter (is_status "offline")
       (sent (after (session calm 1%nat alice [FrameDisconnect]) two_online))
     = [{| sr_to := 2%nat; sr_msg := status_message alice "offline"; sr_result := None |}].
Proof. repeat split; reflexivity. Qed.

(** X1, witness: the error path on a frame that does not decode, [alice]
    and [bob] being online. *)
Lemma error_path_sends_nothing_witness :
  sent (after (on_exception calm alice JSONDecodeError) two_online) = sent two_online.
Proof. apply (error_path_sends_nothing calm alice JSONDecodeError two_online). discriminate. Defined.

(** C3, counterexample. A frame that does not decode is not dropped on
    its own: the connection is closed and unregistered, and the ping that
    follows is never read, so no pong is sent; the same ping alone is
    answered and leaves the connection open. *)
Lemma undecodable_frame_closes_connection :
  fst (session calm 1%nat alice [FrameUndecodable; FrameJson ping] two_online) = Ok CLOSED
  /\ is_online (manager (after (session calm 1%nat alice [FrameUndecodable; FrameJson ping])
                               two_online)) alice = false
  /\ sent (after (session calm 1%nat alice [FrameUndecodable; FrameJson ping]) two_online)
     = sent two_online
  /\ fst (session calm 1%nat alice [FrameJson ping] two_online) = Ok OPEN
  /\ sent (after (session calm 1%nat alice [FrameJson ping]) two_online)
     = sent two_online ++ [{| sr_to := 1%nat; sr_msg := pong; sr_result := None |}].
Proof. repeat split; reflexivity. Qed.

(** C3, witness: a message without [recipient_id], then a ping. *)
Lemma incomplete_event_dropped_witness :
  handle_event calm 1%nat alice
    (JObj [("type", JStr "message"); ("text", JStr "hi")]) two_online
  = (Ok tt, two_online)
  /\ session calm 1%nat alice
       [FrameJson (JObj [("type", JStr "message"); ("text", JStr "hi")]); FrameJson ping]
       two_online
     = session calm 1%nat alice [FrameJson ping] two_online
  /\ fst (session calm 1%nat alice [FrameUndecodable; FrameJson ping] two_online)
     = Ok CLOSED.
Proof.
  apply (incomplete_event_dropped calm 1%nat alice
           [("type", JStr "message"); ("text", JStr "hi")] [FrameJson ping] two_online).
  reflexivity.
Defined.

(** C4, counterexample. [alice] connected twice; the first connection has
    closed, which removed her registry entry; the second connection then
    signalled typing to [bob].  In this state [alice] is not registered,
    and [disconnect] leaves her in [bob]'s typing set. *)
Lemma unregister_absent_id_keeps_typing :
  is_online (manager reconnected_and_typing) alice = false
  /\ is_typing_to (manager reconnected_and_typing) alice (KStr bob)
  /\ is_typing_to (manager (after (disconnect alice) reconnected_and_typing))
                  alice (KStr bob).
Proof.
  split; [reflexivity|].
  assert (H : is_typing_to (manager reconnected_and_typing) alice (KStr bob)).
  { exists {[alice]}. split; [reflexivity|]. apply elem_of_singleton. reflexivity. }
  split; [exact H|].
  rewrite disconnect_absent; [exact H|reflexivity].
Qed.

(** C4, witness: [alice], online and typing to [bob], is unregistered. *)
Lemma unregister_purges_registered_witness :
  let w := after (handle_event calm 1%nat alice (JObj (typing_to (JStr bob)))) two_online in
  is_typing_to (manager w) alice (KStr bob)
  /\ is_online (manager w) alice = true
  /\ is_online (manager (after (disconnect alice) w)) alice = false
  /\ (forall k recipients,
         typing_users (manager (after (disconnect alice) w)) !! k = Some recipients ->
         alice ∉ recipients).
Proof.
  intros w.
  split.
  { exists {[alice]}. split; [reflexivity|]. apply elem_of_singleton. reflexivity. }
  split; [reflexivity|].
  destruct (unregister_purges_registered alice w) as [Hon _].
  destruct (Hon eq_refl) as (H1 & _ & H3).
  split; [exact H1|exact H3].
Defined.

(** The model of [hashlib] and [hmac] on values computed by the library:
    [sha256(b"abc")], [sha256(b"")], and the secret key and the digest of
    the example payload. *)
Example sha256_known_values :
  Sha256.hexdigest (Sha256.encode_utf8 "abc")
  = "ba7816bf8f01cfea414140de5dae2223b00361a396177a9cb410ff61f20015ad"
  /\ Sha256.hexdigest []
     = "e3b0c44298fc1c149afbf4c8996fb92427ae41e4649b934ca495991b7852b855"
  /\ Sha256.hex (Sha256.hmac (Sha256.encode_utf8 "WebAppData") (Sha256.encode_utf8 "TOKEN"))
     = "c0f97b078e13c2a404955024940b100aa41b9494cc0b3620e1b2a49d8ce9a0e0"
  /\ Telegram.data_check_string [("user", "{}"); ("auth_date", "1")]
     = String.append "auth_date=1" (String.append Telegram.newline "user={}").
Proof. repeat split; vm_compute; reflexivity. Qed.

(** C5, counterexample. The supplied hash is the computed digest in
    uppercase: equal to it up to letter case, and rejected, whatever
    [json.loads] would do. *)
Lemma uppercase_hash_rejected :
  Telegram.calculated_hash "TOKEN" (Dict.del "hash" (Telegram.dict_of (signed_fields shouted_hash)))
  = good_hash
  /\ Telegram.eq_ignoring_case shouted_hash good_hash = true
  /\ (forall json_loads,
         Telegram.validate_telegram_data json_loads "TOKEN" (signed_fields shouted_hash)
         = None).
Proof.
  split; [vm_compute; reflexivity|].
  split; [vm_compute; reflexivity|].
  intros json_loads. vm_compute. reflexivity.
Qed.

(** C5, witness: the same fields with the digest as computed are accepted
    when the user field decodes. *)
Lemma validate_accepts_exact_digest_witness :
  Telegram.validate_telegram_data (fun _ => Some (JObj [])) "TOKEN" (signed_fields good_hash)
  = Some (JObj [("user", JObj [])]).
Proof.
  apply (validate_accepts_exact_digest (fun _ => Some (JObj [])) "TOKEN"
           (signed_fields good_hash)).
  - discriminate.
  - split; [vm_compute; reflexivity|reflexivity].
Defined.

(** C7, witness: [alice] signals typing to [bob], then writes to him. *)
Lemma message_clears_typing_witness :
  let w1 := after (handle_event calm 1%nat alice (JObj (typing_to (JStr bob)))) two_online in
  let w2 := after (handle_event calm 1%nat alice (JObj (message_to (JStr bob) "hi"))) w1 in
  is_typing_to (manager w1) alice (KStr bob)
  /\ (exists recipients,
         typing_users (manager w2) !! KStr bob = Some recipients /\ alice ∉ recipients)
  /\ typing_users (manager w2) = typing_set alice (KStr bob) false (typing_users (manager w1)).
Proof.
  apply (message_clears_typing calm 1%nat alice (typing_to (JStr bob))
           (message_to (JStr bob) "hi") (JStr bob) "hi" (KStr bob) two_online);
    first [reflexivity | discriminate].
Defined.

(** C8, witness: three spaces, with a ping behind. *)
Lemma whitespace_message_dropped_witness :
  handle_event calm 1%nat alice (JObj (message_to (JStr bob) "   ")) two_online
  = (Ok tt, two_online)
  /\ sent (after (handle_event calm 1%nat alice (JObj (message_to (JStr bob) "   ")))
                 two_online) = sent two_online
  /\ typing_users (manager (after (handle_event calm 1%nat alice
                                     (JObj (message_to (JStr bob) "   "))) two_online))
     = typing_users (manager two_online)
  /\ session calm 1%nat alice
       [FrameJson (JObj (message_to (JStr bob) "   ")); FrameJson ping] two_online
     = session calm 1%nat alice [FrameJson ping] two_online.
Proof.
  apply (whitespace_message_dropped calm 1%nat alice (message_to (JStr bob) "   ")
           "   " [FrameJson ping] two_online); reflexivity.
Defined.

(** C9, witness: in a store with [alice] and [bob], [alice] cannot add
    herself nor an unknown id; she can add [bob] once, and not twice. *)
Lemma add_contact_rejections_witness :
  Store.add_contact two_users "tg1" alice "t0" "t1"
  = (Store.HTTPException 400 "Cannot add yourself", two_users)
  /\ (exists detail,
         Store.add_contact two_users "tg1" "0000000" "t0" "t1"
         = (Store.HTTPException 404 detail, two_users))
  /\ (exists contact_id db',
         Store.add_contact two_users "tg1" bob "t0" "t1" = (Store.Contact_added contact_id, db')
         /\ length (Store.contacts db') = 1%nat
         /\ Store.add_contact db' "tg1" bob "t2" "t3"
            = (Store.HTTPException 400 "Contact already added", db')).
Proof.
  split; [|split].
  - apply (add_contact_rejections two_users "tg1" alice "t0" "t1") with (u := user_of "u1" "tg1" alice);
      reflexivity.
  - apply (add_contact_rejections two_users "tg1" "0000000" "t0" "t1"). reflexivity.
  - destruct (Store.add_contact two_users "tg1" bob "t0" "t1") as [r db'] eqn:E.
    vm_compute in E. injection E as <- <-.
    eexists _, _. split; [reflexivity|]. split; [reflexivity|].
    vm_compute. reflexivity.
Defined.

(** C10, witness: a [typing] event with [is_typing] false towards a
    recipient never seen creates the recipient's key with an empty set,
    and the key outlives the sender's disconnection. *)
Lemma typing_keys_persist_witness :
  typing_users (manager two_online) !! KStr bob = None
  /\ typing_users (manager (after (set_typing alice (JStr bob) (JBool false)) two_online))
       !! KStr bob = Some ∅
  /\ KStr bob ∈ dom (typing_users (manager
         (run_ops calm [Op_set_typing alice (JStr bob) (JBool false);
                        Op_session 1%nat alice [FrameDisconnect];
                        Op_session 2%nat bob [FrameDisconnect]] two_online))).
Proof.
  destruct (typing_keys_persist calm) as (Hnew & _ & Hall).
  assert (H0 : typing_users (manager two_online) !! KStr bob = None) by reflexivity.
  split; [exact H0|].
  split; [exact (Hnew alice (JStr bob) (KStr bob) two_online eq_refl H0)|].
  refine (Hall [Op_session 1%nat alice [FrameDisconnect];
                Op_session 2%nat bob [FrameDisconnect]]
               (run_op calm (Op_set_typing alice (JStr bob) (JBool false)) two_online)
               (KStr bob) _).
  apply elem_of_dom.
  exists ∅. exact (Hnew alice (JStr bob) (KStr bob) two_online eq_refl H0).
Defined.

(* ===================================================================== *)
(** * Further properties: registry and relay protocol *)
(* ===================================================================== *)

Section MoreDictFacts.
Context {V : Type}.
Implicit Types (d : list (string * V)) (k u : string) (v : V).

Lemma del_set u v d : Dict.del u (Dict.set u v d) = Dict.del u d.
Proof.
  induction d as [|[k' v'] d IH]; simpl.
  - rewrite String.eqb_refl. reflexivity.
  - destruct (k' =? u)%string eqn:E; simpl; rewrite E; [reflexivity|].
    f_equal. exact IH.
Qed.


Lemma get_del_other u k d : k <> u -> Dict.get k (Dict.del u d) = Dict.get k d.
Proof.
  intros Hne. induction d as [|[k' v'] d IH]; simpl; [reflexivity|].
  destruct (k' =? u)%string eqn:E; simpl.
  - apply String.eqb_eq in E. subst k'.
    destruct (u =? k)%string eqn:E2; [|exact IH].
    apply String.eqb_eq in E2. congruence.
  - destruct (k' =? k)%string; [reflexivity|exact IH].
Qed.

Lemma mem_get_bool k d : Dict.mem k d = match Dict.get k d with Some _ => true | None => false end.
Proof.
  induction d as [|[k' v'] d IH]; simpl; [reflexivity|].
  destruct (k' =? k)%string; simpl; [reflexivity|exact IH].
Qed.

End MoreDictFacts.


(** X4. [send_to_user] to a string id never raises and never changes the
    manager; it answers true exactly when the id is registered and the
    send on its handle returned; for an id that is not registered nothing
    is attempted; and when the send raises, the failure is logged, the
    answer is false, and the id stays registered with the same handle. *)
Theorem failed_delivery_keeps_registration (env : Env) (u : string) (msg : json) (w : World) :
  manager (after (send_to_user env (JStr u) msg) w) = manager w
  /\ (exists delivered, fst (send_to_user env (JStr u) msg w) = Ok delivered)
  /\ (fst (send_to_user env (JStr u) msg w) = Ok true
      <-> exists h, Dict.get u (active_connections (manager w)) = Some h
                    /\ send_outcome env (length (sent w)) h = None)
  /\ (is_online (manager w) u = false -> send_to_user env (JStr u) msg w = (Ok false, w))
  /\ (forall h e,
         Dict.get u (active_connections (manager w)) = Some h ->
         send_outcome env (length (sent w)) h = Some e ->
         fst (send_to_user env (JStr u) msg w) = Ok false
         /\ log (after (send_to_user env (JStr u) msg) w) = log w ++ [Log_send_failed (JStr u) e]
         /\ Dict.get u (active_connections (manager (after (send_to_user env (JStr u) msg) w)))
            = Some h).
Proof.
  unfold after, is_online.
  rewrite (send_to_user_eval env (JStr u) (KStr u) msg w eq_refl).
  rewrite mem_get_bool. cbn [find_connection].
  destruct (Dict.get u (active_connections (manager w))) as [h|] eqn:Hg; cbv zeta.
  - cbn [fst snd manager log].
    split; [reflexivity|]. split; [eauto|]. split; [|split; [discriminate|]].
    + destruct (send_outcome env (length (sent w)) h) eqn:E.
      * split; [discriminate|]. intros (h' & Hh & Ho). congruence.
      * split; [eauto|reflexivity].
    + intros h' e Hh Ho. injection Hh as <-. rewrite Ho. auto.
  - cbn [fst snd].
    split; [reflexivity|]. split; [eauto|]. split; [|split; [reflexivity|]].
    + split; [discriminate|]. intros (h' & Hh & _). discriminate.
    + intros h' e Hh. discriminate.
Qed.

(** X5. A [typing] event with a truthy, hashable [recipient_id] never
    raises, whatever the recipient's socket does: it sets or clears the
    sender's flag as [is_typing] says (true when absent), leaves the
    registry alone, and attempts one send, the typing envelope on the
    recipient's handle, when the recipient is registered and none
    otherwise; the sender gets no receipt. *)
Theorem typing_event_is_best_effort (env : Env) (ws : handle) (S : string)
        (fields : list (string * json)) (R : json) (k : pykey) (w : World) :
  get_or fields "type" JNull = JStr "typing" ->
  items_get "recipient_id" fields = Some R ->
  truthy R = true ->
  py_hash R = Some k ->
  let is_typing := get_or fields "is_typing" (JBool true) in
  let n := length (sent w) in
  fst (handle_event env ws S (JObj fields) w) = Ok tt
  /\ typing_users (manager (after (handle_event env ws S (JObj fields)) w))
     = typing_set S k (truthy is_typing) (typing_users (manager w))
  /\ active_connections (manager (after (handle_event env ws S (JObj fields)) w))
     = active_connections (manager w)
  /\ sent (after (handle_event env ws S (JObj fields)) w)
     = sent w ++ match find_connection k (active_connections (manager w)) with
                 | Some h => [{| sr_to := h; sr_msg := typing_envelope S is_typing;
                                 sr_result := send_outcome env n h |}]
                 | None => []
                 end.
Proof.
  intros Hty HR Htr Hk. cbv zeta. unfold after.
  rewrite (handle_typing_eval env ws S fields R k w Hty HR Htr Hk).
  unfold bind. rewrite (send_to_user_eval env R k _ _ Hk).
  cbn [manager sent log active_connections].
  destruct (find_connection k (active_connections (manager w))) as [h|]; cbv zeta.
  - cbn [fst snd manager sent typing_users active_connections]. repeat split; reflexivity.
  - cbn [fst snd manager sent typing_users active_connections ret].
    rewrite app_nil_r. repeat split; reflexivity.
Qed.

Lemma session_raise (env : Env) (ws : handle) (S : string) (data : json)
      (rest : list frame) (w w1 : World) (e : exn) :
  handle_event env ws S data w = (Raise e, w1) ->
  session env ws S (FrameJson data :: rest) w = on_exception env S e w1.
Proof.
  intros H. unfold session, try_except. simpl.
  unfold bind at 1. unfold bind at 1. simpl. unfold ret at 1.
  unfold bind at 1. rewrite H. reflexivity.
Qed.

Lemma on_exception_unregisters (env : Env) (a : string) (e : exn) (w : World) :
  is_online (manager (after (on_exception env a e) w)) a = false.
Proof.
  assert (Hd : is_online (manager (after (disconnect a) w)) a = false).
  { unfold after, is_online. rewrite disconnect_manager.
    destruct (Dict.mem a (active_connections (manager w))) eqn:E; [apply mem_del|exact E]. }
  unfold after. destruct e; unfold on_exception.
  - rewrite (bind_ok _ _ _ _ _ (disconnect_returns a w)).
    rewrite (bind_ok _ _ _ _ _ (broadcast_status_returns env a "offline" _)).
    cbn [snd ret]. unfold after at 1, broadcast_status, bind, get_manager.
    match goal with |- context [broadcast_items env ?it a ?msg ?w'] =>
      destruct (broadcast_items_manager env it a msg w') as (Hm & _ & _); rewrite Hm end.
    exact Hd.
  - unfold bind at 1. unfold logger at 1.
    rewrite (bind_ok _ _ _ _ _ (disconnect_returns a _)). cbn [snd ret].
    unfold after, is_online. rewrite disconnect_manager. cbn [manager].
    destruct (Dict.mem a (active_connections (manager w))) eqn:E; [apply mem_del|exact E].
  - unfold bind at 1. unfold logger at 1.
    rewrite (bind_ok _ _ _ _ _ (disconnect_returns a _)). cbn [snd ret].
    unfold after, is_online. rewrite disconnect_manager. cbn [manager].
    destruct (Dict.mem a (active_connections (manager w))) eqn:E; [apply mem_del|exact E].
  - unfold bind at 1. unfold logger at 1.
    rewrite (bind_ok _ _ _ _ _ (disconnect_returns a _)). cbn [snd ret].
    unfold after, is_online. rewrite disconnect_manager. cbn [manager].
    destruct (Dict.mem a (active_connections (manager w))) eqn:E; [apply mem_del|exact E].
  - unfold bind at 1. unfold logger at 1.
    rewrite (bind_ok _ _ _ _ _ (disconnect_returns a _)). cbn [snd ret].
    unfold after, is_online. rewrite disconnect_manager. cbn [manager].
    destruct (Dict.mem a (active_connections (manager w))) eqn:E; [apply mem_del|exact E].
Qed.

(** X6. When the receipt of a valid [message] event cannot be sent on the
    sender's own connection, the handler raises what the send raised: the
    loop ends, the connection is [CLOSED] and the sender's id is
    unregistered, although the envelope has already been handed to the
    recipient's handle when the recipient is registered. *)
Theorem failed_receipt_closes_connection (env : Env) (ws : handle) (S : string)
        (fields : list (string * json)) (R : json) (t : string) (k : pykey)
        (e : exn) (rest : list frame) (w : World) :
  get_or fields "type" JNull = JStr "message" ->
  items_get "recipient_id" fields = Some R ->
  items_get "text" fields = Some (JStr t) ->
  strip t <> EmptyString ->
  truthy R = true ->
  py_hash R = Some k ->
  send_outcome env
    (length (sent w)
     + match find_connection k (active_connections (manager w)) with
       | Some _ => 1
       | None => 0
       end)%nat ws = Some e ->
  fst (handle_event env ws S (JObj fields) w) = Raise e
  /\ fst (session env ws S (FrameJson (JObj fields) :: rest) w) = Ok CLOSED
  /\ is_online (manager (after (session env ws S (FrameJson (JObj fields) :: rest)) w)) S
     = false
  /\ (forall h, find_connection k (active_connections (manager w)) = Some h ->
        nth_error (sent (after (handle_event env ws S (JObj fields)) w)) (length (sent w))
        = Some {| sr_to := h;
                  sr_msg := message_envelope S (strip t) (utcnow env (length (sent w)));
                  sr_result := send_outcome env (length (sent w)) h |}).
Proof.
  intros Hty HR Ht Hne Htr Hk Hfail.
  assert (Hraise : exists w1, handle_event env ws S (JObj fields) w = (Raise e, w1)
             /\ forall h, find_connection k (active_connections (manager w)) = Some h ->
                  nth_error (sent w1) (length (sent w))
                  = Some {| sr_to := h;
                            sr_msg := message_envelope S (strip t) (utcnow env (length (sent w)));
                            sr_result := send_outcome env (length (sent w)) h |}).
  { rewrite (handle_message_eval env ws S fields R t k w Hty HR Ht Hne Htr Hk).
    unfold bind. rewrite (send_to_user_eval env R k _ _ Hk).
    cbn [manager sent log active_connections].
    destruct (find_connection k (active_connections (manager w))) as [h|]; cbv zeta.
    - unfold send_json. cbn [manager sent log]. rewrite length_app. cbn [length].
      rewrite Hfail. eexists. split; [reflexivity|].
      intros h' Hh. injection Hh as <-. cbn [sent].
      rewrite <- app_assoc. rewrite nth_error_app2 by lia.
      rewrite Nat.sub_diag. reflexivity.
    - unfold send_json. cbn [manager sent log]. rewrite Nat.add_0_r in Hfail.
      rewrite Hfail. eexists. split; [reflexivity|]. intros h' Hh. discriminate. }
  destruct Hraise as (w1 & Hev & Hnth).
  split; [rewrite Hev; reflexivity|].
  unfold after. rewrite (session_raise env ws S _ rest w w1 e Hev).
  split; [apply on_exception_closed|].
  split; [apply on_exception_unregisters|].
  rewrite Hev. exact Hnth.
Qed.

(** X7. An event whose [type] is none of [message], [typing] and [ping]
    (an unknown tag, or a value that is not a string) is ignored: the
    handler returns normally, nothing is sent, no state changes, and the
    loop goes on with the next frame. *)
Theorem unknown_event_ignored (env : Env) (ws : handle) (S : string)
        (fields : list (string * json)) (rest : list frame) (w : World) :
  eq_str (get_or fields "type" JNull) "message" = false ->
  eq_str (get_or fields "type" JNull) "typing" = false ->
  eq_str (get_or fields "type" JNull) "ping" = false ->
  handle_event env ws S (JObj fields) w = (Ok tt, w)
  /\ session env ws S (FrameJson (JObj fields) :: rest) w = session env ws S rest w.
Proof.
  intros Hm Ht Hp.
  assert (H : handle_event env ws S (JObj fields) w = (Ok tt, w)).
  { unfold handle_event, data_get. rewrite bind_ret, Hm, bind_ret, Ht, bind_ret, Hp.
    reflexivity. }
  split; [exact H|apply session_skip; exact H].
Qed.

(** X8. Payloads the handler cannot take apart raise, and so end the
    connection through the error path, with nothing sent and no typing
    flag changed by the event: a JSON value that is not an object and a
    [message] whose [text] is present but not a string raise
    [AttributeError] (the latter even when [recipient_id] is missing);
    a [message] or [typing] event whose [recipient_id] is a non-empty
    array or object raises [TypeError]. *)
Theorem malformed_payload_raises (env : Env) (ws : handle) (S : string) (w : World) :
  (forall data, match data with JObj _ => False | _ => True end ->
                handle_event env ws S data w = (Raise AttributeError, w))
  /\ (forall fields v,
         get_or fields "type" JNull = JStr "message" ->
         items_get "text" fields = Some v ->
         match v with JStr _ => False | _ => True end ->
         handle_event env ws S (JObj fields) w = (Raise AttributeError, w))
  /\ (forall fields R t,
         get_or fields "type" JNull = JStr "message" ->
         items_get "recipient_id" fields = Some R ->
         items_get "text" fields = Some (JStr t) ->
         strip t <> EmptyString ->
         truthy R = true -> py_hash R = None ->
         handle_event env ws S (JObj fields) w = (Raise TypeError, w))
  /\ (forall fields R,
         get_or fields "type" JNull = JStr "typing" ->
         items_get "recipient_id" fields = Some R ->
         truthy R = true -> py_hash R = None ->
         handle_event env ws S (JObj fields) w = (Raise TypeError, w))
  /\ (forall data e rest,
         handle_event env ws S data w = (Raise e, w) ->
         e <> WebSocketDisconnect ->
         fst (session env ws S (FrameJson data :: rest) w) = Ok CLOSED
         /\ sent (after (session env ws S (FrameJson data :: rest)) w) = sent w
         /\ is_online (manager (after (session env ws S (FrameJson data :: rest)) w)) S
            = false).
Proof.
  split; [|split; [|split; [|split]]].
  - intros data Hd. destruct data; try reflexivity. destruct Hd.
  - intros fields v Hty Hv Hns.
    unfold handle_event, data_get. rewrite Hty, (get_or_present _ _ _ _ Hv).
    rewrite bind_ret.
    change (eq_str (JStr "message") "message") with true. cbv iota.
    rewrite !bind_ret. destruct v; try reflexivity. destruct Hns.
  - intros fields R t Hty HR Ht Hne Htr Hk.
    unfold handle_event, data_get.
    rewrite Hty, (get_or_present _ _ _ _ HR), (get_or_present _ _ _ _ Ht).
    rewrite bind_ret.
    change (eq_str (JStr "message") "message") with true. cbv iota.
    rewrite !bind_ret. unfold str_strip. rewrite bind_ret.
    rewrite Htr, (eqb_empty_false _ Hne). cbn [andb negb].
    unfold set_typing. rewrite Hk. reflexivity.
  - intros fields R Hty HR Htr Hk.
    unfold handle_event, data_get.
    rewrite Hty, (get_or_present _ _ _ _ HR).
    rewrite bind_ret.
    change (eq_str (JStr "typing") "message") with false. cbv iota.
    rewrite bind_ret.
    change (eq_str (JStr "typing") "typing") with true. cbv iota.
    rewrite !bind_ret. rewrite Htr.
    unfold set_typing. rewrite Hk. reflexivity.
  - intros data e rest Hev He. unfold after.
    rewrite (session_raise env ws S data rest w w e Hev).
    split; [apply on_exception_closed|].
    split; [|apply on_exception_unregisters].
    destruct e; [congruence| | | |]; unfold on_exception;
      unfold bind at 1; unfold logger at 1;
      rewrite (bind_ok _ _ _ _ _ (disconnect_returns _ _));
      unfold ret, after, disconnect, bind, get_manager; cbn [manager sent log snd];
      destruct (Dict.mem S (active_connections (manager w))); reflexivity.
Qed.

Lemma typing_set_lookup (s : string) (k k' : pykey) (b : bool) (t : gmap pykey (gset string)) :
  typing_set s k b t !! k'
  = if decide (k = k')
    then Some (let old := match t !! k with Some x => x | None => ∅ end in
               if b then old ∪ {[s]} else old ∖ {[s]})
    else t !! k'.
Proof.
  unfold typing_set. destruct (decide (k = k')) as [<-|Hne].
  - destruct b; rewrite lookup_alter_eq; destruct (t !! k) as [x|] eqn:E;
      rewrite ?E, ?lookup_insert_eq; reflexivity.
  - destruct b; rewrite lookup_alter_ne by exact Hne; destruct (t !! k) as [x|] eqn:E;
      rewrite ?lookup_insert_ne by exact Hne; reflexivity.
Qed.

Lemma typing_set_idem (s : string) (k : pykey) (b : bool) (t : gmap pykey (gset string)) :
  typing_set s k b (typing_set s k b t) = typing_set s k b t.
Proof.
  apply map_eq. intros k'. rewrite !typing_set_lookup.
  destruct (decide (k = k')) as [<-|Hne]; [|reflexivity].
  rewrite decide_True by reflexivity. cbv zeta. f_equal.
  destruct b; apply set_eq; intros x;
    rewrite ?elem_of_union, ?elem_of_difference, ?elem_of_union, ?elem_of_difference; tauto.
Qed.

(** X9. [set_typing] touches one flag only: repeating a call changes
    nothing more (it is idempotent); after the call the sender is in the
    recipient's set exactly when [is_typing] was truthy; and for any
    other sender or any other recipient, membership is as it was.  With
    a recipient that cannot be a dict key it raises [TypeError] and
    changes nothing. *)
Theorem set_typing_touches_one_flag (S : string) (R b : json) (w : World) :
  after (set_typing S R b) (after (set_typing S R b) w) = after (set_typing S R b) w
  /\ (forall k, py_hash R = Some k ->
        fst (set_typing S R b w) = Ok tt
        /\ (is_typing_to (manager (after (set_typing S R b) w)) S k <-> truthy b = true)
        /\ (forall s' k', s' <> S \/ k' <> k ->
              (is_typing_to (manager (after (set_typing S R b) w)) s' k'
               <-> is_typing_to (manager w) s' k'))
        /\ active_connections (manager (after (set_typing S R b) w))
           = active_connections (manager w)
        /\ sent (after (set_typing S R b) w) = sent w)
  /\ (py_hash R = None -> set_typing S R b w = (Raise TypeError, w)).
Proof.
  unfold after. destruct (py_hash R) as [k|] eqn:Hk.
  - rewrite !(set_typing_eval S R k b _ Hk). cbn [snd fst manager sent log active_connections typing_users].
    split; [rewrite typing_set_idem; reflexivity|].
    split; [|discriminate].
    intros k0 Hk0. injection Hk0 as <-.
    split; [reflexivity|]. unfold is_typing_to. cbn [typing_users].
    split; [|split; [|split; reflexivity]].
    + rewrite typing_set_lookup, decide_True by reflexivity. cbv zeta.
      destruct (truthy b); split.
      * reflexivity.
      * intros _. eexists. split; [reflexivity|].
        apply elem_of_union_r, elem_of_singleton. reflexivity.
      * intros (x & Hx & Hin). injection Hx as <-.
        apply elem_of_difference in Hin as [_ Hn]. exfalso. apply Hn.
        apply elem_of_singleton. reflexivity.
      * discriminate.
    + intros s' k' Hother. rewrite typing_set_lookup.
      destruct (decide (k = k')) as [<-|Hne]; [|reflexivity].
      destruct Hother as [Hs|Hk']; [|congruence].
      cbv zeta. destruct (typing_users (manager w) !! k) as [old|] eqn:E.
      * destruct (truthy b); split.
        -- intros (x & Hx & Hin). injection Hx as <-. exists old. split; [reflexivity|].
           apply elem_of_union in Hin as [Hin|Hin]; [exact Hin|].
           apply elem_of_singleton in Hin. congruence.
        -- intros (x & Hx & Hin). injection Hx as <-. eexists. split; [reflexivity|].
           apply elem_of_union_l. exact Hin.
        -- intros (x & Hx & Hin). injection Hx as <-. exists old. split; [reflexivity|].
           apply elem_of_difference in Hin as [Hin _]. exact Hin.
        -- intros (x & Hx & Hin). injection Hx as <-. eexists. split; [reflexivity|].
           apply elem_of_difference. split; [exact Hin|].
           rewrite elem_of_singleton. exact Hs.
      * destruct (truthy b); split.
        -- intros (x & Hx & Hin). injection Hx as <-.
           apply elem_of_union in Hin as [Hin|Hin].
           ++ apply not_elem_of_empty in Hin. destruct Hin.
           ++ apply elem_of_singleton in Hin. congruence.
        -- intros (x & Hx & _). discriminate.
        -- intros (x & Hx & Hin). injection Hx as <-.
           apply elem_of_difference in Hin as [Hin _].
           apply not_elem_of_empty in Hin. destruct Hin.
        -- intros (x & Hx & _). discriminate.
  - unfold set_typing. rewrite Hk. cbn [raise snd].
    split; [reflexivity|]. split; [discriminate|]. reflexivity.
Qed.

Lemma mem_del_other {V} (u v : string) (d : list (string * V)) :
  v <> u -> Dict.mem v (Dict.del u d) = Dict.mem v d.
Proof.
  intros Hne. rewrite !mem_get_bool, get_del_other by exact Hne. reflexivity.
Qed.

(** X10. [disconnect] never raises and sends nothing; calling it twice
    is the same as calling it once; and it concerns its own id only:
    every other id keeps its registration, its handle, and its place in
    every typing set. *)
Theorem disconnect_spares_others (u : string) (w : World) :
  fst (disconnect u w) = Ok tt
  /\ sent (after (disconnect u) w) = sent w
  /\ after (disconnect u) (after (disconnect u) w) = after (disconnect u) w
  /\ (forall v, v <> u ->
        Dict.get v (active_connections (manager (after (disconnect u) w)))
        = Dict.get v (active_connections (manager w))
        /\ is_online (manager (after (disconnect u) w)) v = is_online (manager w) v
        /\ forall k, is_typing_to (manager (after (disconnect u) w)) v k
                     <-> is_typing_to (manager w) v k).
Proof.
  split; [rewrite disconnect_returns; reflexivity|].
  split.
  { unfold after, disconnect, bind, get_manager.
    destruct (Dict.mem u (active_connections (manager w))); reflexivity. }
  split.
  { apply disconnect_absent. unfold after, is_online. rewrite disconnect_manager.
    destruct (Dict.mem u (active_connections (manager w))) eqn:E; [apply mem_del|exact E]. }
  intros v Hv. unfold after, is_online, is_typing_to. rewrite disconnect_manager.
  destruct (Dict.mem u (active_connections (manager w))) eqn:E.
  - cbn [active_connections typing_users].
    split; [apply get_del_other; exact Hv|].
    split; [apply mem_del_other; exact Hv|].
    intros k. rewrite lookup_fmap.
    destruct (typing_users (manager w) !! k) as [old|]; cbn [fmap option_fmap option_map].
    + split.
      * intros (x & Hx & Hin). injection Hx as <-. exists old. split; [reflexivity|].
        apply elem_of_difference in Hin as [Hin _]. exact Hin.
      * intros (x & Hx & Hin). injection Hx as <-. eexists. split; [reflexivity|].
        apply elem_of_difference. split; [exact Hin|].
        rewrite elem_of_singleton. exact Hv.
    + split; intros (x & Hx & _); discriminate.
  - split; [reflexivity|]. split; [reflexivity|]. intros k. reflexivity.
Qed.

(* ===================================================================== *)
(** * Further properties: the store behind the endpoints *)
(* ===================================================================== *)

Lemma NoDup_map_snoc {A B} (f : A -> B) (l : list A) (x : A) :
  NoDup (map f l) -> (forall y, In y l -> f y <> f x) -> NoDup (map f (l ++ [x])).
Proof.
  intros Hl Hx. rewrite map_app. apply NoDup_app. split; [exact Hl|]. split.
  - intros b Hb Hb'. apply list_elem_of_singleton in Hb'. subst b.
    apply list_elem_of_In, in_map_iff in Hb as (y & Hy & Hin).
    exact (Hx y Hin Hy).
  - apply NoDup_singleton.
Qed.

Lemma NoDup_map_filter {A B} (f : A -> B) (p : A -> bool) (l : list A) :
  NoDup (map f l) -> NoDup (map f (List.filter p l)).
Proof.
  induction l as [|a l IH]; simpl; [auto|].
  intros H. apply NoDup_cons in H as [Ha Hl].
  destruct (p a); simpl; [|auto].
  apply NoDup_cons. split; [|auto].
  intros Hin. apply Ha. apply list_elem_of_In. apply list_elem_of_In in Hin.
  apply in_map_iff in Hin as (y & Hy & Hin). apply filter_In in Hin as [Hin _].
  apply in_map_iff. eauto.
Qed.

Lemma existsb_false_In {A} (p : A -> bool) (l : list A) (y : A) :
  existsb p l = false -> In y l -> p y = false.
Proof.
  intros H Hin. destruct (p y) eqn:E; [|reflexivity].
  assert (existsb p l = true) by (apply existsb_exists; eauto). congruence.
Qed.

Lemma update_rows_keys (update : Api.UserUpdate) (t : string) (rows : list Store.user_row) :
  map Store.u_id (Api.update_rows update t rows) = map Store.u_id rows
  /\ map Store.u_telegram_id (Api.update_rows update t rows) = map Store.u_telegram_id rows
  /\ map Store.u_anonymous_id (Api.update_rows update t rows) = map Store.u_anonymous_id rows
  /\ map Store.u_created_at (Api.update_rows update t rows) = map Store.u_created_at rows.
Proof.
  unfold Api.update_rows. induction rows as [|u rows (H1 & H2 & H3 & H4)]; simpl; [auto|].
  rewrite H1, H2, H3, H4.
  destruct (Store.u_telegram_id u =? t)%string; auto.
Qed.

Lemma insert_user_ok (db db' : Store.Db) (row : Store.user_row) :
  store_ok db -> Api.insert_user db row = Some db' -> store_ok db'.
Proof.
  intros (H1 & H2 & H3 & H4 & H5). unfold Api.insert_user.
  destruct (existsb _ (Store.users db)) eqn:E; [discriminate|].
  intros Heq. injection Heq as <-. unfold store_ok. cbn [Store.users Store.contacts].
  assert (Hfresh : forall y, In y (Store.users db) ->
            Store.u_id y <> Store.u_id row
            /\ Store.u_telegram_id y <> Store.u_telegram_id row
            /\ Store.u_anonymous_id y <> Store.u_anonymous_id row).
  { intros y Hy. pose proof (existsb_false_In _ _ y E Hy) as Hp.
    apply orb_false_iff in Hp as [Hp Hc]. apply orb_false_iff in Hp as [Ha Hb].
    rewrite String.eqb_neq in Ha, Hb, Hc. auto. }
  repeat split; try assumption;
    apply NoDup_map_snoc; try assumption; intros y Hy; apply (Hfresh y Hy).
Qed.

Lemma insert_contact_ok (db db' : Store.Db) (row : Store.contact_row) :
  store_ok db -> Store.insert_contact db row = Some db' -> store_ok db'.
Proof.
  intros (H1 & H2 & H3 & H4 & H5). unfold Store.insert_contact.
  destruct (existsb _ (Store.contacts db)) eqn:E; [discriminate|].
  destruct (Store.contact_of db _ _) eqn:Ec; [discriminate|].
  intros Heq. injection Heq as <-. unfold store_ok. cbn [Store.users Store.contacts].
  repeat split; try assumption.
  - apply NoDup_map_snoc; [assumption|]. intros y Hy.
    pose proof (existsb_false_In _ _ y E Hy) as Hp. apply String.eqb_neq in Hp. exact Hp.
  - apply NoDup_map_snoc; [assumption|]. intros y Hy Heq.
    unfold Store.contact_of in Ec.
    pose proof (find_none _ _ Ec y Hy) as Hp. cbv beta in Hp.
    injection Heq as Ha Hb. rewrite Ha, Hb, !String.eqb_refl in Hp. discriminate.
Qed.

Lemma serve_ok (json_loads : string -> option json) (py_repr : json -> string)
      (token : string) (db : Store.Db) (r : Api.request) :
  store_ok db -> store_ok (Api.serve json_loads py_repr token db r).
Proof.
  intros Hok. destruct r as [t qsl nl nu draws|t update|t a nl nu|t a]; simpl.
  - unfold Api.auth_telegram.
    destruct (Api.resolve_telegram_id _ _ _ _ _) as [tid| | | |]; try exact Hok.
    destruct (tid =? "")%string; [exact Hok|].
    destruct (Store.user_by_telegram_id db tid); [exact Hok|].
    destruct (Api.generate_anonymous_id db draws); [|exact Hok]. cbv zeta.
    destruct (Api.insert_user db _) as [db'|] eqn:E; [|exact Hok].
    cbn [snd]. exact (insert_user_ok _ _ _ Hok E).
  - unfold Api.update_user.
    destruct (Store.user_by_telegram_id db t); [|exact Hok]. cbv zeta.
    assert (Hok' : store_ok (if Api.has_updates update
                             then {| Store.users := Api.update_rows update t (Store.users db);
                                     Store.contacts := Store.contacts db |}
                             else db)).
    { destruct (Api.has_updates update); [|exact Hok].
      destruct Hok as (H1 & H2 & H3 & H4 & H5).
      destruct (update_rows_keys update t (Store.users db)) as (K1 & K2 & K3 & _).
      unfold store_ok. cbn [Store.users Store.contacts]. rewrite K1, K2, K3. auto. }
    destruct (Store.user_by_telegram_id _ t); exact Hok'.
  - unfold Store.add_contact.
    destruct (Store.user_by_telegram_id db t) as [u|]; [|exact Hok].
    destruct (Store.user_by_anonymous_id db a); [|exact Hok].
    destruct (Store.u_anonymous_id u =? a)%string; [exact Hok|].
    destruct (Store.contact_of db (Store.u_id u) a); [exact Hok|].
    destruct (Store.insert_contact db _) as [db'|] eqn:E; [|exact Hok].
    cbn [snd]. exact (insert_contact_ok _ _ _ Hok E).
  - unfold Api.remove_contact.
    destruct (Store.user_by_telegram_id db t) as [u|]; [|exact Hok].
    destruct Hok as (H1 & H2 & H3 & H4 & H5).
    unfold store_ok. cbn [snd Store.users Store.contacts].
    repeat split; try assumption; apply NoDup_map_filter; assumption.
Qed.

(** X11. Whatever sequence of sign-ins, profile updates, contact
    additions and contact removals is served from the empty store, the
    tables satisfy the constraints of the schema: user ids, telegram ids
    and anonymous ids are unique among users, contact ids are unique,
    and no user holds the same contact twice. *)
Theorem store_constraints_hold (json_loads : string -> option json)
        (py_repr : json -> string) (token : string) (rs : list Api.request) :
  store_ok (Api.serve_all json_loads py_repr token Api.empty_db rs).
Proof.
  assert (Hgen : forall db, store_ok db ->
                   store_ok (Api.serve_all json_loads py_repr token db rs)).
  { induction rs as [|r rs IH]; intros db Hdb; simpl; [exact Hdb|].
    apply IH. apply serve_ok. exact Hdb. }
  apply Hgen. unfold store_ok, Api.empty_db. simpl. repeat split; constructor.
Qed.

(** ** Signing in *)

Lemma resolve_supplied (json_loads : string -> option json) (py_repr : json -> string)
      (token t : string) (qsl : list (string * string)) :
  t <> EmptyString ->
  Api.resolve_telegram_id json_loads py_repr token (Some t) qsl = Api.Returns t.
Proof.
  intros Ht. unfold Api.resolve_telegram_id. rewrite (eqb_empty_false _ Ht). reflexivity.
Qed.

Lemma resolve_empty (json_loads : string -> option json) (py_repr : json -> string)
      (token : string) (qsl : list (string * string)) :
  Api.resolve_telegram_id json_loads py_repr token (Some EmptyString) qsl
  = Api.resolve_telegram_id json_loads py_repr token None qsl.
Proof. reflexivity. Qed.

Lemma auth_of_resolved (json_loads : string -> option json) (py_repr : json -> string)
      (token : string) (db : Store.Db) (body : option string) (t : string)
      (qsl : list (string * string)) (nl nu : string) (draws : list Z) :
  Api.resolve_telegram_id json_loads py_repr token body qsl = Api.Returns t ->
  Api.auth_telegram json_loads py_repr token db body qsl nl nu draws
  = Api.auth_telegram json_loads py_repr token db (Some t) qsl nl nu draws.
Proof.
  intros Hr. unfold Api.auth_telegram. rewrite Hr.
  destruct (t =? "")%string eqn:E.
  - apply String.eqb_eq in E. subst t. rewrite resolve_empty.
    destruct body as [b|].
    + unfold Api.resolve_telegram_id in Hr.
      destruct (negb (b =? "")%string) eqn:Eb.
      * injection Hr as ->. discriminate.
      * fold (Api.resolve_telegram_id json_loads py_repr token None qsl) in Hr.
        rewrite Hr. reflexivity.
    + rewrite Hr. reflexivity.
  - apply String.eqb_neq in E. rewrite (resolve_supplied _ _ _ _ _ E).
    apply String.eqb_neq in E. rewrite E. reflexivity.
Qed.

Lemma user_found_has_telegram_id (db : Store.Db) (t : string) (u : Store.user_row) :
  Store.user_by_telegram_id db t = Some u -> Store.u_telegram_id u = t.
Proof.
  unfold Store.user_by_telegram_id. intros H. apply find_some in H as [_ H].
  apply String.eqb_eq. exact H.
Qed.

(** X12. A request that carries a non-empty [telegram_id] is never
    checked against the init data: the answer and the store are the same
    whatever the init data, the bot token and the JSON decoder are, and
    when a user with that telegram id exists it is that user's record,
    with the store untouched. *)
Theorem supplied_telegram_id_skips_validation
        (json_loads json_loads' : string -> option json) (py_repr py_repr' : json -> string)
        (token token' : string) (db : Store.Db) (t : string)
        (qsl qsl' : list (string * string)) (nl nu : string) (draws : list Z) :
  t <> EmptyString ->
  Api.auth_telegram json_loads py_repr token db (Some t) qsl nl nu draws
  = Api.auth_telegram json_loads' py_repr' token' db (Some t) qsl' nl nu draws
  /\ (forall u, Store.user_by_telegram_id db t = Some u ->
        Api.auth_telegram json_loads py_repr token db (Some t) qsl nl nu draws
        = (Api.Returns u, db)).
Proof.
  intros Ht. unfold Api.auth_telegram.
  rewrite !(resolve_supplied _ _ _ _ _ Ht), (eqb_empty_false _ Ht).
  split; [reflexivity|]. intros u Hu. rewrite Hu. reflexivity.
Qed.

(** X13. When [auth_telegram] returns a user record, that record is in
    the store under its telegram id, [get_current_user] returns it, and
    signing in again with the same request returns the same record
    without touching the store, whatever the clock and the random draws
    are then.  The store is either unchanged (the user existed) or has
    gained exactly this record as its last row: a record without profile
    fields, with notifications on, under a telegram id and an anonymous
    id no user had. *)
Theorem sign_in_round_trip (json_loads : string -> option json) (py_repr : json -> string)
        (token : string) (db db' : Store.Db) (body : option string)
        (qsl : list (string * string)) (nl nu : string) (draws : list Z)
        (u : Store.user_row) :
  Api.auth_telegram json_loads py_repr token db body qsl nl nu draws = (Api.Returns u, db') ->
  Store.user_by_telegram_id db' (Store.u_telegram_id u) = Some u
  /\ Api.get_current_user db' (Store.u_telegram_id u) = Api.Returns u
  /\ (forall nl' nu' draws',
        Api.auth_telegram json_loads py_repr token db' body qsl nl' nu' draws'
        = (Api.Returns u, db'))
  /\ (db' = db
      \/ (db' = {| Store.users := Store.users db ++ [u];
                   Store.contacts := Store.contacts db |}
          /\ Store.user_by_telegram_id db (Store.u_telegram_id u) = None
          /\ Store.user_by_anonymous_id db (Store.u_anonymous_id u) = None
          /\ Store.u_name u = None /\ Store.u_status u = None
          /\ Store.u_gender u = None /\ Store.u_avatar_url u = None
          /\ Store.u_notifications_enabled u = true
          /\ Store.u_created_at u = nu)).
Proof.
  intros Hauth.
  assert (Hcore : exists t,
            Api.resolve_telegram_id json_loads py_repr token body qsl = Api.Returns t
            /\ t <> EmptyString /\ Store.u_telegram_id u = t
            /\ Store.user_by_telegram_id db' t = Some u
            /\ (db' = db
                \/ (db' = {| Store.users := Store.users db ++ [u];
                             Store.contacts := Store.contacts db |}
                    /\ Store.user_by_telegram_id db t = None
                    /\ Store.user_by_anonymous_id db (Store.u_anonymous_id u) = None
                    /\ Store.u_name u = None /\ Store.u_status u = None
                    /\ Store.u_gender u = None /\ Store.u_avatar_url u = None
                    /\ Store.u_notifications_enabled u = true
                    /\ Store.u_created_at u = nu))).
  { unfold Api.auth_telegram in Hauth.
    destruct (Api.resolve_telegram_id _ _ _ _ _) as [t| | | |]; try discriminate.
    exists t. split; [reflexivity|].
    destruct (t =? "")%string eqn:Et; [discriminate|]. apply String.eqb_neq in Et.
    split; [exact Et|].
    destruct (Store.user_by_telegram_id db t) as [user|] eqn:Hu.
    - injection Hauth as -> ->.
      split; [exact (user_found_has_telegram_id _ _ _ Hu)|]. split; [exact Hu|]. left. reflexivity.
    - destruct (Api.generate_anonymous_id db draws) as [anon|] eqn:Hg; [|discriminate].
      cbv zeta in Hauth. unfold Api.insert_user in Hauth.
      destruct (existsb _ (Store.users db)); [discriminate|].
      injection Hauth as <- <-. cbn [Api.new_user Store.u_telegram_id Store.u_anonymous_id
        Store.u_name Store.u_status Store.u_gender Store.u_avatar_url
        Store.u_notifications_enabled Store.u_created_at].
      split; [reflexivity|]. split.
      + unfold Store.user_by_telegram_id in *. cbn [Store.users].
        rewrite find_snoc, Hu. cbn [Api.new_user Store.u_telegram_id].
        rewrite String.eqb_refl. reflexivity.
      + right. repeat split; try reflexivity.
        clear - Hg. induction draws as [|n draws IH]; [discriminate|].
        simpl in Hg.
        destruct (Store.user_by_anonymous_id db (PyStr.str_int n)) eqn:E; [auto|].
        injection Hg as <-. exact E. }
  destruct Hcore as (t & Hr & Ht & Htu & Hfound & Hshape).
  rewrite Htu. split; [exact Hfound|].
  split; [unfold Api.get_current_user; rewrite Hfound; reflexivity|].
  split.
  - intros nl' nu' draws'. unfold Api.auth_telegram.
    rewrite Hr, (eqb_empty_false _ Ht), Hfound. reflexivity.
  - exact Hshape.
Qed.


(** X15. With no bot token configured, a request without a (non-empty)
    [telegram_id] is signed in as the user whose telegram id is
    ["test_user"], whatever init data it carries. *)
Theorem no_token_signs_in_test_user
        (json_loads : string -> option json) (py_repr : json -> string)
        (db : Store.Db) (qsl : list (string * string)) (nl nu : string) (draws : list Z) :
  Api.auth_telegram json_loads py_repr "" db None qsl nl nu draws
  = Api.auth_telegram json_loads py_repr "" db (Some "test_user") qsl nl nu draws
  /\ Api.auth_telegram json_loads py_repr "" db (Some "") qsl nl nu draws
     = Api.auth_telegram json_loads py_repr "" db (Some "test_user") qsl nl nu draws
  /\ (forall u, Store.user_by_telegram_id db "test_user" = Some u ->
        Api.auth_telegram json_loads py_repr "" db None qsl nl nu draws = (Api.Returns u, db)).
Proof.
  assert (H : Api.resolve_telegram_id json_loads py_repr "" None qsl = Api.Returns "test_user")
    by reflexivity.
  split; [exact (auth_of_resolved _ _ _ _ _ _ _ _ _ _ H)|].
  split; [exact (auth_of_resolved json_loads py_repr "" db (Some "") "test_user" qsl nl nu draws H)|].
  intros u Hu. unfold Api.auth_telegram. rewrite H. cbn [String.eqb Ascii.eqb Bool.eqb].
  change ("test_user" =? "")%string with false. cbv iota. rewrite Hu. reflexivity.
Qed.

(** X16. The telegram id of validated init data is the printed form of
    the [id] field of their [user] object: the decimal digits of a
    number, the string itself, and ["None"] when the object has no [id],
    so that every validated payload without a user id signs in as one
    and the same user. *)
Theorem validated_user_id_is_printed
        (json_loads : string -> option json) (py_repr : json -> string)
        (token : string) (db : Store.Db) (qsl : list (string * string))
        (fields : list (string * json)) (nl nu : string) (draws : list Z) :
  Telegram.validate_telegram_data json_loads token qsl = Some (JObj [("user", JObj fields)]) ->
  Api.auth_telegram json_loads py_repr token db None qsl nl nu draws
  = Api.auth_telegram json_loads py_repr token db
      (Some (PyStr.py_str py_repr (get_or fields "id" JNull))) qsl nl nu draws
  /\ (items_get "id" fields = None ->
      Api.auth_telegram json_loads py_repr token db None qsl nl nu draws
      = Api.auth_telegram json_loads py_repr token db (Some "None") qsl nl nu draws)
  /\ (forall n, items_get "id" fields = Some (JNum n) ->
      Api.auth_telegram json_loads py_repr token db None qsl nl nu draws
      = Api.auth_telegram json_loads py_repr token db (Some (PyStr.str_int n)) qsl nl nu draws).
Proof.
  intros Hv.
  assert (H : Api.resolve_telegram_id json_loads py_repr token None qsl
              = Api.Returns (PyStr.py_str py_repr (get_or fields "id" JNull))).
  { unfold Api.resolve_telegram_id. rewrite Hv. reflexivity. }
  pose proof (auth_of_resolved json_loads py_repr token db None _ qsl nl nu draws H) as Ha.
  split; [exact Ha|]. split.
  - intros Hid. rewrite Ha. unfold get_or. rewrite Hid. reflexivity.
  - intros n Hid. rewrite Ha. unfold get_or. rewrite Hid. reflexivity.
Qed.

(** ** Anonymous ids *)

Lemma digit_char_is_digit (d : Z) : (0 <= d < 10)%Z -> is_digit (PyStr.digit_char d) = true.
Proof.
  intros Hd. unfold is_digit, PyStr.digit_char.
  rewrite N_ascii_embedding by lia.
  apply andb_true_iff. split; apply N.leb_le; lia.
Qed.

Lemma str_digits_all_digits (fuel : nat) (n : Z) (acc : string) :
  all_digits acc = true -> all_digits (PyStr.str_digits fuel n acc) = true.
Proof.
  revert n acc. induction fuel as [|fuel IH]; intros n acc Hacc; simpl; [exact Hacc|].
  assert (Hacc' : all_digits (String (PyStr.digit_char (n mod 10)) acc) = true).
  { simpl. rewrite Hacc, digit_char_is_digit; [reflexivity|].
    apply Z.mod_pos_bound. lia. }
  destruct (n <? 10)%Z; [exact Hacc'|apply IH; exact Hacc'].
Qed.

Lemma str_digits_length (k fuel : nat) (n : Z) (acc : string) :
  (k < fuel)%nat ->
  (10 ^ Z.of_nat k <= n < 10 ^ Z.of_nat (S k))%Z ->
  String.length (PyStr.str_digits fuel n acc) = (k + 1 + String.length acc)%nat.
Proof.
  revert fuel n acc. induction k as [|k IH]; intros fuel n acc Hf Hn.
  - destruct fuel as [|fuel]; [lia|]. simpl in *.
    destruct (n <? 10)%Z eqn:E; [reflexivity|]. apply Z.ltb_ge in E. lia.
  - destruct fuel as [|fuel]; [lia|].
    rewrite !Nat2Z.inj_succ, !Z.pow_succ_r in Hn by lia.
    assert (Hpos : (0 < 10 ^ Z.of_nat k)%Z) by (apply Z.pow_pos_nonneg; lia).
    cbn [PyStr.str_digits].
    destruct (n <? 10)%Z eqn:E; [apply Z.ltb_lt in E; lia|].
    rewrite (IH fuel (n / 10)%Z); [simpl; lia|lia|].
    rewrite Nat2Z.inj_succ, Z.pow_succ_r by lia. split.
    + apply Z.div_le_lower_bound; lia.
    + apply Z.div_lt_upper_bound; lia.
Qed.

Lemma str_int_seven_digits (n : Z) :
  (1000000 <= n <= 9999999)%Z ->
  String.length (PyStr.str_int n) = 7%nat /\ all_digits (PyStr.str_int n) = true.
Proof.
  intros Hn. unfold PyStr.str_int.
  destruct (n <? 0)%Z eqn:E; [apply Z.ltb_lt in E; lia|].
  split; [|apply str_digits_all_digits; reflexivity].
  rewrite (str_digits_length 6); [reflexivity| |simpl; lia].
  assert (6 <= Z.log2 n)%Z.
  { change 6%Z with (Z.log2 64). apply Z.log2_le_mono. lia. }
  lia.
Qed.

(** X17. [generate_anonymous_id] returns the first draw whose decimal
    form is not yet the anonymous id of a user, every draw before it
    being taken; it keeps drawing exactly as long as every draw is
    taken; and with draws between 1000000 and 9999999 the id it returns
    is a string of seven decimal digits. *)
Theorem anonymous_id_is_fresh (db : Store.Db) (draws : list Z) :
  (forall id, Api.generate_anonymous_id db draws = Some id ->
     Store.user_by_anonymous_id db id = None
     /\ exists taken n later,
          draws = taken ++ n :: later /\ id = PyStr.str_int n
          /\ forall m, In m taken ->
               is_Some (Store.user_by_anonymous_id db (PyStr.str_int m)))
  /\ (Api.generate_anonymous_id db draws = None
      <-> forall m, In m draws -> is_Some (Store.user_by_anonymous_id db (PyStr.str_int m)))
  /\ (forall id, Api.generate_anonymous_id db draws = Some id ->
        (forall m, In m draws -> (1000000 <= m <= 9999999)%Z) ->
        String.length id = 7%nat /\ all_digits id = true).
Proof.
  assert (H1 : forall id, Api.generate_anonymous_id db draws = Some id ->
     Store.user_by_anonymous_id db id = None
     /\ exists taken n later,
          draws = taken ++ n :: later /\ id = PyStr.str_int n
          /\ forall m, In m taken ->
               is_Some (Store.user_by_anonymous_id db (PyStr.str_int m))).
  { induction draws as [|n draws IH]; intros id Hg; [discriminate|].
    simpl in Hg.
    destruct (Store.user_by_anonymous_id db (PyStr.str_int n)) as [x|] eqn:E.
    - destruct (IH id Hg) as (Hf & taken & n' & later & -> & Hid & Htaken).
      split; [exact Hf|]. exists (n :: taken), n', later.
      split; [reflexivity|]. split; [exact Hid|].
      intros m [<-|Hm]; [rewrite E; eauto|auto].
    - injection Hg as <-. split; [exact E|].
      exists [], n, draws. split; [reflexivity|]. split; [reflexivity|].
      intros m []. }
  split; [exact H1|]. split.
  - clear H1. induction draws as [|n draws IH]; simpl.
    + split; [intros _ m []|reflexivity].
    + destruct (Store.user_by_anonymous_id db (PyStr.str_int n)) as [x|] eqn:E.
      * rewrite IH. split.
        -- intros H m [<-|Hm]; [rewrite E; eauto|auto].
        -- intros H m Hm. apply H. right. exact Hm.
      * split; [discriminate|]. intros H.
        destruct (H n (or_introl eq_refl)) as [x Hx]. congruence.
  - intros id Hg Hrange.
    destruct (H1 id Hg) as (_ & taken & n & later & -> & -> & _).
    apply str_int_seven_digits. apply Hrange. apply in_or_app. right. left. reflexivity.
Qed.

(** ** Profile updates *)

Lemma apply_no_update (update : Api.UserUpdate) (u : Store.user_row) :
  Api.has_updates update = false -> Api.apply_update update u = u.
Proof.
  destruct update as [[?|] [?|] [?|] [?|] [?|]]; try discriminate.
  intros _. destruct u. reflexivity.
Qed.

Lemma apply_update_idem (update : Api.UserUpdate) (u : Store.user_row) :
  Api.apply_update update (Api.apply_update update u) = Api.apply_update update u.
Proof. destruct update as [[?|] [?|] [?|] [?|] [?|]]; reflexivity. Qed.

Lemma update_rows_idem (update : Api.UserUpdate) (t : string) (rows : list Store.user_row) :
  Api.update_rows update t (Api.update_rows update t rows) = Api.update_rows update t rows.
Proof.
  unfold Api.update_rows. induction rows as [|u rows IH]; simpl; [reflexivity|].
  rewrite IH. f_equal.
  destruct (Store.u_telegram_id u =? t)%string eqn:E; [|rewrite E; reflexivity].
  cbn [Api.apply_update Store.u_telegram_id]. rewrite E. apply apply_update_idem.
Qed.

Lemma find_update_rows (update : Api.UserUpdate) (t : string) (rows : list Store.user_row) :
  find (fun u => (Store.u_telegram_id u =? t)%string) (Api.update_rows update t rows)
  = option_map (Api.apply_update update)
               (find (fun u => (Store.u_telegram_id u =? t)%string) rows).
Proof.
  unfold Api.update_rows. induction rows as [|u rows IH]; simpl; [reflexivity|].
  destruct (Store.u_telegram_id u =? t)%string eqn:E.
  - cbn [Api.apply_update Store.u_telegram_id]. rewrite E. reflexivity.
  - rewrite E. exact IH.
Qed.

Lemma update_user_eval (db : Store.Db) (t : string) (update : Api.UserUpdate)
      (u : Store.user_row) :
  Store.user_by_telegram_id db t = Some u ->
  Api.update_user db t update
  = (Api.Returns (Api.apply_update update u),
     {| Store.users := Api.update_rows update t (Store.users db);
        Store.contacts := Store.contacts db |})
  /\ (Api.has_updates update = false -> Api.update_user db t update = (Api.Returns u, db)).
Proof.
  intros Hu. unfold Api.update_user. rewrite Hu. cbv zeta.
  destruct (Api.has_updates update) eqn:Eh.
  - split; [|discriminate].
    unfold Store.user_by_telegram_id in *. cbn [Store.users].
    rewrite find_update_rows, Hu. reflexivity.
  - assert (Hrows : Api.update_rows update t (Store.users db) = Store.users db).
    { unfold Api.update_rows. induction (Store.users db) as [|v rows IH]; simpl; [reflexivity|].
      rewrite IH, (apply_no_update update v Eh).
      destruct (Store.u_telegram_id v =? t)%string; reflexivity. }
    rewrite Hu, Hrows, (apply_no_update update u Eh). destruct db. split; reflexivity.
Qed.

(** X18. [update_user] answers 404 and changes nothing when no user has
    the telegram id.  Otherwise it returns the user's record in which
    each supplied field has its new value and every other field its old
    one: id, telegram id, anonymous id and creation time never change, a
    field cannot be set back to null, and an update that supplies nothing
    returns the record as it is, the store untouched.  In the store, no
    row is added or removed, rows of other telegram ids are untouched,
    and so is the contacts table. *)
Theorem update_changes_only_supplied_fields (db : Store.Db) (t : string)
        (update : Api.UserUpdate) :
  (Store.user_by_telegram_id db t = None ->
   Api.update_user db t update = (Api.HTTPException 404 "User not found", db))
  /\ (forall u, Store.user_by_telegram_id db t = Some u ->
        exists u',
          fst (Api.update_user db t update) = Api.Returns u'
          /\ Store.user_by_telegram_id (snd (Api.update_user db t update)) t = Some u'
          /\ Store.u_id u' = Store.u_id u
          /\ Store.u_telegram_id u' = Store.u_telegram_id u
          /\ Store.u_anonymous_id u' = Store.u_anonymous_id u
          /\ Store.u_created_at u' = Store.u_created_at u
          /\ Store.u_name u'
             = match Api.upd_name update with Some x => Some x | None => Store.u_name u end
          /\ Store.u_status u'
             = match Api.upd_status update with Some x => Some x | None => Store.u_status u end
          /\ Store.u_gender u'
             = match Api.upd_gender update with Some x => Some x | None => Store.u_gender u end
          /\ Store.u_avatar_url u'
             = match Api.upd_avatar_url update with
               | Some x => Some x
               | None => Store.u_avatar_url u
               end
          /\ Store.u_notifications_enabled u'
             = match Api.upd_notifications_enabled update with
               | Some b => b
               | None => Store.u_notifications_enabled u
               end
          /\ (is_Some (Store.u_name u) -> is_Some (Store.u_name u'))
          /\ (Api.has_updates update = false -> Api.update_user db t update = (Api.Returns u, db)))
  /\ Store.contacts (snd (Api.update_user db t update)) = Store.contacts db
  /\ length (Store.users (snd (Api.update_user db t update))) = length (Store.users db)
  /\ (forall i v, nth_error (Store.users db) i = Some v ->
        Store.u_telegram_id v <> t ->
        nth_error (Store.users (snd (Api.update_user db t update))) i = Some v).
Proof.
  destruct (Store.user_by_telegram_id db t) as [u|] eqn:Hu.
  - destruct (update_user_eval db t update u Hu) as [He Hnone].
    rewrite He. cbn [fst snd Store.users Store.contacts].
    split; [discriminate|]. split; [|split; [reflexivity|split]].
    + intros u0 Hu0. injection Hu0 as <-. exists (Api.apply_update update u).
      split; [reflexivity|]. split.
      { unfold Store.user_by_telegram_id in *. cbn [Store.users].
        rewrite find_update_rows, Hu. reflexivity. }
      repeat (split; [reflexivity|]).
      split; [|rewrite <- He; exact Hnone].
      cbn [Api.apply_update Store.u_name]. intros [x Hx].
      destruct (Api.upd_name update); eauto.
    + unfold Api.update_rows. apply length_map.
    + intros i v Hv Hne. unfold Api.update_rows.
      rewrite nth_error_map, Hv. cbn [option_map].
      apply String.eqb_neq in Hne. rewrite Hne. reflexivity.
  - unfold Api.update_user. rewrite Hu. cbn [fst snd].
    split; [reflexivity|]. split; [discriminate|]. split; [reflexivity|].
    split; [reflexivity|]. intros i v Hv _. exact Hv.
Qed.

(** X19. [update_user] is idempotent: sending the same update again
    returns the same record and leaves the store as the first call left
    it. *)
Theorem update_is_idempotent (db : Store.Db) (t : string) (update : Api.UserUpdate) :
  Api.update_user (snd (Api.update_user db t update)) t update = Api.update_user db t update.
Proof.
  destruct (Store.user_by_telegram_id db t) as [u|] eqn:Hu.
  - destruct (update_user_eval db t update u Hu) as [He _]. rewrite He. cbn [snd].
    assert (Hu' : Store.user_by_telegram_id
                    {| Store.users := Api.update_rows update t (Store.users db);
                       Store.contacts := Store.contacts db |} t
                  = Some (Api.apply_update update u)).
    { unfold Store.user_by_telegram_id in *. cbn [Store.users].
      rewrite find_update_rows, Hu. reflexivity. }
    destruct (update_user_eval _ t update _ Hu') as [He' _]. rewrite He'.
    cbn [Store.users Store.contacts]. rewrite update_rows_idem, apply_update_idem. reflexivity.
  - unfold Api.update_user at 2. rewrite Hu. cbn [snd].
    unfold Api.update_user. rewrite Hu. reflexivity.
Qed.

(** ** Removing and listing contacts *)

Lemma find_filter_out {A} (p : A -> bool) (l : list A) :
  find p (List.filter (fun x => negb (p x)) l) = None.
Proof.
  induction l as [|a l IH]; simpl; [reflexivity|].
  destruct (p a) eqn:E; simpl; [exact IH|]. rewrite E. exact IH.
Qed.

Lemma find_filter_other {A} (p q : A -> bool) (l : list A) :
  (forall x, q x = true -> p x = false) ->
  find q (List.filter (fun x => negb (p x)) l) = find q l.
Proof.
  intros H. induction l as [|a l IH]; simpl; [reflexivity|].
  destruct (q a) eqn:Eq.
  - rewrite (H a Eq). simpl. rewrite Eq. reflexivity.
  - destruct (p a); simpl; [exact IH|]. rewrite Eq. exact IH.
Qed.

Lemma filter_none_out {A} (p : A -> bool) (l : list A) :
  find p l = None -> List.filter (fun x => negb (p x)) l = l.
Proof.
  induction l as [|a l IH]; simpl; [reflexivity|].
  destruct (p a); [discriminate|]. intros H. simpl. f_equal. exact (IH H).
Qed.

Lemma filter_snoc_out {A} (p : A -> bool) (l : list A) (x : A) :
  find p l = None -> p x = true -> List.filter (fun y => negb (p y)) (l ++ [x]) = l.
Proof.
  intros Hl Hx. rewrite List.filter_app, (filter_none_out p l Hl). simpl. rewrite Hx. simpl.
  apply app_nil_r.
Qed.

(** X20. [remove_contact] answers 404 and changes nothing when the
    caller is unknown.  For a known caller it always answers "Contact
    removed", also when there was no such contact, in which case the
    store is unchanged; afterwards the caller does not hold the contact,
    every other (user, contact) pair is as before, the users table is
    untouched, and a second removal changes nothing more. *)
Theorem remove_contact_removes_one_pair (db : Store.Db) (t target : string) :
  (Store.user_by_telegram_id db t = None ->
   Api.remove_contact db t target = (Api.HTTPException 404 "User not found", db))
  /\ (forall u, Store.user_by_telegram_id db t = Some u ->
        fst (Api.remove_contact db t target) = Api.Returns "Contact removed"
        /\ Store.users (snd (Api.remove_contact db t target)) = Store.users db
        /\ Store.contact_of (snd (Api.remove_contact db t target)) (Store.u_id u) target = None
        /\ (forall uid c, uid <> Store.u_id u \/ c <> target ->
              Store.contact_of (snd (Api.remove_contact db t target)) uid c
              = Store.contact_of db uid c)
        /\ (Store.contact_of db (Store.u_id u) target = None ->
            snd (Api.remove_contact db t target) = db)
        /\ Api.remove_contact (snd (Api.remove_contact db t target)) t target
           = Api.remove_contact db t target).
Proof.
  unfold Api.remove_contact.
  destruct (Store.user_by_telegram_id db t) as [u|] eqn:Hu.
  - split; [discriminate|]. intros u0 Hu0. injection Hu0 as <-.
    cbn [fst snd Store.users Store.contacts].
    split; [reflexivity|]. split; [reflexivity|].
    unfold Store.contact_of. cbn [Store.contacts].
    split; [apply (find_filter_out (Api.is_contact (Store.u_id u) target))|].
    split; [|split].
    + intros uid c Hne.
      apply (find_filter_other (Api.is_contact (Store.u_id u) target)
                               (Api.is_contact uid c)).
      intros x Hx. unfold Api.is_contact in *.
      apply andb_true_iff in Hx as [Ha Hb]. apply String.eqb_eq in Ha, Hb.
      apply andb_false_iff. rewrite !String.eqb_neq.
      destruct Hne as [Hne|Hne]; [left|right]; congruence.
    + intros Hnone.
      rewrite (filter_none_out (Api.is_contact (Store.u_id u) target) _ Hnone).
      destruct db. reflexivity.
    + unfold Store.user_by_telegram_id in *. cbn [Store.users]. rewrite Hu.
      cbn [Store.users Store.contacts]. f_equal. f_equal.
      apply (filter_none_out (Api.is_contact (Store.u_id u) target)).
      apply (find_filter_out (Api.is_contact (Store.u_id u) target)).
  - split; [reflexivity|]. discriminate.
Qed.

(** X21. Removing a contact right after adding it gives back the store
    as it was before the addition; and after a removal, adding the
    contact is no longer refused as a duplicate. *)
Theorem add_then_remove_restores (db : Store.Db) (t target nl nu : string) :
  (forall contact_id db1,
      Store.add_contact db t target nl nu = (Store.Contact_added contact_id, db1) ->
      Api.remove_contact db1 t target = (Api.Returns "Contact removed", db))
  /\ fst (Store.add_contact (snd (Api.remove_contact db t target)) t target nl nu)
     <> Store.HTTPException 400 "Contact already added".
Proof.
  split.
  - intros contact_id db1. unfold Store.add_contact.
    destruct (Store.user_by_telegram_id db t) as [u|] eqn:Hu; [|discriminate].
    destruct (Store.user_by_anonymous_id db target); [|discriminate].
    destruct (Store.u_anonymous_id u =? target)%string; [discriminate|].
    destruct (Store.contact_of db (Store.u_id u) target) eqn:Hc; [discriminate|].
    unfold Store.insert_contact.
    destruct (existsb _ (Store.contacts db)); [discriminate|].
    cbn [Store.c_user_id Store.c_contact_anonymous_id]. rewrite Hc.
    intros Heq. injection Heq as _ <-.
    unfold Api.remove_contact, Store.user_by_telegram_id in *. cbn [Store.users].
    rewrite Hu. cbn [Store.users Store.contacts]. f_equal.
    rewrite (filter_snoc_out (Api.is_contact (Store.u_id u) target)).
    + destruct db. reflexivity.
    + exact Hc.
    + unfold Api.is_contact. cbn [Store.c_user_id Store.c_contact_anonymous_id].
      rewrite !String.eqb_refl. reflexivity.
  - unfold Api.remove_contact.
    destruct (Store.user_by_telegram_id db t) as [u|] eqn:Hu; cbn [snd].
    + unfold Store.add_contact, Store.user_by_telegram_id, Store.user_by_anonymous_id in *.
      cbn [Store.users]. rewrite Hu.
      destruct (find (fun v => (Store.u_anonymous_id v =? target)%string) (Store.users db));
        [|cbn [fst]; discriminate].
      destruct (Store.u_anonymous_id u =? target)%string; [cbn [fst]; discriminate|].
      unfold Store.contact_of at 1. cbn [Store.contacts].
      rewrite (find_filter_out (Api.is_contact (Store.u_id u) target)).
      destruct (Store.insert_contact _ _); cbn [fst]; discriminate.
    + unfold Store.add_contact. rewrite Hu. cbn [fst]. discriminate.
Qed.

Lemma insert_by_added_at_perm (x : Store.contact_row * option Store.user_row)
      (l : list (Store.contact_row * option Store.user_row)) :
  Permutation (Api.insert_by_added_at x l) (x :: l).
Proof.
  induction l as [|y l IH]; simpl; [apply Permutation_refl|].
  destruct (String.compare _ _); try apply Permutation_refl.
  eapply perm_trans; [apply perm_skip; exact IH|apply perm_swap].
Qed.

Lemma order_by_added_at_perm (l : list (Store.contact_row * option Store.user_row)) :
  Permutation (Api.order_by_added_at_desc l) l.
Proof.
  unfold Api.order_by_added_at_desc. induction l as [|x l IH]; simpl; [constructor|].
  eapply perm_trans; [apply insert_by_added_at_perm|apply perm_skip; exact IH].
Qed.

Lemma insert_by_added_at_sorted (x : Store.contact_row * option Store.user_row)
      (l : list (Store.contact_row * option Store.user_row)) :
  newest_first (map (fun r => Store.c_added_at (fst r)) l) ->
  newest_first (map (fun r => Store.c_added_at (fst r)) (Api.insert_by_added_at x l)).
Proof.
  unfold newest_first. induction l as [|y l IH]; simpl; intros Hs.
  - constructor; constructor.
  - destruct (String.compare (Store.c_added_at (fst y)) (Store.c_added_at (fst x))) eqn:E.
    + simpl. constructor; [exact Hs|]. constructor.
      rewrite String.compare_antisym, E. discriminate.
    + simpl. constructor; [exact Hs|]. constructor.
      rewrite String.compare_antisym, E. discriminate.
    + simpl. inversion Hs as [|a b Hs' Hhd]; subst.
      constructor; [apply IH; exact Hs'|].
      destruct l as [|z l]; simpl.
      * constructor. rewrite E. discriminate.
      * destruct (String.compare (Store.c_added_at (fst z)) (Store.c_added_at (fst x)));
          simpl; constructor; try (rewrite E; discriminate);
          inversion Hhd; assumption.
Qed.

Lemma order_by_added_at_sorted (l : list (Store.contact_row * option Store.user_row)) :
  newest_first (map (fun r => Store.c_added_at (fst r)) (Api.order_by_added_at_desc l)).
Proof.
  unfold Api.order_by_added_at_desc. induction l as [|x l IH]; simpl.
  - constructor.
  - apply insert_by_added_at_sorted. exact IH.
Qed.

Lemma join_users_rows (db : Store.Db) (c : Store.contact_row)
      (r : Store.contact_row * option Store.user_row) :
  In r (Api.join_users db c) -> fst r = c.
Proof.
  unfold Api.join_users. destruct (List.filter _ (Store.users db)) as [|u us].
  - intros [<-|[]]. reflexivity.
  - intros Hin. apply in_map_iff in Hin as (v & <- & _). reflexivity.
Qed.

Lemma join_users_nonempty (db : Store.Db) (c : Store.contact_row) :
  exists r, In r (Api.join_users db c).
Proof.
  unfold Api.join_users. destruct (List.filter _ (Store.users db)) as [|u us].
  - eexists. left. reflexivity.
  - eexists. left. reflexivity.
Qed.

Lemma filter_unique_key {A} (f : A -> string) (k : string) (l : list A) :
  NoDup (map f l) -> (length (List.filter (fun x => (k =? f x)%string) l) <= 1)%nat.
Proof.
  induction l as [|a l IH]; simpl; [lia|].
  intros H. apply NoDup_cons in H as [Ha Hl].
  destruct (k =? f a)%string eqn:E; [|auto].
  apply String.eqb_eq in E. subst k. simpl.
  assert (Hnil : List.filter (fun x => (f a =? f x)%string) l = []).
  { destruct (List.filter (fun x => (f a =? f x)%string) l) as [|b bs] eqn:Ef; [reflexivity|].
    exfalso. apply Ha.
    assert (Hb : In b (List.filter (fun x => (f a =? f x)%string) l))
      by (rewrite Ef; left; reflexivity).
    apply filter_In in Hb as [Hb Hfb]. apply String.eqb_eq in Hfb.
    apply list_elem_of_In. rewrite Hfb. apply in_map. exact Hb. }
  rewrite Hnil. simpl. lia.
Qed.

Lemma join_users_one_row (db : Store.Db) (c : Store.contact_row) :
  store_ok db -> length (Api.join_users db c) = 1%nat.
Proof.
  intros (_ & _ & H3 & _). unfold Api.join_users.
  pose proof (filter_unique_key Store.u_anonymous_id (Store.c_contact_anonymous_id c)
                (Store.users db) H3) as Hle.
  destruct (List.filter _ (Store.users db)) as [|u [|v us]]; simpl in *; [reflexivity|reflexivity|lia].
Qed.

Lemma flat_map_length_one {A B} (f : A -> list B) (l : list A) :
  (forall a, length (f a) = 1%nat) -> length (flat_map f l) = length l.
Proof.
  intros H. induction l as [|a l IH]; simpl; [reflexivity|].
  rewrite length_app, H, IH. reflexivity.
Qed.

(** X22. [get_contacts] answers 404 for an unknown caller.  For a known
    one it lists the anonymous ids the caller holds as contacts and no
    others, most recently added first, and the [is_online] of each entry
    is what the presence registry says of that id at the time of the
    call; in a store that satisfies the schema's constraints each
    contact is listed once. *)
Theorem contacts_listed_with_presence (db : Store.Db) (m : ConnectionManager) (t : string) :
  (Store.user_by_telegram_id db t = None ->
   Api.get_contacts db m t = Api.HTTPException 404 "User not found")
  /\ (forall u, Store.user_by_telegram_id db t = Some u ->
        exists views,
          Api.get_contacts db m t = Api.Returns views
          /\ (forall v, In v views ->
                Api.v_is_online v = is_online m (Api.v_anonymous_id v))
          /\ (forall id, In id (map Api.v_anonymous_id views)
                         <-> is_Some (Store.contact_of db (Store.u_id u) id))
          /\ newest_first (map Api.v_added_at views)
          /\ (store_ok db ->
              length views
              = length (List.filter (fun c => (Store.c_user_id c =? Store.u_id u)%string)
                                    (Store.contacts db)))).
Proof.
  unfold Api.get_contacts.
  destruct (Store.user_by_telegram_id db t) as [u|] eqn:Hu.
  - split; [discriminate|]. intros u0 Hu0. injection Hu0 as <-. cbv zeta.
    set (mine := List.filter (fun c => (Store.c_user_id c =? Store.u_id u)%string)
                             (Store.contacts db)).
    set (rows := flat_map (Api.join_users db) mine).
    pose proof (order_by_added_at_perm rows) as Hperm.
    eexists. split; [reflexivity|]. split; [|split; [|split]].
    + intros v Hv. apply in_map_iff in Hv as (r & <- & _). reflexivity.
    + intros id. rewrite map_map. cbn [Api.view_of Api.v_anonymous_id].
      split.
      * intros Hin. apply in_map_iff in Hin as (r & <- & Hr).
        apply (Permutation_in _ Hperm) in Hr.
        apply in_flat_map in Hr as (c & Hc & Hrc).
        rewrite (join_users_rows db c r Hrc).
        apply filter_In in Hc as [Hc Huid].
        unfold Store.contact_of.
        apply (find_is_Some _ _ c Hc).
        rewrite Huid, String.eqb_refl. reflexivity.
      * intros [c Hc]. unfold Store.contact_of in Hc.
        apply find_some in Hc as [Hc Hp]. apply andb_true_iff in Hp as [Ha Hb].
        apply String.eqb_eq in Hb. subst id.
        destruct (join_users_nonempty db c) as [r Hr].
        apply in_map_iff. exists r. split.
        -- rewrite (join_users_rows db c r Hr). reflexivity.
        -- apply (Permutation_in _ (Permutation_sym Hperm)).
           apply in_flat_map. exists c. split; [|exact Hr].
           apply filter_In. split; [exact Hc|exact Ha].
    + rewrite map_map. cbn [Api.view_of Api.v_added_at]. apply order_by_added_at_sorted.
    + intros Hok. rewrite length_map, (Permutation_length Hperm).
      apply flat_map_length_one. intros c. apply join_users_one_row. exact Hok.
  - split; [reflexivity|]. discriminate.
Qed.

(* ===================================================================== *)
(** * Further properties: init data and the webhook *)
(* ===================================================================== *)

Section DictOfFacts.
Context {V : Type}.
Implicit Types (d : list (string * V)) (k u : string) (v : V).

Lemma del_set_other u k v d : k <> u -> Dict.del k (Dict.set u v d) = Dict.set u v (Dict.del k d).
Proof.
  intros Hne. induction d as [|[k' v'] d IH]; simpl.
  - destruct (u =? k)%string eqn:E; [|reflexivity].
    apply String.eqb_eq in E. congruence.
  - destruct (k' =? u)%string eqn:E1; destruct (k' =? k)%string eqn:E2; simpl;
      rewrite ?E1, ?E2; simpl; try reflexivity.
    + apply String.eqb_eq in E1, E2. congruence.
    + exact IH.
    + f_equal. exact IH.
Qed.

Lemma mem_set_any u k v d : Dict.mem k (Dict.set u v d) = (u =? k)%string || Dict.mem k d.
Proof.
  induction d as [|[k' v'] d IH]; simpl.
  - reflexivity.
  - destruct (k' =? u)%string eqn:E; simpl.
    + apply String.eqb_eq in E. subst k'. destruct (u =? k)%string; reflexivity.
    + rewrite IH. destruct (k' =? k)%string, (u =? k)%string; reflexivity.
Qed.

End DictOfFacts.

Lemma fold_set_del (k : string) (qsl d : list (string * string)) :
  Dict.del k (fold_left (fun d kv => Dict.set (fst kv) (snd kv) d) qsl d)
  = fold_left (fun d kv => Dict.set (fst kv) (snd kv) d)
              (List.filter (fun kv => negb (fst kv =? k)%string) qsl) (Dict.del k d).
Proof.
  revert d. induction qsl as [|[a b] qsl IH]; intros d; simpl; [reflexivity|].
  rewrite IH. destruct (a =? k)%string eqn:E; simpl.
  - apply String.eqb_eq in E. subst a. rewrite del_set. reflexivity.
  - apply String.eqb_neq in E. rewrite del_set_other by congruence. reflexivity.
Qed.

Lemma fold_set_mem (k : string) (qsl d : list (string * string)) :
  Dict.mem k (fold_left (fun d kv => Dict.set (fst kv) (snd kv) d) qsl d)
  = Dict.mem k d || existsb (fun kv => (fst kv =? k)%string) qsl.
Proof.
  revert d. induction qsl as [|[a b] qsl IH]; intros d; simpl.
  - rewrite orb_false_r. reflexivity.
  - rewrite IH, mem_set_any. destruct (a =? k)%string, (Dict.mem k d); reflexivity.
Qed.

Lemma dict_of_snoc (qsl : list (string * string)) (k v : string) :
  Telegram.dict_of (qsl ++ [(k, v)]) = Dict.set k v (Telegram.dict_of qsl).
Proof. unfold Telegram.dict_of. rewrite fold_left_app. reflexivity. Qed.

Lemma filter_non_hash_idem (qsl : list (string * string)) :
  List.filter non_hash (List.filter non_hash qsl) = List.filter non_hash qsl.
Proof.
  induction qsl as [|kv qsl IH]; simpl; [reflexivity|].
  destruct (non_hash kv) eqn:E; simpl; [rewrite E, IH|]; auto.
Qed.

Lemma validate_depends_on (json_loads : string -> option json) (token : string)
      (q1 q2 : list (string * string)) :
  Dict.get "hash" (Telegram.dict_of q1) = Dict.get "hash" (Telegram.dict_of q2) ->
  Dict.del "hash" (Telegram.dict_of q1) = Dict.del "hash" (Telegram.dict_of q2) ->
  Telegram.validate_telegram_data json_loads token q1
  = Telegram.validate_telegram_data json_loads token q2.
Proof.
  intros Hg Hd. unfold Telegram.validate_telegram_data. rewrite Hg, Hd. reflexivity.
Qed.

(** X24. The digest is computed over the fields other than [hash], so it
    does not depend on the hash supplied: the signed dict is the dict of
    the non-hash pairs.  Of several [hash] fields the last one is the
    one compared, wherever it stands: the verdict on any init data is
    the verdict on their non-hash pairs followed by that hash. *)
Theorem digest_ignores_supplied_hash (json_loads : string -> option json) (token : string)
        (qsl : list (string * string)) :
  Dict.del "hash" (Telegram.dict_of qsl) = Telegram.dict_of (List.filter non_hash qsl)
  /\ Dict.get "hash" (Telegram.dict_of (List.filter non_hash qsl)) = None
  /\ (forall h, Dict.get "hash" (Telegram.dict_of (qsl ++ [("hash", h)])) = Some h)
  /\ (forall h, Dict.get "hash" (Telegram.dict_of qsl) = Some h ->
        Telegram.validate_telegram_data json_loads token qsl
        = Telegram.validate_telegram_data json_loads token
            (List.filter non_hash qsl ++ [("hash", h)])).
Proof.
  assert (Hdel : forall q, Dict.del "hash" (Telegram.dict_of q)
                           = Telegram.dict_of (List.filter non_hash q)).
  { intros q. unfold Telegram.dict_of. rewrite fold_set_del. reflexivity. }
  split; [apply Hdel|]. split; [|split].
  - assert (Hm : Dict.mem "hash" (Telegram.dict_of (List.filter non_hash qsl)) = false)
      by (rewrite <- Hdel; apply mem_del).
    rewrite mem_get_bool in Hm.
    destruct (Dict.get "hash" _); [discriminate|reflexivity].
  - intros h. rewrite dict_of_snoc. apply get_set.
  - intros h Hh. apply validate_depends_on.
    + rewrite dict_of_snoc, get_set. exact Hh.
    + rewrite !Hdel. rewrite List.filter_app, filter_non_hash_idem. simpl.
      rewrite app_nil_r. reflexivity.
Qed.

(** X25. With a bot token configured, init data that carry no [hash]
    field, or whose (last) [hash] field is empty, are rejected, whatever
    else they hold. *)
Theorem missing_hash_is_rejected (json_loads : string -> option json) (token : string)
        (qsl : list (string * string)) :
  token <> EmptyString ->
  ((forall kv, In kv qsl -> fst kv <> "hash") ->
   Telegram.validate_telegram_data json_loads token qsl = None)
  /\ Telegram.validate_telegram_data json_loads token (qsl ++ [("hash", "")]) = None.
Proof.
  intros Htok. unfold Telegram.validate_telegram_data.
  rewrite (eqb_empty_false _ Htok). cbv zeta. split.
  - intros Hno.
    assert (Hm : Dict.mem "hash" (Telegram.dict_of qsl) = false).
    { unfold Telegram.dict_of. rewrite fold_set_mem. simpl.
      destruct (existsb _ qsl) eqn:E; [|reflexivity].
      apply existsb_exists in E as (kv & Hin & Hk). apply String.eqb_eq in Hk.
      exfalso. exact (Hno kv Hin Hk). }
    rewrite mem_get_bool in Hm.
    destruct (Dict.get "hash" (Telegram.dict_of qsl)); [discriminate|reflexivity].
  - rewrite dict_of_snoc, get_set. reflexivity.
Qed.

Ltac webhook_case :=
  intros;
  repeat first
    [ match goal with
      | H : Webhook.Body_json _ = Webhook.Body_json _ |- _ => injection H as H; subst
      end
    | match goal with
      | H : JObj _ = JObj _ |- _ => injection H as H; subst
      end
    | match goal with
      | H : get_or ?f ?k ?d = _, H' : context [get_or ?f ?k ?d] |- _ =>
          progress rewrite H in H'
      end ];
  cbv iota in *;
  repeat match goal with
    | H : eq_str (JStr _) _ = _ |- _ => vm_compute in H
    end;
  first [ lia | reflexivity | discriminate | contradiction | congruence
        | (left; reflexivity) | (right; reflexivity) | (right; assumption)
        | (eexists _, _; repeat split; eassumption)
        | idtac ].

(** X23. Without a bot token [telegram_webhook] answers [ok: true] and
    does nothing.  With one, it posts at most once, and only for an
    update whose message text is exactly ["/start"]: the post goes to the
    bot's [sendMessage] URL with the chat id of the message ([null] when
    there is none), and [ok] is then whether the post returned.  Any
    other text is answered [ok: true] without a post; a body that does
    not decode, or an update, message or chat that is not an object, is
    answered [ok: false] without a post, whatever the text. *)
Theorem webhook_posts_only_on_start (token : string) (WEBAPP_URL : option string)
        (post_returns : bool) (body : Webhook.request_body) :
  Webhook.telegram_webhook "" WEBAPP_URL post_returns body = (true, [])
  /\ (token <> EmptyString ->
      let r := Webhook.telegram_webhook token WEBAPP_URL post_returns body in
      (length (snd r) <= 1)%nat
      /\ (forall fields mf cf,
            body = Webhook.Body_json (JObj fields) ->
            get_or fields "message" (JObj []) = JObj mf ->
            get_or mf "chat" (JObj []) = JObj cf ->
            (get_or mf "text" (JStr "") = JStr "/start" ->
             r = (post_returns,
                  [{| Webhook.post_url :=
                        String.append "https://api.telegram.org/bot"
                          (String.append token "/sendMessage");
                      Webhook.post_chat_id := get_or cf "id" JNull;
                      Webhook.post_webapp_url :=
                        match WEBAPP_URL with
                        | Some url => url
                        | None => "https://massagertg.tw1.su"
                        end |}]))
            /\ (eq_str (get_or mf "text" (JStr "")) "/start" = false -> r = (true, [])))
      /\ (snd r <> [] ->
          exists fields mf,
            body = Webhook.Body_json (JObj fields)
            /\ get_or fields "message" (JObj []) = JObj mf
            /\ get_or mf "text" (JStr "") = JStr "/start")
      /\ (fst r = false -> snd r = [] \/ post_returns = false)
      /\ (body = Webhook.Body_undecodable -> r = (false, []))
      /\ (forall update, body = Webhook.Body_json update ->
            match update with JObj _ => False | _ => True end -> r = (false, []))
      /\ (forall fields, body = Webhook.Body_json (JObj fields) ->
            match get_or fields "message" (JObj []) with JObj _ => False | _ => True end ->
            r = (false, []))
      /\ (forall fields mf, body = Webhook.Body_json (JObj fields) ->
            get_or fields "message" (JObj []) = JObj mf ->
            match get_or mf "chat" (JObj []) with JObj _ => False | _ => True end ->
            r = (false, []))).
Proof.
  split; [reflexivity|]. intros Htok. cbv zeta.
  unfold Webhook.telegram_webhook. rewrite (eqb_empty_false _ Htok).
  destruct body as [update|]; [destruct update as [| | | | |fields]|];
    cbn [Webhook.dict_get].
  6:{ destruct (get_or fields "message" (JObj [])) as [| | | | |mf] eqn:Hm;
        cbn [Webhook.dict_get].
      6:{ destruct (get_or mf "chat" (JObj [])) as [| | | | |cf] eqn:Hc;
            cbn [Webhook.dict_get].
          6:{ destruct (eq_str (get_or mf "text" (JStr "")) "/start") eqn:Et.
              - assert (Htext : get_or mf "text" (JStr "") = JStr "/start").
                { destruct (get_or mf "text" (JStr "")) as [| | |s| |]; try discriminate.
                  simpl in Et. apply String.eqb_eq in Et. subst s. reflexivity. }
                cbv zeta. cbn [fst snd length]. repeat split; webhook_case.
              - cbn [fst snd length]. repeat split; webhook_case. }
          all: cbn [fst snd length]; repeat split; webhook_case. }
      all: cbn [fst snd length]; repeat split; webhook_case. }
  all: cbn [fst snd length]; repeat split; webhook_case.
Qed.

(** ** Presence as the endpoints report it *)

(** X26. [search_user] answers 404 exactly when no user has the anonymous
    id.  Otherwise its body is the five public columns of that user (the
    row's [id], [telegram_id] and [created_at] are not in it) and
    [is_online] as the registry has it: true once the id's connection is
    registered, false once it has closed, by either exit; and it is true
    exactly for the ids [get_online_users] lists. *)
Theorem search_reports_presence (env : Env) (db : Store.Db) (m : ConnectionManager)
        (a : string) (ws : handle) (e : exn) (w : World) :
  (Store.user_by_anonymous_id db a = None
   <-> Api.search_user db m a = Api.HTTPException 404 "User not found")
  /\ (forall u, Store.user_by_anonymous_id db a = Some u ->
        Api.search_user db m a
        = Api.Returns {| Api.p_anonymous_id := a;
                         Api.p_name := Store.u_name u;
                         Api.p_status := Store.u_status u;
                         Api.p_gender := Store.u_gender u;
                         Api.p_avatar_url := Store.u_avatar_url u;
                         Api.p_is_online := is_online m a |})
  /\ is_online (manager (after (connect env a ws) w)) a = true
  /\ is_online (manager (after (on_exception env a e) w)) a = false
  /\ (is_online m a = true <-> In a (get_online_users m)).
Proof.
  split; [|split; [|split; [|split]]].
  - unfold Api.search_user.
    destruct (Store.user_by_anonymous_id db a); split; congruence.
  - intros u Hu. unfold Api.search_user. rewrite Hu.
    unfold Store.user_by_anonymous_id in Hu. apply find_some in Hu as [_ Hu].
    apply String.eqb_eq in Hu. rewrite Hu. reflexivity.
  - unfold after, is_online. rewrite connect_manager. cbn [active_connections].
    apply mem_set.
  - apply on_exception_unregisters.
  - unfold is_online, get_online_users. apply mem_In.
Qed.

(* ===================================================================== *)
(** * Examples and witnesses of the further properties *)
(* ===================================================================== *)

(** X4, witness: a status for [alice], whose socket is broken, is not
    delivered; the failure is logged and [alice] stays registered. *)
Lemma failed_delivery_keeps_registration_witness :
  fst (send_to_user handle_one_broken (JStr alice) pong two_online) = Ok false
  /\ log (after (send_to_user handle_one_broken (JStr alice) pong) two_online)
     = log two_online ++ [Log_send_failed (JStr alice) RuntimeError]
  /\ Dict.get alice
       (active_connections (manager (after (send_to_user handle_one_broken (JStr alice) pong)
                                           two_online)))
     = Some 1%nat.
Proof.
  destruct (failed_delivery_keeps_registration handle_one_broken alice pong two_online)
    as (_ & _ & _ & _ & H).
  exact (H 1%nat RuntimeError eq_refl eq_refl).
Defined.

(** X5, witness: [bob] signals typing to [alice], whose socket is broken.
    The send is attempted and fails; the event ends well all the same. *)
Lemma typing_event_is_best_effort_witness :
  fst (handle_event handle_one_broken 2%nat bob (JObj (typing_to (JStr alice))) two_online)
  = Ok tt
  /\ sent (after (handle_event handle_one_broken 2%nat bob (JObj (typing_to (JStr alice))))
                 two_online)
     = sent two_online
       ++ [{| sr_to := 1%nat; sr_msg := typing_envelope bob (JBool true);
              sr_result := Some RuntimeError |}].
Proof.
  destruct (typing_event_is_best_effort handle_one_broken 2%nat bob (typing_to (JStr alice))
              (JStr alice) (KStr alice) two_online eq_refl eq_refl eq_refl eq_refl)
    as (H1 & _ & _ & H4).
  split; [exact H1|exact H4].
Defined.

(** X6, witness: [alice], whose socket is broken, writes to [bob].  The
    message reaches [bob]; the receipt fails, which closes and
    unregisters [alice]'s connection, and the ping behind is not read. *)
Lemma failed_receipt_closes_connection_witness :
  fst (handle_event handle_one_broken 1%nat alice (JObj (message_to (JStr bob) "hi"))
         two_online) = Raise RuntimeError
  /\ fst (session handle_one_broken 1%nat alice
            [FrameJson (JObj (message_to (JStr bob) "hi")); FrameJson ping] two_online)
     = Ok CLOSED
  /\ is_online
       (manager (after (session handle_one_broken 1%nat alice
                          [FrameJson (JObj (message_to (JStr bob) "hi")); FrameJson ping])
                       two_online)) alice = false
  /\ nth_error (sent (after (handle_event handle_one_broken 1%nat alice
                               (JObj (message_to (JStr bob) "hi"))) two_online)) 1
     = Some {| sr_to := 2%nat;
               sr_msg := message_envelope alice "hi" "2024-01-01T00:00:00+00:00";
               sr_result := None |}.
Proof.
  destruct (failed_receipt_closes_connection handle_one_broken 1%nat alice
              (message_to (JStr bob) "hi") (JStr bob) "hi" (KStr bob) RuntimeError
              [FrameJson ping] two_online eq_refl eq_refl eq_refl
              ltac:(discriminate) eq_refl eq_refl eq_refl)
    as (H1 & H2 & H3 & H4).
  split; [exact H1|]. split; [exact H2|]. split; [exact H3|exact (H4 2%nat eq_refl)].
Defined.

(** X7, witness: an event of type [read], with a ping behind. *)
Lemma unknown_event_ignored_witness :
  handle_event calm 1%nat alice (JObj [("type", JStr "read")]) two_online = (Ok tt, two_online)
  /\ session calm 1%nat alice [FrameJson (JObj [("type", JStr "read")]); FrameJson ping]
       two_online
     = session calm 1%nat alice [FrameJson ping] two_online.
Proof.
  apply (unknown_event_ignored calm 1%nat alice [("type", JStr "read")] [FrameJson ping]
           two_online); reflexivity.
Defined.

(** X8, witness: a payload that is a list, a message whose text is a
    number, and a typing event whose recipient is a list. *)
Lemma malformed_payload_raises_witness :
  handle_event calm 1%nat alice (JArr []) two_online = (Raise AttributeError, two_online)
  /\ handle_event calm 1%nat alice
       (JObj [("type", JStr "message"); ("recipient_id", JStr bob); ("text", JNum 5)])
       two_online
     = (Raise AttributeError, two_online)
  /\ handle_event calm 1%nat alice (JObj (typing_to (JArr [JNum 1]))) two_online
     = (Raise TypeError, two_online)
  /\ fst (session calm 1%nat alice [FrameJson (JArr []); FrameJson ping] two_online)
     = Ok CLOSED.
Proof.
  destruct (malformed_payload_raises calm 1%nat alice two_online) as (H1 & H2 & _ & H4 & H5).
  split; [exact (H1 (JArr []) I)|].
  split;
    [exact (H2 [("type", JStr "message"); ("recipient_id", JStr bob); ("text", JNum 5)]
               (JNum 5) eq_refl eq_refl I)|].
  split; [exact (H4 (typing_to (JArr [JNum 1])) (JArr [JNum 1]) eq_refl eq_refl eq_refl eq_refl)|].
  exact (proj1 (H5 (JArr []) AttributeError [FrameJson ping] (H1 (JArr []) I)
                   ltac:(discriminate))).
Defined.

(** X9, witness: setting the flag of [alice] towards [bob]; a recipient
    that cannot be a key. *)
Lemma set_typing_touches_one_flag_witness :
  is_typing_to (manager (after (set_typing alice (JStr bob) (JBool true)) two_online))
               alice (KStr bob)
  /\ set_typing alice (JArr []) (JBool true) two_online = (Raise TypeError, two_online).
Proof.
  destruct (set_typing_touches_one_flag alice (JStr bob) (JBool true) two_online)
    as (_ & H & _).
  destruct (H (KStr bob) eq_refl) as (_ & Hiff & _).
  split; [apply Hiff; reflexivity|].
  exact (proj2 (proj2 (set_typing_touches_one_flag alice (JArr []) (JBool true) two_online))
               eq_refl).
Defined.

(** X12, witness: ["tg1"] signs in with init data whose hash is wrong. *)
Lemma supplied_telegram_id_skips_validation_witness :
  Api.auth_telegram loads_empty_object (fun _ => EmptyString) "TOKEN" two_users (Some "tg1")
    (signed_fields shouted_hash) "t0" "t1" []
  = (Api.Returns (user_of "u1" "tg1" alice), two_users).
Proof.
  exact (proj2 (supplied_telegram_id_skips_validation loads_empty_object loads_empty_object
                  (fun _ => EmptyString) (fun _ => EmptyString) "TOKEN" "TOKEN" two_users
                  "tg1" (signed_fields shouted_hash) [] "t0" "t1" [] ltac:(discriminate))
               (user_of "u1" "tg1" alice) eq_refl).
Defined.

(** X13, witness: the first sign-in of ["tg3"]; the first draw is
    [alice]'s id, the second is free. *)
Lemma sign_in_round_trip_witness :
  Api.auth_telegram loads_empty_object (fun _ => EmptyString) "TOKEN" two_users (Some "tg3")
    [] "t0" "t1" [1234567; 5555555]
  = (Api.Returns carol, with_carol)
  /\ Api.get_current_user with_carol "tg3" = Api.Returns carol
  /\ Api.auth_telegram loads_empty_object (fun _ => EmptyString) "TOKEN" with_carol
       (Some "tg3") [] "t8" "t9" []
     = (Api.Returns carol, with_carol).
Proof.
  assert (H : Api.auth_telegram loads_empty_object (fun _ => EmptyString) "TOKEN" two_users
                (Some "tg3") [] "t0" "t1" [1234567; 5555555]
              = (Api.Returns carol, with_carol)) by (vm_compute; reflexivity).
  destruct (sign_in_round_trip _ _ _ _ _ _ _ _ _ _ _ H) as (_ & H2 & H3 & _).
  split; [exact H|]. split; [exact H2|exact (H3 "t8" "t9" [])].
Defined.


(** X16, witness: signed init data whose user object has no [id] sign in
    the telegram id ["None"]. *)
Lemma validated_user_id_is_printed_witness :
  Api.auth_telegram loads_empty_object (fun _ => EmptyString) "TOKEN" two_users None
    (signed_fields good_hash) "t0" "t1" [5555555]
  = Api.auth_telegram loads_empty_object (fun _ => EmptyString) "TOKEN" two_users
      (Some "None") (signed_fields good_hash) "t0" "t1" [5555555].
Proof.
  assert (H : Telegram.validate_telegram_data loads_empty_object "TOKEN"
                (signed_fields good_hash) = Some (JObj [("user", JObj [])]))
    by (vm_compute; reflexivity).
  exact (proj1 (proj2 (validated_user_id_is_printed loads_empty_object
                         (fun _ => EmptyString) "TOKEN" two_users (signed_fields good_hash)
                         [] "t0" "t1" [5555555] H)) eq_refl).
Defined.

(** X17, witness: the ids of [alice] and [bob] are drawn first. *)
Lemma anonymous_id_is_fresh_witness :
  Api.generate_anonymous_id two_users [1234567; 7654321; 5555555] = Some "5555555"
  /\ Store.user_by_anonymous_id two_users "5555555" = None
  /\ String.length "5555555" = 7%nat
  /\ Api.generate_anonymous_id two_users [1234567; 7654321] = None.
Proof.
  destruct (anonymous_id_is_fresh two_users [1234567; 7654321; 5555555]%Z) as (H1 & _ & H3).
  split; [reflexivity|].
  split; [exact (proj1 (H1 "5555555" eq_refl))|].
  split.
  - refine (proj1 (H3 "5555555" eq_refl _)).
    intros m [<-|[<-|[<-|[]]]]; lia.
  - apply (proj2 (anonymous_id_is_fresh two_users [1234567; 7654321]%Z)).
    intros m [<-|[<-|[]]]; eexists; reflexivity.
Defined.

(** X18, witness: ["tg1"] sets a name; ["tg9"] is unknown. *)
Lemma update_changes_only_supplied_fields_witness :
  Api.update_user two_users "tg9" (set_name "Al")
  = (Api.HTTPException 404 "User not found", two_users)
  /\ exists u',
       fst (Api.update_user two_users "tg1" (set_name "Al")) = Api.Returns u'
       /\ Store.u_name u' = Some "Al"
       /\ Store.u_anonymous_id u' = alice
       /\ Store.u_notifications_enabled u' = true.
Proof.
  destruct (update_changes_only_supplied_fields two_users "tg1" (set_name "Al"))
    as (_ & H & _).
  split.
  - exact (proj1 (update_changes_only_supplied_fields two_users "tg9" (set_name "Al")) eq_refl).
  - destruct (H (user_of "u1" "tg1" alice) eq_refl)
      as (u' & E1 & _ & _ & _ & E5 & _ & E7 & _ & _ & _ & E11 & _).
    exists u'. split; [exact E1|]. split; [exact E7|]. split; [exact E5|exact E11].
Defined.

(** X20, witness: [alice] removes [bob]. *)
Lemma remove_contact_removes_one_pair_witness :
  is_Some (Store.contact_of alice_knows_bob "u1" bob)
  /\ fst (Api.remove_contact alice_knows_bob "tg1" bob) = Api.Returns "Contact removed"
  /\ Store.contact_of (snd (Api.remove_contact alice_knows_bob "tg1" bob)) "u1" bob = None
  /\ Api.remove_contact alice_knows_bob "tg9" bob
     = (Api.HTTPException 404 "User not found", alice_knows_bob).
Proof.
  split; [eexists; reflexivity|].
  destruct (remove_contact_removes_one_pair alice_knows_bob "tg1" bob) as (_ & H).
  destruct (H (user_of "u1" "tg1" alice) eq_refl) as (H1 & _ & H3 & _).
  split; [exact H1|]. split; [exact H3|].
  exact (proj1 (remove_contact_removes_one_pair alice_knows_bob "tg9" bob) eq_refl).
Defined.

(** X21, witness: [alice] adds [bob] and removes him again. *)
Lemma add_then_remove_restores_witness :
  Store.add_contact two_users "tg1" bob "t0" "t1"
  = (Store.Contact_added "91762fe2f5e14f39", alice_knows_bob)
  /\ Api.remove_contact alice_knows_bob "tg1" bob = (Api.Returns "Contact removed", two_users).
Proof.
  assert (H : Store.add_contact two_users "tg1" bob "t0" "t1"
              = (Store.Contact_added "91762fe2f5e14f39", alice_knows_bob))
    by (vm_compute; reflexivity).
  split; [exact H|].
  exact (proj1 (add_then_remove_restores two_users "tg1" bob "t0" "t1") _ _ H).
Defined.

(** X22, witness: [alice]'s contacts while [bob] is online. *)
Lemma contacts_listed_with_presence_witness :
  Api.get_contacts alice_knows_bob (manager two_online) "tg9"
  = Api.HTTPException 404 "User not found"
  /\ exists views,
       Api.get_contacts alice_knows_bob (manager two_online) "tg1" = Api.Returns views
       /\ map Api.v_anonymous_id views = [bob]
       /\ forall v, In v views -> Api.v_is_online v = is_online (manager two_online) bob.
Proof.
  destruct (contacts_listed_with_presence alice_knows_bob (manager two_online) "tg1")
    as (_ & H).
  split.
  - exact (proj1 (contacts_listed_with_presence alice_knows_bob (manager two_online) "tg9")
                 eq_refl).
  - destruct (H (user_of "u1" "tg1" alice) eq_refl) as (views & E & Hon & _).
    exists views. split; [exact E|].
    assert (Hv : views = map (Api.view_of (manager two_online))
                             (Api.order_by_added_at_desc
                                (flat_map (Api.join_users alice_knows_bob)
                                          (Store.contacts alice_knows_bob)))).
    { vm_compute in E. injection E as <-. vm_compute. reflexivity. }
    split; [rewrite Hv; reflexivity|].
    intros v Hin. rewrite (Hon v Hin). rewrite Hv in Hin.
    destruct Hin as [<-|[]]. reflexivity.
Defined.

(** X23, witness: the command [/start] typed in chat 42, the post going
    through; a body that does not decode. *)
Lemma webhook_posts_only_on_start_witness :
  Webhook.telegram_webhook "TOKEN" None true (Webhook.Body_json start_update)
  = (true,
     [{| Webhook.post_url := "https://api.telegram.org/botTOKEN/sendMessage";
         Webhook.post_chat_id := JNum 42;
         Webhook.post_webapp_url := "https://massagertg.tw1.su" |}])
  /\ Webhook.telegram_webhook "TOKEN" None true Webhook.Body_undecodable = (false, []).
Proof.
  pose proof (proj2 (webhook_posts_only_on_start "TOKEN" None true
                       (Webhook.Body_json start_update)) ltac:(discriminate)) as H.
  pose proof (proj2 (webhook_posts_only_on_start "TOKEN" None true Webhook.Body_undecodable)
                    ltac:(discriminate)) as H'.
  cbv zeta in H, H'.
  destruct H as (_ & H2 & _). destruct H' as (_ & _ & _ & _ & H5 & _).
  split; [|exact (H5 eq_refl)].
  exact (proj1 (H2 [("message", JObj [("chat", JObj [("id", JNum 42)]); ("text", JStr "/start")])]
                   [("chat", JObj [("id", JNum 42)]); ("text", JStr "/start")]
                   [("id", JNum 42)] eq_refl eq_refl eq_refl) eq_refl).
Defined.

(** X24, witness: the signed example keeps its verdict when its fields
    are put in another order with the hash last. *)
Lemma digest_ignores_supplied_hash_witness :
  Telegram.validate_telegram_data loads_empty_object "TOKEN" (signed_fields good_hash)
  = Telegram.validate_telegram_data loads_empty_object "TOKEN"
      (unsigned_fields ++ [("hash", good_hash)]).
Proof.
  destruct (digest_ignores_supplied_hash loads_empty_object "TOKEN" (signed_fields good_hash))
    as (_ & _ & _ & H).
  exact (H good_hash eq_refl).
Defined.

(** X25, witness: the example fields without their hash, and with an
    empty one. *)
Lemma missing_hash_is_rejected_witness :
  Telegram.validate_telegram_data loads_empty_object "TOKEN" unsigned_fields = None
  /\ Telegram.validate_telegram_data loads_empty_object "TOKEN"
       (unsigned_fields ++ [("hash", "")]) = None.
Proof.
  destruct (missing_hash_is_rejected loads_empty_object "TOKEN" unsigned_fields
              ltac:(discriminate)) as [H1 H2].
  split; [|exact H2].
  apply H1. intros kv [<-|[<-|[]]]; discriminate.
Defined.

(** X26, witness: [bob] is found and shown online while connected, and
    offline after his connection failed; ["0000000"] is nobody's id. *)
Lemma search_reports_presence_witness :
  Api.search_user two_users (manager two_online) bob
  = Api.Returns {| Api.p_anonymous_id := bob; Api.p_name := None; Api.p_status := None;
                   Api.p_gender := None; Api.p_avatar_url := None;
                   Api.p_is_online := true |}
  /\ Api.search_user two_users (manager two_online) "0000000"
     = Api.HTTPException 404 "User not found"
  /\ is_online (manager (after (on_exception calm bob RuntimeError) two_online)) bob = false.
Proof.
  destruct (search_reports_presence calm two_users (manager two_online) bob 2%nat
              RuntimeError two_online) as (_ & H & _ & Hoff & _).
  split; [exact (H (user_of "u2" "tg2" bob) eq_refl)|].
  split; [|exact Hoff].
  exact (proj1 (proj1 (search_reports_presence calm two_users (manager two_online) "0000000"
                         2%nat RuntimeError two_online)) eq_refl).
Defined.
